(** * Avvo lawyers scraper: a shallow embedding of [src/main.js]

    The scraper is a single JavaScript module.  Its pure parts
    ([parseAttorneySchema], the de-duplication filter, the budget
    arithmetic) are embedded as functions; its effects (the dataset sink,
    the key-value store, the request queue, the strategy calls, the
    profile fetches) are recorded in an append-only trace carried by the
    run state.  Everything the module obtains from the browser, from
    cheerio or from the network is an observation supplied by the
    environment: a [Page] record and the [Host] operations. *)

From Stdlib Require Import List String Ascii ZArith Bool Lia.
Import ListNotations.

Set Warnings "-register-all".

Local Open Scope string_scope.
Local Open Scope list_scope.

(** ** JavaScript values *)

(** JavaScript numbers are IEEE doubles.  The module never computes with
    the numbers it finds in scraped data: it tests their truthiness, turns
    them into text inside [Array.prototype.join] and compares them inside
    [Set.prototype.has].  Those observations, and the integer literals of
    the source, are the interface. *)
Class NumberOps (number : Type) : Type := {
  number_of_Z : Z -> number;
  (* +0, -0 and NaN *)
  number_is_falsy : number -> bool;
  (* Number::toString *)
  number_to_string : number -> string;
  (* SameValueZero on numbers *)
  number_same_value_zero : number -> number -> bool
}.

(** Integer-valued numbers, used for the concrete runs below. *)
Definition Z_to_string (n : Z) : string :=
  let digits := fix digits (fuel : nat) (p : positive) (acc : string) : string :=
    match fuel with
    | O => acc
    | S fuel' =>
        let d := Z.to_nat (Z.pos p mod 10) in
        let acc' := String (ascii_of_nat (48 + d)) acc in
        match (Z.pos p / 10)%Z with
        | Z.pos q => digits fuel' q acc'
        | _ => acc'
        end
    end in
  match n with
  | Z0 => "0"
  | Z.pos p => digits (Pos.to_nat p) p ""
  | Z.neg p => "-" ++ digits (Pos.to_nat p) p ""
  end.

#[export] Instance Z_NumberOps : NumberOps Z := {
  number_of_Z := fun n => n;
  number_is_falsy := fun n => (n =? 0)%Z;
  number_to_string := Z_to_string;
  number_same_value_zero := Z.eqb
}.

(** A value as [JSON.parse] builds it, plus [undefined].  An object is the
    list of its own properties; the first binding of a name is the one a
    property read sees. *)
Inductive JsValue (number : Type) : Type :=
| JsUndefined
| JsNull
| JsBool (b : bool)
| JsNumber (n : number)
| JsString (s : string)
| JsArray (elements : list (JsValue number))
| JsObject (properties : list (string * JsValue number)).

Arguments JsUndefined {number}.
Arguments JsNull {number}.
Arguments JsBool {number} b.
Arguments JsNumber {number} n.
Arguments JsString {number} s.
Arguments JsArray {number} elements.
Arguments JsObject {number} properties.

(** ** String helpers of the runtime that are plain functions *)

(** [haystack.includes(needle)] *)
Fixpoint includes (needle haystack : string) : bool :=
  String.prefix needle haystack ||
  match haystack with
  | EmptyString => false
  | String _ rest => includes needle rest
  end.

(** [s.startsWith(p)] *)
Definition startsWith (p s : string) : bool := String.prefix p s.

Definition string_is_empty (s : string) : bool :=
  match s with EmptyString => true | String _ _ => false end.

(** [for (const c of s)]: the characters of a string, each a string. *)
Fixpoint string_chars (s : string) : list string :=
  match s with
  | EmptyString => []
  | String c rest => String c EmptyString :: string_chars rest
  end.

Section Scraper.

Context {number : Type} {NUM : NumberOps number}.

Local Abbreviation Value := (JsValue number).

(** ToBoolean *)
Definition truthy (v : Value) : bool :=
  match v with
  | JsUndefined | JsNull => false
  | JsBool b => b
  | JsNumber n => negb (number_is_falsy n)
  | JsString s => negb (string_is_empty s)
  | JsArray _ | JsObject _ => true
  end.

(** [a || b] *)
Definition js_or (a b : Value) : Value := if truthy a then a else b.

Definition is_nullish (v : Value) : bool :=
  match v with JsUndefined | JsNull => true | _ => false end.

Fixpoint lookup_property (key : string) (props : list (string * Value)) : Value :=
  match props with
  | [] => JsUndefined
  | (k, v) :: rest => if String.eqb k key then v else lookup_property key rest
  end.

(** [v.key] for a value that is not null or undefined, and a key that is
    neither an array index nor a built-in member ([length] and the like):
    only objects carry such a property. *)
Definition js_get (v : Value) (key : string) : Value :=
  match v with
  | JsObject props => lookup_property key props
  | _ => JsUndefined
  end.

(** [v?.key] *)
Definition js_get_opt (v : Value) (key : string) : Value :=
  if is_nullish v then JsUndefined else js_get v key.

(** [v === 'literal'] *)
Definition strict_eq_string (v : Value) (literal : string) : bool :=
  match v with
  | JsString s => String.eqb s literal
  | _ => false
  end.

(** ToString, with the default [Object.prototype.toString]; an array is
    its elements joined with a comma, null and undefined elements giving
    the empty string. *)
Fixpoint js_to_string (v : Value) : string :=
  match v with
  | JsUndefined => "undefined"
  | JsNull => "null"
  | JsBool true => "true"
  | JsBool false => "false"
  | JsNumber n => number_to_string n
  | JsString s => s
  | JsArray elements =>
      String.concat ","
        (map (fun e => match e with
                       | JsUndefined | JsNull => ""
                       | _ => js_to_string e
                       end) elements)
  | JsObject _ => "[object Object]"
  end.

(** [elements.join(sep)] *)
Definition js_join (sep : string) (elements : list Value) : string :=
  String.concat sep
    (map (fun e => if is_nullish e then "" else js_to_string e) elements).

(** SameValueZero, the equality of [Set.prototype.has].  Objects and
    arrays are compared by reference; every object that reaches the set
    is a node of a fresh [JSON.parse] result, so two of them are never
    the same reference. *)
Definition same_value_zero (a b : Value) : bool :=
  match a, b with
  | JsUndefined, JsUndefined => true
  | JsNull, JsNull => true
  | JsBool x, JsBool y => Bool.eqb x y
  | JsNumber x, JsNumber y => number_same_value_zero x y
  | JsString x, JsString y => String.eqb x y
  | _, _ => false
  end.

(** ** The canonical record *)

(** The object literal every extraction strategy builds.  [education] and
    [awards] are absent until the enrichment pass adds them. *)
Record Lawyer : Type := mkLawyer {
  name : Value;
  rating : Value;
  reviewCount : Value;
  practiceAreas : Value;
  location : Value;
  phone : Value;
  email : Value;
  website : Value;
  yearsLicensed : Value;
  barAdmissions : Value;
  languages : Value;
  profileUrl : Value;
  bio : Value;
  scrapedAt : Value;
  education : option Value;
  awards : option Value
}.

(** ** parseAttorneySchema (main.js 77-111) *)

(** [now] is the reading of [new Date().toISOString()]. *)
Definition parseAttorneySchema (now : string) (attorneyData : Value) : Lawyer :=
  let address := js_or (js_get attorneyData "address") (JsObject []) in
  let location :=
    match address with
    | JsString s => s
    | _ =>
        js_join ", "
          (filter truthy
             [ js_get address "addressLocality";
               js_get address "addressRegion";
               js_get address "postalCode" ])
    end in
  let practiceAreas :=
    match js_get attorneyData "knowsAbout" with
    | JsArray elements => JsArray elements
    | _ =>
        if truthy (js_get attorneyData "areaServed")
        then JsArray [js_get attorneyData "areaServed"]
        else JsArray []
    end in
  {| name := js_or (js_get attorneyData "name") (JsString "");
     rating :=
       js_or (js_get_opt (js_get attorneyData "aggregateRating") "ratingValue")
             JsNull;
     reviewCount :=
       js_or (js_get_opt (js_get attorneyData "aggregateRating") "reviewCount")
             (JsNumber (number_of_Z 0));
     practiceAreas := practiceAreas;
     location := JsString location;
     phone := js_or (js_get attorneyData "telephone") (JsString "");
     email := js_or (js_get attorneyData "email") (JsString "");
     website := js_or (js_get attorneyData "url") (JsString "");
     yearsLicensed := JsNull;
     barAdmissions := JsArray [];
     languages := JsArray [];
     profileUrl := js_or (js_get attorneyData "url") (JsString "");
     bio := js_or (js_get attorneyData "description") (JsString "");
     scrapedAt := JsString now;
     education := None;
     awards := None |}.


(** ** extractLawyersViaJsonLD (main.js 15-72) *)

(** [item['@type'] === 'Attorney' || ... === 'Person' || ... === 'LegalService'] *)
Definition hasAttorneyType (item : Value) : bool :=
  strict_eq_string (js_get item "@type") "Attorney" ||
  strict_eq_string (js_get item "@type") "Person" ||
  strict_eq_string (js_get item "@type") "LegalService".

(** [for (const item of v)]: an array yields its elements, a string its
    characters; anything else is not iterable and the loop header throws. *)
Definition iterate (v : Value) : option (list Value) :=
  match v with
  | JsArray elements => Some elements
  | JsString s => Some (map JsString (string_chars s))
  | _ => None
  end.

(** The loop over candidate entries.  Reading ['@type'] of a null entry
    throws a TypeError, which the [catch] around the script swallows: the
    loop stops there and the records already pushed stay. *)
Fixpoint collectAttorneys (now : string) (items : list Value) : list Lawyer :=
  match items with
  | [] => []
  | item :: rest =>
      if is_nullish item then []
      else
        (if hasAttorneyType item then [parseAttorneySchema now item] else [])
        ++ collectAttorneys now rest
  end.

(** The loop over [itemListElement], with [listItem.item || listItem]. *)
Fixpoint collectListItems (now : string) (listItems : list Value) : list Lawyer :=
  match listItems with
  | [] => []
  | listItem :: rest =>
      if is_nullish listItem then []
      else
        let item := js_or (js_get listItem "item") listItem in
        (if hasAttorneyType item then [parseAttorneySchema now item] else [])
        ++ collectListItems now rest
  end.

(** The body of the [try] for one script whose text parsed to [data]. *)
Definition extractFromJsonLD (now : string) (data : Value) : list Lawyer :=
  match data with
  | JsArray items => collectAttorneys now items
  | JsUndefined | JsNull => []
  | _ =>
      if hasAttorneyType data then [parseAttorneySchema now data]
      else if truthy (js_get data "@graph") then
        match iterate (js_get data "@graph") with
        | Some items => collectAttorneys now items
        | None => []
        end
      else if strict_eq_string (js_get data "@type") "ItemList"
              && truthy (js_get data "itemListElement") then
        match iterate (js_get data "itemListElement") with
        | Some listItems => collectListItems now listItems
        | None => []
        end
      else []
  end.

(** [scripts] is what [page.$$eval] returned, each text already through
    [JSON.parse] ([None] where the parse throws); the outer [None] is a
    rejected [$$eval], which the outer [catch] turns into no records. *)
Definition extractLawyersViaJsonLD (now : string)
    (scripts : option (list (option Value))) : list Lawyer :=
  match scripts with
  | None => []
  | Some jsonLdScripts =>
      flat_map (fun parsed =>
                  match parsed with
                  | Some data => extractFromJsonLD now data
                  | None => []
                  end) jsonLdScripts
  end.

(** ** The host: string built-ins, cheerio and got-scraping *)

(** The outcome of awaiting [gotScraping(...)]: a response, or a rejection
    carrying an error whose [message] may be missing. *)
Inductive FetchOutcome : Type :=
| Responded (statusCode : Z) (body : string)
| Rejected (message : option string).

Class Host : Type := {
  (* String.prototype.trim and String.prototype.toLowerCase *)
  trim : string -> string;
  toLowerCase : string -> string;
  (* cheerio.load(html)(selector): the text of each matched element, in
     document order *)
  cheerio_texts : string -> string -> list string;
  (* gotScraping({ url, headers: { Cookie, 'User-Agent', ... } }) *)
  gotScraping : Value -> string -> string -> FetchOutcome
}.

Context {HOST : Host}.

(** [$(selector).text()] and [$(selector).first().text()] *)
Definition cheerio_text (html selector : string) : string :=
  String.concat "" (cheerio_texts html selector).

Definition cheerio_first_text (html selector : string) : string :=
  match cheerio_texts html selector with
  | [] => ""
  | t :: _ => t
  end.

(** ** fetchLawyerProfile (main.js 117-181) *)

(** What the function resolves to: [{ blocked: true }], [null], or the
    [additionalInfo] object.  It has no failing outcome: the whole body
    sits in a [try] whose [catch] returns. *)
Inductive ProfileData : Type :=
| ProfileBlocked
| ProfileNull
| ProfileInfo (info_bio : string) (info_education info_awards : list string).

Definition defaultUserAgent : string :=
  "Mozilla/5.0 (Windows NT 10.0; Win64; x64; rv:128.0) Gecko/20100101 Firefox/128.0".

(** The selectors contain double quotes. *)
Definition dq : string := String (ascii_of_nat 34) EmptyString.

Definition bioSelector : string :=
  "[data-testid=" ++ dq ++ "bio" ++ dq ++ "], .lawyer-bio, .bio-text, .profile-bio".
Definition educationSelector : string :=
  "[data-testid=" ++ dq ++ "education" ++ dq
  ++ "] li, .education-item, .school-item, [class*=" ++ dq ++ "education" ++ dq ++ "] li".
Definition awardsSelector : string :=
  "[data-testid=" ++ dq ++ "awards" ++ dq
  ++ "] li, .award-item, [class*=" ++ dq ++ "award" ++ dq ++ "] li".

(** The [.each] loops: trimmed text of every match, empty ones dropped. *)
Definition collectTexts (html selector : string) : list string :=
  filter (fun t => negb (string_is_empty t)) (map trim (cheerio_texts html selector)).

Definition isChallengeTitle (title : string) : bool :=
  includes "Just a moment" title || includes "Cloudflare" title.

Definition fetchLawyerProfile (profileUrl : Value) (cookies userAgent : string)
    : ProfileData :=
  match gotScraping profileUrl cookies
          (if string_is_empty userAgent then defaultUserAgent else userAgent) with
  | Responded statusCode body =>
      if ((statusCode =? 403) || (statusCode =? 503))%Z then ProfileBlocked
      else if negb (statusCode =? 200)%Z then ProfileNull
      else if isChallengeTitle (cheerio_text body "title") then ProfileBlocked
      else
        ProfileInfo (trim (cheerio_first_text body bioSelector))
                    (collectTexts body educationSelector)
                    (collectTexts body awardsSelector)
  | Rejected (Some message) =>
      if negb (string_is_empty message)
         && (includes "403" message || includes "503" message)
      then ProfileBlocked
      else ProfileNull
  | Rejected None => ProfileNull
  end.

(** ** enrichLawyersWithProfiles (main.js 186-242) *)

(** [{ ...lawyer, bio, education, awards }] *)
Definition withProfile (lawyer : Lawyer) (newBio : Value)
    (newEducation newAwards : Value) : Lawyer :=
  {| name := name lawyer;
     rating := rating lawyer;
     reviewCount := reviewCount lawyer;
     practiceAreas := practiceAreas lawyer;
     location := location lawyer;
     phone := phone lawyer;
     email := email lawyer;
     website := website lawyer;
     yearsLicensed := yearsLicensed lawyer;
     barAdmissions := barAdmissions lawyer;
     languages := languages lawyer;
     profileUrl := profileUrl lawyer;
     bio := newBio;
     scrapedAt := scrapedAt lawyer;
     education := Some newEducation;
     awards := Some newAwards |}.

(** The closure mapped over a batch (main.js 204-225), threading the
    [blockedCount] it increments. *)
Definition enrichLawyer (cookieString userAgent : string)
    (blockedCount : Z) (lawyer : Lawyer) : Lawyer * Z :=
  if negb (truthy (profileUrl lawyer)) then (lawyer, blockedCount)
  else
    match fetchLawyerProfile (profileUrl lawyer) cookieString userAgent with
    | ProfileBlocked => (lawyer, (blockedCount + 1)%Z)
    | ProfileInfo info_bio info_education info_awards =>
        (withProfile lawyer
           (js_or (JsString info_bio) (bio lawyer))
           (JsArray (map JsString info_education))
           (JsArray (map JsString info_awards)),
         blockedCount)
    | ProfileNull => (lawyer, blockedCount)
    end.

(** [Promise.all(batch.map(...))]: the results keep the order of the
    batch.  The fetches of a batch overlap in time, but each increment of
    [blockedCount] is a single step of the one JavaScript thread, so the
    count after the batch does not depend on the interleaving. *)
Fixpoint enrichBatch (cookieString userAgent : string)
    (batch : list Lawyer) (blockedCount : Z) : list Lawyer * Z :=
  match batch with
  | [] => ([], blockedCount)
  | lawyer :: rest =>
      let '(lawyer', blockedCount') :=
        enrichLawyer cookieString userAgent blockedCount lawyer in
      let '(rest', blockedCount'') :=
        enrichBatch cookieString userAgent rest blockedCount' in
      (lawyer' :: rest', blockedCount'')
  end.

(** [list.slice(from, to)] for [0 <= from <= to] *)
Definition slice {A : Type} (from to : nat) (l : list A) : list A :=
  firstn (to - from)%nat (skipn from l).

(** The [for (let i = 0; i < lawyers.length; i += batchSize)] loop; with a
    positive [batchSize], [length lawyers] rounds are enough. *)
Fixpoint enrichLoop (fuel : nat) (cookieString userAgent : string)
    (batchSize : nat) (lawyers : list Lawyer) (i : nat)
    (enrichedLawyers : list Lawyer) (blockedCount : Z) : list Lawyer * Z :=
  match fuel with
  | O => (enrichedLawyers, blockedCount)
  | S fuel' =>
      if (i <? List.length lawyers)%nat then
        let batch := slice i (i + batchSize)%nat lawyers in
        let '(batchResults, blockedCount') :=
          enrichBatch cookieString userAgent batch blockedCount in
        enrichLoop fuel' cookieString userAgent batchSize lawyers
          (i + batchSize)%nat (enrichedLawyers ++ batchResults) blockedCount'
      else (enrichedLawyers, blockedCount)
  end.

Definition makeCookieString (cookies : list (string * string)) : string :=
  String.concat "; " (map (fun c => (fst c ++ "=" ++ snd c)%string) cookies).

(** The result is paired with the final value of the local
    [blockedCount], which the function only logs. *)
Definition enrichLawyersWithProfiles (lawyers : list Lawyer)
    (cookies : list (string * string)) (userAgent : string)
    (maxConcurrency : nat) : list Lawyer * Z :=
  match lawyers with
  | [] => (lawyers, 0%Z)
  | _ :: _ =>
      enrichLoop (List.length lawyers) (makeCookieString cookies) userAgent
        maxConcurrency lawyers 0 [] 0%Z
  end.

(** ** The run: state, effects and the rendered page *)

Inductive Strategy : Type := JsonLD | InternalAPI | HtmlParsing.

(** The effects of a run that leave the module, in the order they happen.
    Of the log lines only the two that carry diagnostics are kept: the
    page-structure analysis of [saveDebugInfo] and the error of the
    handler's [catch]. *)
Inductive Event : Type :=
| StrategyInvoked (strategy : Strategy)
| StructureLogged (articleCount divLawyerCount dataTestIdCount : nat)
    (title : string) (hasCloudflare : bool)
| ValueSet (key value : string)
| DataPushed (records : list Lawyer)
| RequestAdded (url : string)
| ErrorLogged (message url : string)
| StatisticsSet (total pages : Z) (method : string).

(** The variables of the main [try] block that the handler closes over
    (main.js 692-697), and the trace. *)
Record RunState : Type := mkRunState {
  totalLawyersScraped : Z;
  pagesProcessed : Z;
  extractionMethod : string;
  seenLawyerUrls : list Value;
  trace : list Event
}.

Definition emit (e : Event) (st : RunState) : RunState :=
  {| totalLawyersScraped := totalLawyersScraped st;
     pagesProcessed := pagesProcessed st;
     extractionMethod := extractionMethod st;
     seenLawyerUrls := seenLawyerUrls st;
     trace := trace st ++ [e] |}.

Definition setExtractionMethod (label : string) (st : RunState) : RunState :=
  {| totalLawyersScraped := totalLawyersScraped st;
     pagesProcessed := pagesProcessed st;
     extractionMethod := label;
     seenLawyerUrls := seenLawyerUrls st;
     trace := trace st |}.

Definition setSeenLawyerUrls (seen : list Value) (st : RunState) : RunState :=
  {| totalLawyersScraped := totalLawyersScraped st;
     pagesProcessed := pagesProcessed st;
     extractionMethod := extractionMethod st;
     seenLawyerUrls := seen;
     trace := trace st |}.

Definition addTotalLawyersScraped (n : Z) (st : RunState) : RunState :=
  {| totalLawyersScraped := (totalLawyersScraped st + n)%Z;
     pagesProcessed := pagesProcessed st;
     extractionMethod := extractionMethod st;
     seenLawyerUrls := seenLawyerUrls st;
     trace := trace st |}.

Definition incrPagesProcessed (st : RunState) : RunState :=
  {| totalLawyersScraped := totalLawyersScraped st;
     pagesProcessed := (pagesProcessed st + 1)%Z;
     extractionMethod := extractionMethod st;
     seenLawyerUrls := seenLawyerUrls st;
     trace := trace st |}.

(** The records handed to [Actor.pushData] so far. *)
Definition sink (st : RunState) : list Lawyer :=
  flat_map (fun e => match e with DataPushed records => records | _ => [] end)
           (trace st).

(** What the handler observes of the page it is given.  The challenge
    loop reads the title and body text once per round, and the page may
    change between rounds, so those two are indexed by the round. *)
Record Page : Type := mkPage {
  (* page.goto: [Some message] when it rejects with that error *)
  page_goto : option string;
  (* page.title() in round n *)
  page_title : nat -> string;
  (* document.body?.innerText?.substring(0, 500) || '' in round n *)
  page_bodyText : nat -> string;
  (* page.content(); [None] when it rejects *)
  page_content : option string;
  (* the JSON-LD scripts, see extractLawyersViaJsonLD *)
  page_jsonLdScripts : option (list (option Value));
  (* what extractLawyersViaAPI(page) and extractLawyerDataViaHTML(page)
     return; both swallow their own errors *)
  page_apiLawyers : list Lawyer;
  page_htmlLawyers : list Lawyer;
  (* page.context().cookies() as name/value pairs, navigator.userAgent *)
  page_cookies : list (string * string);
  page_userAgent : string;
  (* truthiness of [nextButton && !nextButton.classList.contains('disabled')] *)
  page_hasNextPage : bool;
  (* nextButton?.href || '' *)
  page_nextPageUrl : string;
  (* new Date().toISOString() while the page is handled *)
  page_clock : string
}.

(** ** saveDebugInfo (main.js 637-660) *)

Definition saveDebugInfo (page : Page) (st : RunState) : RunState :=
  match page_content page with
  | None => st
  | Some html =>
      emit (ValueSet "DEBUG_PAGE_HTML" html)
        (emit (StructureLogged
                 (List.length (cheerio_texts html "article"))
                 (List.length (cheerio_texts html
                                 ("[class*=" ++ dq ++ "lawyer" ++ dq ++ "]")))
                 (List.length (cheerio_texts html "[data-testid]"))
                 (cheerio_text html "title")
                 (includes "Just a moment" html || includes "cf-browser" html))
              st)
  end.

(** ** requestHandler (main.js 724-899) *)

Definition maxRetries : nat := 3.

(** The condition of the [if] inside the retry loop (main.js 755-758). *)
Definition challengeDetected (title bodyText : string) : bool :=
  includes "Just a moment" title ||
  includes "Cloudflare" title ||
  includes "unusual traffic" bodyText ||
  includes "Checking your browser" bodyText.

(** [while (retryCount < maxRetries)], returning the final [retryCount].
    The waits and the Turnstile click change nothing the module reads
    except the page itself, which the next round observes afresh. *)
Fixpoint challengeLoop (fuel : nat) (page : Page) (retryCount : nat) : nat :=
  match fuel with
  | O => retryCount
  | S fuel' =>
      if (retryCount <? maxRetries)%nat then
        if challengeDetected (page_title page retryCount)
                             (page_bodyText page retryCount)
        then challengeLoop fuel' page (S retryCount)
        else retryCount
      else retryCount
  end.

Definition isEmpty {A : Type} (l : list A) : bool :=
  match l with [] => true | _ :: _ => false end.

(** The strategy cascade (main.js 798-823). *)
Definition runStrategies (page : Page) (st : RunState)
    : list Lawyer * RunState :=
  let st := emit (StrategyInvoked JsonLD) st in
  let lawyers := extractLawyersViaJsonLD (page_clock page) (page_jsonLdScripts page) in
  let st := if isEmpty lawyers then st else setExtractionMethod "JSON-LD" st in
  let '(lawyers, st) :=
    if isEmpty lawyers then
      let st := emit (StrategyInvoked InternalAPI) st in
      let lawyers := page_apiLawyers page in
      (lawyers,
       if isEmpty lawyers then st else setExtractionMethod "Internal API" st)
    else (lawyers, st) in
  if isEmpty lawyers then
    let st := emit (StrategyInvoked HtmlParsing) st in
    let lawyers := page_htmlLawyers page in
    (lawyers,
     if isEmpty lawyers then st
     else setExtractionMethod "HTML Parsing (Cheerio)" st)
  else (lawyers, st).

(** [seenLawyerUrls.has(v)]; the set is kept in insertion order. *)
Definition setHas (seen : list Value) (v : Value) : bool :=
  existsb (same_value_zero v) seen.

(** The [filter] callback run over [lawyersToSave] (main.js 835-845),
    with the set it mutates. *)
Fixpoint uniqueFilter (seen : list Value) (lawyersToSave : list Lawyer)
    : list Lawyer * list Value :=
  match lawyersToSave with
  | [] => ([], seen)
  | lawyer :: rest =>
      if negb (truthy (profileUrl lawyer)) then
        let '(kept, seen') := uniqueFilter seen rest in (lawyer :: kept, seen')
      else if setHas seen (profileUrl lawyer) then uniqueFilter seen rest
      else
        let '(kept, seen') := uniqueFilter (seen ++ [profileUrl lawyer]) rest in
        (lawyer :: kept, seen')
  end.

(** Budget slice, de-duplication, optional enrichment and push
    (main.js 831-862), for the non-empty [lawyers] of a page.
    [includeContactInfo] is the truthiness of [input.includeContactInfo]. *)
Definition saveLawyers (includeContactInfo : bool) (maxLawyers : Z)
    (page : Page) (lawyers : list Lawyer) (st : RunState) : RunState :=
  let lawyersToSave :=
    if (0 <? maxLawyers)%Z
    then slice 0 (Z.to_nat (Z.max 0 (maxLawyers - totalLawyersScraped st)))
               lawyers
    else lawyers in
  let '(uniqueLawyers, seen) :=
    uniqueFilter (seenLawyerUrls st) lawyersToSave in
  let st := setSeenLawyerUrls seen st in
  let lawyersToSave := uniqueLawyers in
  let lawyersToSave :=
    if negb (isEmpty lawyersToSave) && includeContactInfo
    then fst (enrichLawyersWithProfiles lawyersToSave
                (page_cookies page) (page_userAgent page) 10)
    else lawyersToSave in
  if negb (isEmpty lawyersToSave)
  then addTotalLawyersScraped (Z.of_nat (List.length lawyersToSave))
         (emit (DataPushed lawyersToSave) st)
  else st.

(** The budget check and the next-page request (main.js 864-889), with
    the requests passed to [crawler.addRequests]. *)
Definition paginate (maxLawyers : Z) (page : Page) (st : RunState)
    : RunState * list string :=
  if (0 <? maxLawyers)%Z && (maxLawyers <=? totalLawyersScraped st)%Z
  then (st, [])
  else if page_hasNextPage page && (totalLawyersScraped st <? maxLawyers)%Z
  then
    let nextPageUrl := page_nextPageUrl page in
    if negb (string_is_empty nextPageUrl) && startsWith "http" nextPageUrl
    then (emit (RequestAdded nextPageUrl) st, [nextPageUrl])
    else (st, [])
  else (st, []).

(** The handler, with the requests it passes to [crawler.addRequests].
    Whatever [page.goto] throws is caught by the handler's own [catch]. *)
Definition requestHandler (includeContactInfo : bool) (maxLawyers : Z)
    (page : Page) (url : string) (st : RunState) : RunState * list string :=
  let st := incrPagesProcessed st in
  match page_goto page with
  | Some message => (emit (ErrorLogged message url) st, [])
  | None =>
      let retryCount := challengeLoop maxRetries page 0 in
      if (maxRetries <=? retryCount)%nat then (saveDebugInfo page st, [])
      else
        let '(lawyers, st) := runStrategies page st in
        if isEmpty lawyers then (saveDebugInfo page st, [])
        else
          paginate maxLawyers page
            (saveLawyers includeContactInfo maxLawyers page lawyers st)
  end.

(** ** The crawl and the main block (main.js 665-933) *)

Definition maxRequestsPerCrawl : nat := 20.

Definition knownUrl (known : list string) (url : string) : bool :=
  existsb (String.eqb url) known.

(** The request queue ignores a request whose [uniqueKey] it has seen. *)
Fixpoint enqueue (known queue requests : list string)
    : list string * list string :=
  match requests with
  | [] => (known, queue)
  | url :: rest =>
      if knownUrl known url then enqueue known queue rest
      else enqueue (known ++ [url]) (queue ++ [url]) rest
  end.

(** [crawler.run]: requests are handled one after the other.  The run
    starts from one request and a handler adds at most one, at its very
    end, so no two handlers are ever in flight together.  [web] is the
    page the browser shows for a URL; [budget] is what is left of
    [maxRequestsPerCrawl]. *)
Fixpoint crawl (budget : nat) (includeContactInfo : bool) (maxLawyers : Z)
    (web : string -> Page) (known queue : list string) (st : RunState)
    : RunState :=
  match budget, queue with
  | S budget', url :: rest =>
      let '(st', requests) :=
        requestHandler includeContactInfo maxLawyers (web url) url st in
      let '(known', queue') := enqueue known rest requests in
      crawl budget' includeContactInfo maxLawyers web known' queue' st'
  | _, _ => st
  end.

(** [input.maxLawyers] as the input schema lets it arrive. *)
Inductive MaxLawyersInput : Type :=
| MaxLawyersUndefined
| MaxLawyersNull
| MaxLawyersInt (n : Z).

Record Input : Type := mkInput {
  input_startUrl : option string;
  input_practiceArea : option string;
  input_state : option string;
  input_city : option string;
  input_maxLawyers : MaxLawyersInput;
  input_includeContactInfo : bool
}.

(** [!field?.trim()] *)
Definition blank (field : option string) : bool :=
  match field with
  | None => true
  | Some s => string_is_empty (trim s)
  end.

(** [field || fallback] *)
Definition orDefault (field : option string) (fallback : string) : string :=
  match field with
  | None => fallback
  | Some s => if string_is_empty s then fallback else s
  end.

(** [input.startUrl && input.startUrl.trim()] *)
Definition startUrlGiven (field : option string) : bool :=
  match field with
  | None => false
  | Some s => negb (string_is_empty s) && negb (string_is_empty (trim s))
  end.

(** buildSearchUrl (main.js 315-329) *)
Definition buildSearchUrl (input : Input) : string :=
  if startUrlGiven (input_startUrl input)
  then trim (orDefault (input_startUrl input) "")
  else
    let practiceArea := orDefault (input_practiceArea input) "bankruptcy-debt" in
    let state := orDefault (input_state input) "al" in
    let city :=
      match input_city input with
      | None => ""
      | Some c => if string_is_empty c then "" else (toLowerCase c ++ "-")%string
      end in
    ("https://www.avvo.com/" ++ practiceArea ++ "-lawyer/" ++ city ++ state
     ++ ".html")%string.

(** [input.maxLawyers ?? 50] *)
Definition resolveMaxLawyers (m : MaxLawyersInput) : Z :=
  match m with
  | MaxLawyersUndefined | MaxLawyersNull => 50%Z
  | MaxLawyersInt n => n
  end.

Definition initialState : RunState :=
  {| totalLawyersScraped := 0%Z;
     pagesProcessed := 0%Z;
     extractionMethod := "None";
     seenLawyerUrls := [];
     trace := [] |}.

Inductive MainResult : Type :=
| Failed (message : string)
| Completed (final : RunState).

Definition main (input : Input) (web : string -> Page) : MainResult :=
  if blank (input_startUrl input)
     && (blank (input_practiceArea input) || blank (input_state input))
  then Failed ("Invalid input: Either provide a " ++ dq ++ "startUrl" ++ dq
               ++ " OR both " ++ dq ++ "practiceArea" ++ dq ++ " and "
               ++ dq ++ "state" ++ dq)%string
  else
    let maxLawyers := resolveMaxLawyers (input_maxLawyers input) in
    if ((maxLawyers <? 0) || (maxLawyers >? 10000))%Z
    then Failed "maxLawyers must be between 0 and 10000"
    else
      let searchUrl := buildSearchUrl input in
      let st :=
        crawl maxRequestsPerCrawl (input_includeContactInfo input) maxLawyers
              web [searchUrl] [searchUrl] initialState in
      Completed
        (emit (StatisticsSet (totalLawyersScraped st) (pagesProcessed st)
                             (extractionMethod st)) st).

End Scraper.

(** ** The cascade and the address rule, as the design states them *)

Section Design.

Context {number : Type} {NUM : NumberOps number} {HOST : @Host number}.

(** Two identity keys that [seenLawyerUrls] tells apart, the later one
    tested against the earlier. *)
Definition distinctKeys (earlier later : JsValue number) : Prop :=
  truthy earlier = true -> truthy later = true ->
  same_value_zero later earlier = false.

(** The three strategies in their fixed order, what each returns on a
    page, and the label recorded for it. *)
Definition strategyOrder : list Strategy := [JsonLD; InternalAPI; HtmlParsing].

Definition strategyResult (page : Page) (s : Strategy) : list Lawyer :=
  match s with
  | JsonLD => extractLawyersViaJsonLD (page_clock page) (page_jsonLdScripts page)
  | InternalAPI => page_apiLawyers page
  | HtmlParsing => page_htmlLawyers page
  end.

Definition strategyLabel (s : Strategy) : string :=
  match s with
  | JsonLD => "JSON-LD"
  | InternalAPI => "Internal API"
  | HtmlParsing => "HTML Parsing (Cheerio)"
  end.

(** The strategies tried on a page: each one in order, up to and
    including the first that returns a record. *)
Fixpoint attempted (page : Page) (order : list Strategy) : list Strategy :=
  match order with
  | [] => []
  | s :: rest =>
      s :: (if isEmpty (strategyResult page s) then attempted page rest else [])
  end.

(** The first strategy in order that returns a record, if any. *)
Definition winner (page : Page) (order : list Strategy) : option Strategy :=
  find (fun s => negb (isEmpty (strategyResult page s))) order.

(** The strategy invocations recorded in a trace. *)
Definition strategiesInvoked (events : list (@Event number)) : list Strategy :=
  flat_map (fun e => match e with StrategyInvoked s => [s] | _ => [] end) events.

(** What [saveDebugInfo] leaves behind for a page: the structure
    analysis in the log and the page content under the diagnostic key,
    or nothing when the content cannot be read. *)
Definition snapshotEvents (page : @Page number) : list (@Event number) :=
  match page_content page with
  | None => []
  | Some html =>
      [ StructureLogged
          (List.length (cheerio_texts html "article"))
          (List.length (cheerio_texts html
                          ("[class*=" ++ dq ++ "lawyer" ++ dq ++ "]")))
          (List.length (cheerio_texts html "[data-testid]"))
          (cheerio_text html "title")
          (includes "Just a moment" html || includes "cf-browser" html);
        ValueSet "DEBUG_PAGE_HTML" html ]
  end.

(** A step of the handler that neither pushes records nor touches the
    set of seen keys or the record count. *)
Definition sameRecords (before after : @RunState number) : Prop :=
  sink after = sink before
  /\ seenLawyerUrls after = seenLawyerUrls before
  /\ totalLawyersScraped after = totalLawyersScraped before.

(** What handling one page adds to a run: the [batch] it pushes and the
    keys [added] to the set.  Every key of the batch that counts as an
    identity is new to the set and recorded in it, the keys of the batch
    are told apart by the set, and a positive budget is respected. *)
Definition contributes (maxLawyers : Z) (before after : @RunState number)
    (batch : list (@Lawyer number)) (added : list (JsValue number)) : Prop :=
  sink after = sink before ++ batch
  /\ seenLawyerUrls after = seenLawyerUrls before ++ added
  /\ totalLawyersScraped after
     = (totalLawyersScraped before + Z.of_nat (List.length batch))%Z
  /\ (forall k, In k (map profileUrl batch) -> truthy k = true ->
                In k added /\ setHas (seenLawyerUrls before) k = false)
  /\ ForallOrdPairs distinctKeys (map profileUrl batch)
  /\ ((0 < maxLawyers)%Z -> (totalLawyersScraped before <= maxLawyers)%Z ->
      (totalLawyersScraped after <= maxLawyers)%Z).

(** What holds of the run state between two pages. *)
Definition runInvariant (maxLawyers : Z) (st : @RunState number) : Prop :=
  (forall k, In k (map profileUrl (sink st)) -> truthy k = true ->
             In k (seenLawyerUrls st))
  /\ ForallOrdPairs distinctKeys (map profileUrl (sink st))
  /\ totalLawyersScraped st = Z.of_nat (List.length (sink st))
  /\ ((0 < maxLawyers)%Z -> (totalLawyersScraped st <= maxLawyers)%Z).

(** The records the cascade extracts from a page. *)
Definition pageLawyers (page : @Page number) : list (@Lawyer number) :=
  match winner page strategyOrder with
  | Some s => strategyResult page s
  | None => []
  end.

(** The challenge is gone in some round before the retries run out. *)
Definition challengePassed (page : @Page number) : Prop :=
  (challengeLoop maxRetries page 0 < maxRetries)%nat.

(** [{ ...input, maxLawyers }] *)
Definition withMaxLawyers (input : Input) (m : MaxLawyersInput) : Input :=
  {| input_startUrl := input_startUrl input;
     input_practiceArea := input_practiceArea input;
     input_state := input_state input;
     input_city := input_city input;
     input_maxLawyers := m;
     input_includeContactInfo := input_includeContactInfo input |}.

(** The input passes the first validation of the main block. *)
Definition targetGiven (input : Input) : bool :=
  negb (blank (input_startUrl input)
        && (blank (input_practiceArea input) || blank (input_state input))).

(** A part of a structured address as the design reads it: absent, or a
    text. *)
Inductive AddressPart : JsValue number -> option string -> Prop :=
| PartUndefined : AddressPart JsUndefined None
| PartNull : AddressPart JsNull None
| PartText (s : string) : AddressPart (JsString s) (Some s).

(** The parts that are present and not empty, joined with ", ". *)
Definition joinAddressParts (parts : list (option string)) : string :=
  String.concat ", "
    (flat_map (fun part =>
                 match part with
                 | Some s => if string_is_empty s then [] else [s]
                 | None => []
                 end) parts).

(** A detail-page fetch that the enrichment treats as blocked by its
    response: status 403 or 503, or status 200 with a challenge title. *)
Definition blockedResponse (outcome : FetchOutcome) : Prop :=
  match outcome with
  | Responded statusCode body =>
      statusCode = 403%Z \/ statusCode = 503%Z \/
      (statusCode = 200%Z /\ isChallengeTitle (cheerio_text body "title") = true)
  | Rejected _ => False
  end.

(** The user agent [fetchLawyerProfile] sends. *)
Definition sentUserAgent (userAgent : string) : string :=
  if string_is_empty userAgent then defaultUserAgent else userAgent.

(** Whether the enrichment of a record ends in the blocked branch. *)
Definition isBlocked (cookieString userAgent : string) (lawyer : Lawyer) : bool :=
  truthy (profileUrl lawyer) &&
  match fetchLawyerProfile (profileUrl lawyer) cookieString userAgent with
  | ProfileBlocked => true
  | _ => false
  end.

End Design.

(** ** A concrete host and concrete pages, over integer-valued numbers *)

Definition demoFetch (url : JsValue Z) (cookies userAgent : string) : FetchOutcome :=
  match url with
  | JsString u =>
      if includes "/forbidden" u then Responded 403 ""
      else if includes "/unavailable" u then Responded 503 ""
      else if includes "/challenge" u then Responded 200 "Just a moment..."
      else if includes "/gone" u then Responded 404 ""
      else Responded 200 "Trial lawyer with twenty years of practice."
  | _ => Rejected (Some "Invalid URL")
  end.

(** A document is reduced to one text: it is its own title and its own
    biography, and every profile lists one school and one award. *)
Definition demoCheerio (html selector : string) : list string :=
  if String.eqb selector "title" then [html]
  else if String.eqb selector bioSelector then [html]
  else if String.eqb selector educationSelector then ["Yale Law School"]
  else if String.eqb selector awardsSelector then ["Super Lawyers 2020"]
  else [].

#[export] Instance demoHost : @Host Z := {
  trim := fun s => s;
  toLowerCase := fun s => s;
  cheerio_texts := demoCheerio;
  gotScraping := demoFetch
}.

Definition demoLawyer (fullName url biography : string) : @Lawyer Z :=
  {| name := JsString fullName;
     rating := JsNull;
     reviewCount := JsNumber 0%Z;
     practiceAreas := JsArray [];
     location := JsString "";
     phone := JsString "";
     email := JsString "";
     website := JsString "";
     yearsLicensed := JsNull;
     barAdmissions := JsArray [];
     languages := JsArray [];
     profileUrl := JsString url;
     bio := JsString biography;
     scrapedAt := JsString "2024-01-01T00:00:00.000Z";
     education := None;
     awards := None |}.

(** A listing page without challenge whose cards the HTML strategy reads. *)
Definition demoListing (cards : list (@Lawyer Z)) (hasNext : bool)
    (nextUrl : string) : @Page Z :=
  {| page_goto := None;
     page_title := fun _ => "Bankruptcy lawyers in Alabama";
     page_bodyText := fun _ => "Find a lawyer";
     page_content := Some "<html>listing</html>";
     page_jsonLdScripts := Some [];
     page_apiLawyers := [];
     page_htmlLawyers := cards;
     page_cookies := [("cf_clearance", "abc")];
     page_userAgent := "Mozilla/5.0";
     page_hasNextPage := hasNext;
     page_nextPageUrl := nextUrl;
     page_clock := "2024-01-01T00:00:00.000Z" |}.

(** A page that shows the challenge in every round. *)
Definition demoChallenged : @Page Z :=
  {| page_goto := None;
     page_title := fun _ => "Just a moment...";
     page_bodyText := fun _ => "Checking your browser before accessing";
     page_content := Some "<html>Just a moment...</html>";
     page_jsonLdScripts := Some [];
     page_apiLawyers := [];
     page_htmlLawyers := [demoLawyer "Hidden" "https://www.avvo.com/attorneys/0" ""];
     page_cookies := [];
     page_userAgent := "Mozilla/5.0";
     page_hasNextPage := true;
     page_nextPageUrl := "https://www.avvo.com/page2";
     page_clock := "2024-01-01T00:00:00.000Z" |}.

Definition demoAttorney (fullName url : string) : JsValue Z :=
  JsObject [ ("@type", JsString "Attorney");
             ("name", JsString fullName);
             ("url", JsString url);
             ("address",
              JsObject [ ("addressLocality", JsString "Springfield");
                         ("addressRegion", JsString "IL");
                         ("postalCode", JsString "") ]) ].

(** A listing page that carries its lawyers as JSON-LD, and others in the
    markup that the later strategies would find. *)
Definition demoStructured : @Page Z :=
  {| page_goto := None;
     page_title := fun _ => "Bankruptcy lawyers in Alabama";
     page_bodyText := fun _ => "Find a lawyer";
     page_content := Some "<html>listing</html>";
     page_jsonLdScripts :=
       Some [ None;
              Some (JsArray [ demoAttorney "Ada Park" "https://www.avvo.com/attorneys/1";
                              JsNull;
                              demoAttorney "Never Read" "https://www.avvo.com/attorneys/9" ]);
              Some (JsObject [ ("@type", JsString "ItemList");
                               ("itemListElement",
                                JsArray [ JsObject [ ("item",
                                   demoAttorney "Bo Reyes" "https://www.avvo.com/attorneys/2") ] ]) ]) ];
     page_apiLawyers := [demoLawyer "From API" "https://www.avvo.com/attorneys/3" ""];
     page_htmlLawyers := [demoLawyer "From HTML" "https://www.avvo.com/attorneys/4" ""];
     page_cookies := [];
     page_userAgent := "";
     page_hasNextPage := false;
     page_nextPageUrl := "";
     page_clock := "2024-01-01T00:00:00.000Z" |}.

Definition demoUrls : list string :=
  [ "https://www.avvo.com/attorneys/a"; "https://www.avvo.com/attorneys/b";
    "https://www.avvo.com/attorneys/c"; "https://www.avvo.com/attorneys/d";
    "https://www.avvo.com/attorneys/e"; "https://www.avvo.com/attorneys/f";
    "https://www.avvo.com/attorneys/g"; "https://www.avvo.com/attorneys/h" ].

Definition demoEight : list (@Lawyer Z) :=
  map (fun u => demoLawyer "Counsel" u "") demoUrls.

(** Two listing pages: the first repeats a profile, carries a card
    without link and points to the second, which repeats a profile of the
    first. *)
Definition demoSecondUrl : string :=
  "https://www.avvo.com/bankruptcy-debt-lawyer/al.html?page=2".

Definition demoWeb (url : string) : @Page Z :=
  if String.eqb url demoSecondUrl then
    demoListing
      [ demoLawyer "Bo Reyes" "https://www.avvo.com/attorneys/2" "";
        demoLawyer "Cy Dunn" "https://www.avvo.com/attorneys/3" "";
        demoLawyer "No Link Two" "" "" ]
      false ""
  else
    demoListing
      [ demoLawyer "Ada Park" "https://www.avvo.com/attorneys/1" "";
        demoLawyer "Bo Reyes" "https://www.avvo.com/attorneys/2" "";
        demoLawyer "Ada Park" "https://www.avvo.com/attorneys/1" "";
        demoLawyer "No Link One" "" "" ]
      true demoSecondUrl.

(** Sixty cards with sixty different links on one page. *)
Definition demoSixty : list (@Lawyer Z) :=
  map (fun n => demoLawyer "Counsel"
                  ("https://www.avvo.com/attorneys/" ++ Z_to_string (Z.of_nat n)) "")
      (seq 1 60).

Definition finalState (result : @MainResult Z) : @RunState Z :=
  match result with
  | Completed final => final
  | Failed _ => initialState
  end.

Definition demoInput (m : MaxLawyersInput) (enrich : bool) : Input :=
  {| input_startUrl := Some "https://www.avvo.com/bankruptcy-debt-lawyer/al.html";
     input_practiceArea := None;
     input_state := None;
     input_city := None;
     input_maxLawyers := m;
     input_includeContactInfo := enrich |}.

(** ** Text measures of the runtime *)

(** [s.length] counts UTF-16 code units and [parseFloat] yields a double;
    both are observations of the host. *)
Class Text (number : Type) : Type := {
  (* String.prototype.length *)
  jsLength : string -> nat;
  (* parseFloat on a token of digits with an optional fraction *)
  parseFloat : string -> number
}.

Definition quoted (s : string) : string := dq ++ s ++ dq.

(** The attribute selectors on data-testid and on a class substring. *)
Definition testid (x : string) : string := "[data-testid=" ++ quoted x ++ "]".
Definition classHas (x : string) : string := "[class*=" ++ quoted x ++ "]".

(** *** Regular expressions and string methods used on card text *)

(** The digit class of the patterns: 0 to 9. *)
Definition isDigit (c : ascii) : bool :=
  (48 <=? nat_of_ascii c)%nat && (nat_of_ascii c <=? 57)%nat.

(** The longest run of digits at the start of a string, and what follows. *)
Fixpoint digitPrefix (s : string) : string :=
  match s with
  | EmptyString => EmptyString
  | String c rest => if isDigit c then String c (digitPrefix rest) else EmptyString
  end.

Fixpoint afterDigits (s : string) : string :=
  match s with
  | EmptyString => EmptyString
  | String c rest => if isDigit c then afterDigits rest else s
  end.

(** [s.match] with the pattern for one or more digits: the first run of
    digits, if any. *)
Fixpoint firstInteger (s : string) : option string :=
  match s with
  | EmptyString => None
  | String c rest => if isDigit c then Some (digitPrefix s) else firstInteger rest
  end.

(** [s.match] with the pattern for digits, an optional dot and further
    digits: the first run of digits, with a following dot and the digits
    after it when there are any. *)
Fixpoint firstDecimal (s : string) : option string :=
  match s with
  | EmptyString => None
  | String c rest =>
      if isDigit c then
        Some (match afterDigits s with
              | String dot more =>
                  if Ascii.eqb dot "."%char
                  then (digitPrefix s ++ "." ++ digitPrefix more)%string
                  else digitPrefix s
              | EmptyString => digitPrefix s
              end)
      else firstDecimal rest
  end.

(** [parseInt(digits, 10)] on a run of digits. *)
Fixpoint digitsValue (acc : Z) (digits : string) : Z :=
  match digits with
  | EmptyString => acc
  | String c rest =>
      digitsValue (10 * acc + Z.of_nat (nat_of_ascii c - 48))%Z rest
  end.

(** [s.split(sep)] for a one-character separator. *)
Fixpoint splitOn (sep : ascii) (s : string) : list string :=
  match s with
  | EmptyString => [EmptyString]
  | String c rest =>
      if Ascii.eqb c sep then EmptyString :: splitOn sep rest
      else
        match splitOn sep rest with
        | [] => [String c EmptyString]
        | piece :: pieces => String c piece :: pieces
        end
  end.

Fixpoint dropChars (n : nat) (s : string) : string :=
  match n, s with
  | O, _ => s
  | S _, EmptyString => EmptyString
  | S n', String _ rest => dropChars n' rest
  end.

(** [s.replace(pattern, replacement)] for a string pattern: the first
    occurrence only. *)
Fixpoint replaceFirst (pattern replacement s : string) : string :=
  if String.prefix pattern s
  then (replacement ++ dropChars (String.length pattern) s)%string
  else
    match s with
    | EmptyString => EmptyString
    | String c rest => String c (replaceFirst pattern replacement rest)
    end.

(** The [for (const selector of selectors) { ...; break; }] pattern: the
    result of the first selector for which the body reaches its [break]. *)
Fixpoint firstMatch {A : Type} (attempt : string -> option A)
    (selectors : list string) : option A :=
  match selectors with
  | [] => None
  | selector :: rest =>
      match attempt selector with
      | Some found => Some found
      | None => firstMatch attempt rest
      end
  end.

(** ** extractLawyersViaAPI (main.js 248-310) *)

Section EmbeddedData.

Context {number : Type} {NUM : NumberOps number} {TEXT : Text number}.

Local Abbreviation Value := (JsValue number).

(** An inline script as the function sees it: its text, and what
    [JSON.parse] makes of the span from its first opening brace to its
    last closing brace ([None] when there is no such span or the parse
    throws). *)
Record InlineScript : Type := mkInlineScript {
  script_text : string;
  script_json : option Value
}.

(** The test inside [page.evaluate] (main.js 260-261). *)
Definition hasListingMarker (content : string) : bool :=
  includes (quoted "lawyers") content ||
  includes (quoted "attorneys") content ||
  includes (quoted "profiles") content ||
  includes "lawyerData" content.

(** [v?.length] *)
Definition js_length_opt (v : Value) : Value :=
  match v with
  | JsUndefined | JsNull => JsUndefined
  | JsArray elements => JsNumber (number_of_Z (Z.of_nat (List.length elements)))
  | JsString s => JsNumber (number_of_Z (Z.of_nat (jsLength s)))
  | JsObject properties => lookup_property "length" properties
  | JsBool _ | JsNumber _ => JsUndefined
  end.

(** The object literal pushed for one entry (main.js 280-295). *)
Definition apiLawyer (now : string) (lawyer : Value) : Lawyer :=
  {| name := js_or (js_or (js_get lawyer "name") (js_get lawyer "fullName"))
                   (JsString "");
     rating := js_or (js_or (js_get lawyer "rating") (js_get lawyer "avvoRating"))
                     JsNull;
     reviewCount :=
       js_or (js_or (js_get lawyer "reviewCount")
                    (js_length_opt (js_get lawyer "reviews")))
             (JsNumber (number_of_Z 0));
     practiceAreas :=
       js_or (js_or (js_get lawyer "practiceAreas") (js_get lawyer "specialties"))
             (JsArray []);
     location := js_or (js_or (js_get lawyer "location") (js_get lawyer "city"))
                       (JsString "");
     phone := js_or (js_or (js_get lawyer "phone") (js_get lawyer "phoneNumber"))
                    (JsString "");
     email := js_or (js_get lawyer "email") (JsString "");
     website := js_or (js_or (js_get lawyer "website") (js_get lawyer "websiteUrl"))
                      (JsString "");
     yearsLicensed :=
       js_or (js_or (js_get lawyer "yearsLicensed") (js_get lawyer "yearAdmitted"))
             JsNull;
     barAdmissions := js_or (js_get lawyer "barAdmissions") (JsArray []);
     languages := js_or (js_get lawyer "languages") (JsArray []);
     profileUrl := js_or (js_or (js_get lawyer "profileUrl") (js_get lawyer "url"))
                         (JsString "");
     bio := js_or (js_or (js_get lawyer "bio") (js_get lawyer "description"))
                  (JsString "");
     scrapedAt := JsString now;
     education := None;
     awards := None |}.

(** The loop over [lawyerArray].  Reading a property of a null entry
    throws; the [catch] of the script swallows it, the loop stops and the
    records already pushed stay. *)
Fixpoint collectApiLawyers (now : string) (lawyerArray : list Value)
    : list Lawyer :=
  match lawyerArray with
  | [] => []
  | lawyer :: rest =>
      if is_nullish lawyer then []
      else apiLawyer now lawyer :: collectApiLawyers now rest
  end.

(** [data.lawyers || data.attorneys || data.profiles || data.data?.lawyers
    || data.data?.attorneys || []] *)
Definition listingArray (data : Value) : Value :=
  js_or
    (js_or
       (js_or
          (js_or (js_or (js_get data "lawyers") (js_get data "attorneys"))
                 (js_get data "profiles"))
          (js_get_opt (js_get data "data") "lawyers"))
       (js_get_opt (js_get data "data") "attorneys"))
    (JsArray []).

(** The body of the [try] for one candidate whose span parsed to [data]. *)
Definition extractFromEmbedded (now : string) (data : Value) : list Lawyer :=
  if is_nullish data then []
  else
    match listingArray data with
    | JsArray (first :: others) => collectApiLawyers now (first :: others)
    | _ => []
    end.

(** [scripts] are the inline scripts of the page, [None] when
    [page.evaluate] rejects. *)
Definition extractLawyersViaAPI (now : string)
    (scripts : option (list InlineScript)) : list Lawyer :=
  match scripts with
  | None => []
  | Some inline =>
      flat_map (fun script =>
                  match script_json script with
                  | Some data => extractFromEmbedded now data
                  | None => []
                  end)
               (filter (fun script => hasListingMarker (script_text script)) inline)
  end.

End EmbeddedData.

(** ** extractLawyerDataViaHTML and extractLawyerFromElement (main.js 334-632) *)

(** What cheerio answers about a document: the elements a selector
    matches in it, the elements it matches below a set of elements (both
    in document order), and the text and [href] of an element. *)
Class Dom : Type := {
  node : Type;
  (* cheerio.load(html)(selector) *)
  dom_select : string -> string -> list node;
  (* $(set).find(selector) *)
  dom_find : list node -> string -> list node;
  (* $(element).text() *)
  dom_text : node -> string;
  (* $(element).attr('href') *)
  dom_href : node -> option string
}.

Section HtmlCards.

Context {number : Type} {NUM : NumberOps number} {TEXT : Text number}
        {HOST : @Host number} {DOM : Dom}.

Definition nameSelectors : list string :=
  [ testid "lawyer-name"; "h2 a"; "h3 a"; ".lawyer-name"; ".profile-name";
    ("a[href*=" ++ quoted "/attorney/" ++ "]")%string ].
Definition ratingSelectors : list string :=
  [ testid "rating"; ".rating-value"; ".avvo-rating"; classHas "rating" ].
Definition reviewSelectors : list string :=
  [ testid "review-count"; ".review-count"; classHas "review" ].
Definition practiceAreaSelectors : list string :=
  [ testid "practice-areas"; ".practice-areas"; ".specialties"; classHas "practice" ].
Definition locationSelectors : list string :=
  [ testid "location"; ".location"; ".address"; classHas "location" ].
Definition phoneSelectors : list string :=
  [ testid "phone"; ".phone"; ("a[href^=" ++ quoted "tel:" ++ "]")%string;
    classHas "phone" ].
Definition websiteSelectors : list string :=
  [ testid "website"; ("a[href*=" ++ quoted "website" ++ "]")%string; ".website";
    "a[data-website]" ].
Definition yearsLicensedSelectors : list string :=
  [ testid "years-licensed"; ".years-licensed"; classHas "years" ].
Definition barSelectors : list string :=
  [ testid "bar-admissions"; ".bar-admissions"; classHas "bar" ].
Definition langSelectors : list string :=
  [ testid "languages"; ".languages"; classHas "language" ].
Definition bioSelectors : list string :=
  [ testid "bio"; ".bio"; ".description"; ".profile-description"; "p" ].
Definition cardSelectors : list string :=
  [ ("div" ++ testid "lawyer-card")%string; ".lawyer-card";
    (classHas "lawyer" ++ classHas "card")%string; "article[data-lawyer-id]";
    ".search-result-lawyer"; ".profile-card"; "[data-lawyer-name]" ].

(** [$el.find(selector).first()], when it has an element. *)
Definition findFirst (el : node) (selector : string) : option node :=
  hd_error (dom_find [el] selector).

(** [x.attr('href') || ''] *)
Definition hrefOrEmpty (el : node) : string :=
  match dom_href el with
  | Some href => href
  | None => ""
  end.

(** The site origin is put before a link that does not start with http
    (main.js 405-407). *)
Definition resolveProfileUrl (href : string) : string :=
  if negb (string_is_empty href) && negb (startsWith "http" href)
  then ("https://www.avvo.com" ++ href)%string
  else href.

(** The name loop (main.js 400-410): the trimmed text of the name element
    and its resolved link. *)
Definition extractName (el : node) : option (string * string) :=
  firstMatch
    (fun selector =>
       match findFirst el selector with
       | Some nameEl =>
           if string_is_empty (trim (dom_text nameEl)) then None
           else Some (trim (dom_text nameEl), resolveProfileUrl (hrefOrEmpty nameEl))
       | None => None
       end)
    nameSelectors.

(** The loops that read a number off the first numeric token of an
    element (main.js 420-430, 439-449, 540-550). *)
Definition extractDecimal (el : node) (selectors : list string) : option number :=
  firstMatch
    (fun selector =>
       match findFirst el selector with
       | Some found => option_map parseFloat (firstDecimal (trim (dom_text found)))
       | None => None
       end)
    selectors.

Definition extractInteger (el : node) (selectors : list string) : option Z :=
  firstMatch
    (fun selector =>
       match findFirst el selector with
       | Some found => option_map (digitsValue 0) (firstInteger (trim (dom_text found)))
       | None => None
       end)
    selectors.

(** The loops that collect the trimmed texts of list items below a
    container, keeping those longer than [minLength] (main.js 459-470,
    559-570, 579-590). *)
Definition extractItems (el : node) (selectors : list string)
    (itemSelector : string) (minLength : nat) : list string :=
  match
    firstMatch
      (fun selector =>
         match dom_find [el] selector with
         | [] => None
         | container =>
             match
               filter (fun item => negb (string_is_empty item)
                                   && (minLength <? jsLength item)%nat)
                      (map (fun item => trim (dom_text item))
                           (dom_find container itemSelector))
             with
             | [] => None
             | items => Some items
             end
         end)
      selectors
  with
  | Some items => items
  | None => []
  end.

(** The fallback for practice areas (main.js 472-483): the comma-separated
    text of the first container found. *)
Definition extractCommaSeparated (el : node) (selectors : list string)
    : list string :=
  match
    firstMatch
      (fun selector =>
         match findFirst el selector with
         | Some found =>
             if includes "," (trim (dom_text found))
             then Some (filter (fun a => (2 <? jsLength a)%nat)
                               (map trim (splitOn ","%char (trim (dom_text found)))))
             else None
         | None => None
         end)
      selectors
  with
  | Some areas => areas
  | None => []
  end.

(** The loops that keep the first non-empty text (main.js 493-499,
    509-515, 525-531, 601-607). *)
Definition extractText (el : node) (selectors : list string)
    (read : node -> string) (accept : string -> bool) : string :=
  match
    firstMatch
      (fun selector =>
         match findFirst el selector with
         | Some found => if accept (read found) then Some (read found) else None
         | None => None
         end)
      selectors
  with
  | Some text => text
  | None => ""
  end.

Definition nonEmpty (s : string) : bool := negb (string_is_empty s).

(** [phoneEl.text().trim() || phoneEl.attr('href')?.replace('tel:', '') || ''] *)
Definition phoneOf (phoneEl : node) : string :=
  if nonEmpty (trim (dom_text phoneEl)) then trim (dom_text phoneEl)
  else
    match dom_href phoneEl with
    | Some href => replaceFirst "tel:" "" href
    | None => ""
    end.

Definition optionalNumber (n : option number) : JsValue number :=
  match n with
  | Some x => JsNumber x
  | None => JsNull
  end.

(** The card becomes a record, or [None] for the [null] the function
    returns when it found neither name nor link.  The cheerio calls are
    taken not to throw, so the [catch] of the function is never entered. *)
Definition extractLawyerFromElement (now : string) (el : node) : option Lawyer :=
  let '(cardName, cardUrl) :=
    match extractName el with
    | Some found => found
    | None => ("", "")
    end in
  let cardRating := extractDecimal el ratingSelectors in
  let cardReviews :=
    match extractInteger el reviewSelectors with
    | Some n => n
    | None => 0%Z
    end in
  let cardAreas :=
    match extractItems el practiceAreaSelectors "li, span, a" 2 with
    | [] => extractCommaSeparated el practiceAreaSelectors
    | areas => areas
    end in
  let cardLocation :=
    extractText el locationSelectors (fun found => trim (dom_text found)) nonEmpty in
  let cardPhone := extractText el phoneSelectors phoneOf nonEmpty in
  let cardWebsite := extractText el websiteSelectors hrefOrEmpty nonEmpty in
  let cardYears := extractInteger el yearsLicensedSelectors in
  let cardBars := extractItems el barSelectors "li, span" 1 in
  let cardLanguages := extractItems el langSelectors "li, span" 1 in
  let cardBio :=
    extractText el bioSelectors (fun found => trim (dom_text found))
                (fun text => (50 <? jsLength text)%nat) in
  if nonEmpty cardName || nonEmpty cardUrl then
    Some {| name := JsString (if nonEmpty cardName then cardName else "Unknown");
            rating := optionalNumber cardRating;
            reviewCount := JsNumber (number_of_Z cardReviews);
            practiceAreas := JsArray (map JsString cardAreas);
            location := JsString cardLocation;
            phone := JsString cardPhone;
            email := JsString "";
            website := JsString cardWebsite;
            yearsLicensed := optionalNumber (option_map number_of_Z cardYears);
            barAdmissions := JsArray (map JsString cardBars);
            languages := JsArray (map JsString cardLanguages);
            profileUrl := JsString cardUrl;
            bio := JsString cardBio;
            scrapedAt := JsString now;
            education := None;
            awards := None |}
  else None.

(** The first card selector that matches anything (main.js 355-362). *)
Definition lawyerElements (html : string) : list node :=
  match
    firstMatch
      (fun selector =>
         match dom_select html selector with
         | [] => None
         | elements => Some elements
         end)
      cardSelectors
  with
  | Some elements => elements
  | None => []
  end.

(** [content] is what [page.content()] resolved to, [None] when it
    rejects and the [catch] returns no records. *)
Definition extractLawyerDataViaHTML (now : string) (content : option string)
    : list Lawyer :=
  match content with
  | None => []
  | Some html =>
      flat_map (fun element =>
                  match extractLawyerFromElement now element with
                  | Some lawyer => [lawyer]
                  | None => []
                  end)
               (lawyerElements html)
  end.

End HtmlCards.

(** *** Concrete text measures and a concrete document *)

#[export] Instance demoText : Text Z := {
  jsLength := String.length;
  parseFloat := fun token => digitsValue 0 (digitPrefix token)
}.

(** An element of the demo document answers to one selector, has its own
    text and link, and has children. *)
Inductive DemoNode : Type :=
| DemoElement (selector text : string) (href : option string)
    (children : list DemoNode).

Definition demoSelector (n : DemoNode) : string :=
  match n with DemoElement selector _ _ _ => selector end.
Definition demoTextOf (n : DemoNode) : string :=
  match n with DemoElement _ text _ _ => text end.
Definition demoHref (n : DemoNode) : option string :=
  match n with DemoElement _ _ href _ => href end.
Definition demoChildren (n : DemoNode) : list DemoNode :=
  match n with DemoElement _ _ _ children => children end.

Definition demoMatching (selector : string) (nodes : list DemoNode)
    : list DemoNode :=
  filter (fun n => String.eqb (demoSelector n) selector) nodes.

(** The demo document is the same for every page text: two cards, the
    second without any name. *)
Definition demoCards : list DemoNode :=
  [ DemoElement ".lawyer-card" "" None
      [ DemoElement "h2 a" "Ada Park" (Some "/attorneys/1") [];
        DemoElement ".rating-value" "Rating 9.5 of 10" None [];
        DemoElement ".review-count" "(123 reviews)" None [];
        DemoElement ".phone" "" (Some "tel:555-0100") [];
        DemoElement ".practice-areas" "Bankruptcy, Tax, IP" None [] ];
    DemoElement ".lawyer-card" "" None
      [ DemoElement ".location" "Mobile, AL" None [];
        DemoElement ".website" "" (Some "https://example.com") [] ] ].

#[export] Instance demoDom : Dom := {
  node := DemoNode;
  dom_select := fun _ selector => demoMatching selector demoCards;
  dom_find := fun set selector =>
                flat_map (fun n => demoMatching selector (demoChildren n)) set;
  dom_text := demoTextOf;
  dom_href := demoHref
}.

(** *** Further concrete inputs *)

(** A host whose every fetch is rejected the way got reports a 403. *)
Definition demoRejectingHost : @Host Z := {|
  trim := fun s => s;
  toLowerCase := fun s => s;
  cheerio_texts := demoCheerio;
  gotScraping := fun _ _ _ => Rejected (Some "Response code 403 (Forbidden)")
|}.


Definition demoByArea : Input :=
  {| input_startUrl := None;
     input_practiceArea := Some "tax";
     input_state := Some "ny";
     input_city := Some "albany";
     input_maxLawyers := MaxLawyersInt 10;
     input_includeContactInfo := false |}.

Definition demoFirstCard : DemoNode :=
  DemoElement ".lawyer-card" "" None
    [ DemoElement "h2 a" "Ada Park" (Some "/attorneys/1") [];
      DemoElement ".rating-value" "Rating 9.5 of 10" None [];
      DemoElement ".review-count" "(123 reviews)" None [];
      DemoElement ".phone" "" (Some "tel:555-0100") [];
      DemoElement ".practice-areas" "Bankruptcy, Tax, IP" None [] ].

Definition demoCardRecord : @Lawyer Z :=
  match extractLawyerFromElement "2024-01-01T00:00:00.000Z"
          (demoFirstCard : @node demoDom) with
  | Some r => r
  | None => demoLawyer "" "" ""
  end.

Definition demoEmbedded : JsValue Z :=
  JsObject
    [ ("lawyers",
       JsArray [ JsObject [ ("fullName", JsString "Ada Park");
                            ("url", JsString "https://www.avvo.com/attorneys/1") ];
                 JsObject [ ("name", JsString "Bo Reyes");
                            ("profileUrl", JsString "https://www.avvo.com/attorneys/2") ] ]);
      ("attorneys", JsArray [ JsObject [ ("name", JsString "Cy Dunn") ] ]) ].

Definition demoMasked : JsValue Z :=
  JsObject
    [ ("lawyers", JsArray []);
      ("attorneys", JsArray [ JsObject [ ("name", JsString "Cy Dunn") ] ]) ].

Definition demoItemList : JsValue Z :=
  JsObject
    [ ("@type", JsString "ItemList");
      ("itemListElement",
       JsArray [ JsObject [ ("item",
                             demoAttorney "Bo Reyes" "https://www.avvo.com/attorneys/2") ];
                 demoAttorney "Cy Dunn" "https://www.avvo.com/attorneys/3" ]) ].

Definition demoRepeated : list (@Lawyer Z) :=
  [ demoLawyer "Ada Park" "https://www.avvo.com/attorneys/1" "";
    demoLawyer "No Link" "" "";
    demoLawyer "Ada Park" "https://www.avvo.com/attorneys/1" "" ].

(** ** Notions used to state further properties *)

Section Notions.

Context {number : Type} {NUM : NumberOps number} {HOST : @Host number}.

(** Two records that agree on everything the listing page supplied;
    [bio], [education] and [awards] may differ. *)
Definition sameListingFields (before after : @Lawyer number) : Prop :=
  name after = name before
  /\ rating after = rating before
  /\ reviewCount after = reviewCount before
  /\ practiceAreas after = practiceAreas before
  /\ location after = location before
  /\ phone after = phone before
  /\ email after = email before
  /\ website after = website before
  /\ yearsLicensed after = yearsLicensed before
  /\ barAdmissions after = barAdmissions before
  /\ languages after = languages before
  /\ profileUrl after = profileUrl before
  /\ scrapedAt after = scrapedAt before.

(** A detail-page fetch that is neither usable nor counted as blocked:
    a status other than 200, 403 and 503, or a rejection whose message
    is missing or mentions neither 403 nor 503. *)
Definition softFailure (outcome : FetchOutcome) : Prop :=
  match outcome with
  | Responded statusCode _ =>
      statusCode <> 200%Z /\ statusCode <> 403%Z /\ statusCode <> 503%Z
  | Rejected (Some message) =>
      includes "403" message = false /\ includes "503" message = false
  | Rejected None => True
  end.

(** A rejection whose message mentions 403 or 503. *)
Definition blockedRejection (outcome : FetchOutcome) : Prop :=
  match outcome with
  | Rejected (Some message) =>
      includes "403" message = true \/ includes "503" message = true
  | _ => False
  end.

(** The challenge shows in a round. *)
Definition detectedIn (page : @Page number) (round : nat) : bool :=
  challengeDetected (page_title page round) (page_bodyText page round).

(** The record carries no identity key. *)
Definition keyless (lawyer : @Lawyer number) : bool :=
  negb (truthy (profileUrl lawyer)).

(** The record's [profileUrl] is a string. *)
Definition stringKeyed (lawyer : @Lawyer number) : Prop :=
  exists u, profileUrl lawyer = JsString u.

(** A JSON-LD block that holds no entry: the parse failed, or it gave
    null or a primitive. *)
Definition barrenBlock (parsed : option (JsValue number)) : Prop :=
  match parsed with
  | None => True
  | Some (JsArray _) | Some (JsObject _) => False
  | Some _ => True
  end.

(** A list item of an [ItemList] that stands for [entry]: not null, and
    [listItem.item || listItem] is the entry, which has a recognised
    type. *)
Definition listItemFor (listItem entry : JsValue number) : Prop :=
  is_nullish listItem = false
  /\ js_or (js_get listItem "item") listItem = entry
  /\ hasAttorneyType entry = true.

(** The part of the search URL that names the city. *)
Definition cityPart (input : Input) : string :=
  match input_city input with
  | None => ""
  | Some c => if string_is_empty c then "" else (toLowerCase c ++ "-")%string
  end.

(** No character of the string is a digit. *)
Fixpoint digitFree (s : string) : bool :=
  match s with
  | EmptyString => true
  | String c rest => negb (isDigit c) && digitFree rest
  end.

(** Every character of the string is a digit. *)
Fixpoint allDigits (s : string) : bool :=
  match s with
  | EmptyString => true
  | String c rest => isDigit c && allDigits rest
  end.

End Notions.

(** ** Properties *)

Section Properties.

Context {number : Type} {NUM : NumberOps number} {HOST : @Host number}.

Implicit Types (lawyer r : @Lawyer number) (st : @RunState number)
  (page : @Page number) (v k : JsValue number).

(** *** Structured metadata *)

Lemma collectAttorneys_parsed now items r :
  In r (collectAttorneys now items) ->
  exists attorneyData,
    hasAttorneyType attorneyData = true /\ r = parseAttorneySchema now attorneyData.
Proof.
  induction items as [|item rest IH]; simpl; [tauto|].
  destruct (is_nullish item); simpl; [tauto|].
  intros Hin. apply in_app_or in Hin as [Hin|Hin]; [|auto].
  destruct (hasAttorneyType item) eqn:Htype; simpl in Hin; [|tauto].
  destruct Hin as [<-|[]]. eauto.
Qed.

Lemma collectListItems_parsed now listItems r :
  In r (collectListItems now listItems) ->
  exists attorneyData,
    hasAttorneyType attorneyData = true /\ r = parseAttorneySchema now attorneyData.
Proof.
  induction listItems as [|listItem rest IH]; simpl; [tauto|].
  destruct (is_nullish listItem); simpl; [tauto|].
  intros Hin. apply in_app_or in Hin as [Hin|Hin]; [|auto].
  destruct (hasAttorneyType (js_or (js_get listItem "item") listItem)) eqn:Htype;
    simpl in Hin; [|tauto].
  destruct Hin as [<-|[]]. eauto.
Qed.

Lemma extractFromJsonLD_parsed now data r :
  In r (extractFromJsonLD now data) ->
  exists attorneyData,
    hasAttorneyType attorneyData = true /\ r = parseAttorneySchema now attorneyData.
Proof.
  assert (Hrest : In r
            (if hasAttorneyType data then [parseAttorneySchema now data]
             else if truthy (js_get data "@graph") then
               match iterate (js_get data "@graph") with
               | Some items => collectAttorneys now items
               | None => []
               end
             else if strict_eq_string (js_get data "@type") "ItemList"
                     && truthy (js_get data "itemListElement") then
               match iterate (js_get data "itemListElement") with
               | Some listItems => collectListItems now listItems
               | None => []
               end
             else []) ->
          exists attorneyData,
            hasAttorneyType attorneyData = true
            /\ r = parseAttorneySchema now attorneyData).
  { destruct (hasAttorneyType data) eqn:Htype.
    - intros [<-|[]]. eauto.
    - destruct (truthy (js_get data "@graph")).
      + destruct (iterate (js_get data "@graph")); simpl; [|tauto].
        apply collectAttorneys_parsed.
      + destruct (strict_eq_string (js_get data "@type") "ItemList"
                  && truthy (js_get data "itemListElement")); simpl; [|tauto].
        destruct (iterate (js_get data "itemListElement")); simpl; [|tauto].
        apply collectListItems_parsed. }
  destruct data; simpl; try tauto; try exact Hrest.
  apply collectAttorneys_parsed.
Qed.

Lemma extractLawyersViaJsonLD_parsed now scripts r :
  In r (extractLawyersViaJsonLD now scripts) ->
  exists attorneyData,
    hasAttorneyType attorneyData = true /\ r = parseAttorneySchema now attorneyData.
Proof.
  destruct scripts as [jsonLdScripts|]; simpl; [|tauto].
  intros Hin. apply in_flat_map in Hin as ([data|] & _ & Hin); simpl in Hin; [|tauto].
  eapply extractFromJsonLD_parsed; eauto.
Qed.

(** C10.  Every record returned by the JSON-LD strategy comes from
    [parseAttorneySchema] applied to an entry of a recognised type; its
    [yearsLicensed] is null, its [barAdmissions] and [languages] are the
    empty array, and its [website] and [profileUrl] are both the entry's
    [url || ''], hence equal. *)
Theorem jsonld_records_fixed_fields now scripts r :
  In r (extractLawyersViaJsonLD now scripts) ->
  yearsLicensed r = JsNull
  /\ barAdmissions r = JsArray []
  /\ languages r = JsArray []
  /\ website r = profileUrl r
  /\ exists attorneyData,
       hasAttorneyType attorneyData = true
       /\ website r = js_or (js_get attorneyData "url") (JsString "")
       /\ profileUrl r = js_or (js_get attorneyData "url") (JsString "").
Proof.
  intros Hin.
  destruct (extractLawyersViaJsonLD_parsed _ _ _ Hin) as (attorneyData & Htype & ->).
  do 4 (split; [reflexivity|]).
  exists attorneyData. split; [exact Htype|]. split; reflexivity.
Qed.

(** C5.  A plain-string address becomes the location verbatim; a
    structured address whose locality, region and postal code are each
    absent or a text becomes the texts that are present and not empty,
    joined with ", "; the Springfield example yields "Springfield, IL". *)
Theorem parseAttorneySchema_location_rule now (attorneyData : JsValue number) :
  (forall s,
      js_get attorneyData "address" = JsString s ->
      location (parseAttorneySchema now attorneyData) = JsString s)
  /\ (forall address locality region postalCode,
        js_get attorneyData "address" = JsObject address ->
        AddressPart (lookup_property "addressLocality" address) locality ->
        AddressPart (lookup_property "addressRegion" address) region ->
        AddressPart (lookup_property "postalCode" address) postalCode ->
        location (parseAttorneySchema now attorneyData)
        = JsString (joinAddressParts [locality; region; postalCode]))
  /\ location
       (parseAttorneySchema now
          (JsObject
             [ ("address",
                JsObject [ ("addressLocality", JsString "Springfield");
                           ("addressRegion", JsString "IL");
                           ("postalCode", JsString "") ]) ]))
     = JsString "Springfield, IL".
Proof.
  split; [|split].
  - intros s Haddr. unfold parseAttorneySchema. cbn [location].
    rewrite Haddr. destruct s; reflexivity.
  - intros address locality region postalCode Haddr Hl Hr Hp.
    unfold parseAttorneySchema. cbn [location].
    rewrite Haddr. unfold js_or. cbn [truthy js_get].
    inversion Hl as [Hl1 Hl2|Hl1 Hl2|sl Hl1 Hl2];
      inversion Hr as [Hr1 Hr2|Hr1 Hr2|sr Hr1 Hr2];
      inversion Hp as [Hp1 Hp2|Hp1 Hp2|sp Hp1 Hp2];
      try destruct sl; try destruct sr; try destruct sp; reflexivity.
  - reflexivity.
Qed.

(** *** Detail-page enrichment *)

Lemma fetchLawyerProfile_blocked url cookieString userAgent :
  blockedResponse (gotScraping url cookieString (sentUserAgent userAgent)) ->
  fetchLawyerProfile url cookieString userAgent = ProfileBlocked.
Proof.
  unfold fetchLawyerProfile, blockedResponse, sentUserAgent.
  destruct (gotScraping _ _ _) as [statusCode body|message]; [|tauto].
  intros [->|[->|[-> Htitle]]]; simpl; try reflexivity.
  rewrite Htitle. reflexivity.
Qed.

Lemma fetchLawyerProfile_info url cookieString userAgent body :
  gotScraping url cookieString (sentUserAgent userAgent) = Responded 200 body ->
  isChallengeTitle (cheerio_text body "title") = false ->
  fetchLawyerProfile url cookieString userAgent
  = ProfileInfo (trim (cheerio_first_text body bioSelector))
                (collectTexts body educationSelector)
                (collectTexts body awardsSelector).
Proof.
  unfold fetchLawyerProfile, sentUserAgent. intros -> Htitle. simpl.
  rewrite Htitle. reflexivity.
Qed.

Lemma enrichLawyer_count cookieString userAgent blockedCount lawyer :
  enrichLawyer cookieString userAgent blockedCount lawyer
  = (fst (enrichLawyer cookieString userAgent 0%Z lawyer),
     (blockedCount + if isBlocked cookieString userAgent lawyer then 1 else 0)%Z).
Proof.
  unfold enrichLawyer, isBlocked.
  destruct (truthy (profileUrl lawyer)); simpl.
  - destruct (fetchLawyerProfile _ _ _); simpl; f_equal; lia.
  - f_equal; lia.
Qed.

Lemma enrichLawyer_profileUrl cookieString userAgent blockedCount lawyer :
  profileUrl (fst (enrichLawyer cookieString userAgent blockedCount lawyer))
  = profileUrl lawyer.
Proof.
  unfold enrichLawyer.
  destruct (truthy (profileUrl lawyer)); simpl; [|reflexivity].
  destruct (fetchLawyerProfile _ _ _); reflexivity.
Qed.

Lemma enrichBatch_map cookieString userAgent batch blockedCount :
  enrichBatch cookieString userAgent batch blockedCount
  = (map (fun lawyer => fst (enrichLawyer cookieString userAgent 0%Z lawyer)) batch,
     (blockedCount
      + Z.of_nat (List.length (filter (isBlocked cookieString userAgent) batch)))%Z).
Proof.
  revert blockedCount.
  induction batch as [|lawyer rest IH]; intros blockedCount.
  - simpl. f_equal. lia.
  - cbn [enrichBatch]. rewrite enrichLawyer_count, IH. cbn [map filter].
    destruct (isBlocked cookieString userAgent lawyer); cbn [List.length];
      f_equal; lia.
Qed.

Lemma enrichLoop_batches cookieString userAgent batchSize lawyers :
  (0 < batchSize)%nat ->
  forall fuel i enrichedLawyers blockedCount,
    (List.length lawyers - i <= fuel)%nat ->
    enrichLoop fuel cookieString userAgent batchSize lawyers i
               enrichedLawyers blockedCount
    = (enrichedLawyers
       ++ fst (enrichBatch cookieString userAgent (skipn i lawyers) blockedCount),
       snd (enrichBatch cookieString userAgent (skipn i lawyers) blockedCount)).
Proof.
  intros Hsize.
  assert (Hdone : forall i enrichedLawyers blockedCount,
             (List.length lawyers <= i)%nat ->
             (enrichedLawyers, blockedCount)
             = (enrichedLawyers
                ++ fst (enrichBatch cookieString userAgent (skipn i lawyers)
                                    blockedCount),
                snd (enrichBatch cookieString userAgent (skipn i lawyers)
                                 blockedCount))).
  { intros i enrichedLawyers blockedCount Hle.
    rewrite skipn_all2 by exact Hle. simpl. now rewrite app_nil_r. }
  induction fuel as [|fuel IH]; intros i enrichedLawyers blockedCount Hfuel.
  - simpl. apply Hdone. lia.
  - cbn [enrichLoop].
    destruct (Nat.ltb_spec i (List.length lawyers)) as [Hlt|Hge];
      [|apply Hdone; exact Hge].
    unfold slice. replace (i + batchSize - i)%nat with batchSize by lia.
    rewrite !enrichBatch_map. rewrite IH by lia.
    rewrite !enrichBatch_map. cbn [fst snd].
    rewrite <- (firstn_skipn batchSize (skipn i lawyers)) at 3 4.
    rewrite skipn_skipn, (Nat.add_comm batchSize i).
    rewrite map_app, filter_app, length_app, app_assoc.
    f_equal. lia.
Qed.

Lemma enrichLawyersWithProfiles_map lawyers cookies userAgent maxConcurrency :
  (0 < maxConcurrency)%nat ->
  enrichLawyersWithProfiles lawyers cookies userAgent maxConcurrency
  = (map (fun lawyer =>
            fst (enrichLawyer (makeCookieString cookies) userAgent 0%Z lawyer))
         lawyers,
     Z.of_nat (List.length
                 (filter (isBlocked (makeCookieString cookies) userAgent) lawyers))).
Proof.
  intros Hsize. unfold enrichLawyersWithProfiles.
  destruct lawyers as [|lawyer rest]; [reflexivity|].
  rewrite enrichLoop_batches by (exact Hsize || lia).
  rewrite enrichBatch_map. reflexivity.
Qed.

Lemma enrichLawyersWithProfiles_keys lawyers cookies userAgent maxConcurrency :
  (0 < maxConcurrency)%nat ->
  map profileUrl
      (fst (enrichLawyersWithProfiles lawyers cookies userAgent maxConcurrency))
  = map profileUrl lawyers.
Proof.
  intros Hsize. rewrite enrichLawyersWithProfiles_map by exact Hsize.
  cbn [fst]. rewrite map_map. apply map_ext.
  intros lawyer. apply enrichLawyer_profileUrl.
Qed.

(** C4, as the code has it.  After a 200 response without challenge
    title the fetched bio, when it is not empty, replaces the record's
    bio, and the record's own bio is kept only when the fetched one is
    empty; [education] and [awards] are set to the fetched lists; the
    blocked counter is unchanged. *)
Theorem enrichment_prefers_fetched_bio cookieString userAgent blockedCount lawyer body :
  truthy (profileUrl lawyer) = true ->
  gotScraping (profileUrl lawyer) cookieString (sentUserAgent userAgent)
  = Responded 200 body ->
  isChallengeTitle (cheerio_text body "title") = false ->
  bio (fst (enrichLawyer cookieString userAgent blockedCount lawyer))
  = (if string_is_empty (trim (cheerio_first_text body bioSelector))
     then bio lawyer
     else JsString (trim (cheerio_first_text body bioSelector)))
  /\ education (fst (enrichLawyer cookieString userAgent blockedCount lawyer))
     = Some (JsArray (map JsString (collectTexts body educationSelector)))
  /\ awards (fst (enrichLawyer cookieString userAgent blockedCount lawyer))
     = Some (JsArray (map JsString (collectTexts body awardsSelector)))
  /\ snd (enrichLawyer cookieString userAgent blockedCount lawyer) = blockedCount.
Proof.
  intros Hurl Hfetch Htitle. unfold enrichLawyer. rewrite Hurl. cbn [negb].
  rewrite (fetchLawyerProfile_info _ _ _ _ Hfetch Htitle).
  cbn [fst snd withProfile bio education awards].
  unfold js_or. cbn [truthy].
  destruct (string_is_empty (trim (cheerio_first_text body bioSelector)));
    cbn [negb]; repeat split.
Qed.

(** C6.  When the fetch of a record's detail page answers 403 or 503, or
    200 with a challenge title, the enrichment closure returns the record
    itself and the blocked counter plus one; a whole pass returns that
    record unchanged at its position, and its counter ends at the number
    of blocked records.  The functions return values in every case: no
    error leaves them. *)
Theorem blocked_profile_leaves_record cookieString userAgent blockedCount lawyer :
  truthy (profileUrl lawyer) = true ->
  blockedResponse
    (gotScraping (profileUrl lawyer) cookieString (sentUserAgent userAgent)) ->
  enrichLawyer cookieString userAgent blockedCount lawyer
  = (lawyer, (blockedCount + 1)%Z)
  /\ forall lawyers cookies i,
       cookieString = makeCookieString cookies ->
       nth_error lawyers i = Some lawyer ->
       nth_error (fst (enrichLawyersWithProfiles lawyers cookies userAgent 10)) i
       = Some lawyer
       /\ snd (enrichLawyersWithProfiles lawyers cookies userAgent 10)
          = Z.of_nat (List.length
                        (filter (isBlocked cookieString userAgent) lawyers))
       /\ isBlocked cookieString userAgent lawyer = true.
Proof.
  intros Hurl Hblocked.
  assert (Hone : enrichLawyer cookieString userAgent blockedCount lawyer
                 = (lawyer, (blockedCount + 1)%Z)).
  { unfold enrichLawyer. rewrite Hurl. cbn [negb].
    rewrite (fetchLawyerProfile_blocked _ _ _ Hblocked). reflexivity. }
  split; [exact Hone|].
  intros lawyers cookies i -> Hnth.
  rewrite enrichLawyersWithProfiles_map by lia. cbn [fst snd].
  split; [|split].
  - rewrite nth_error_map, Hnth. cbn [option_map]. f_equal.
    unfold enrichLawyer. rewrite Hurl. cbn [negb].
    rewrite (fetchLawyerProfile_blocked _ _ _ Hblocked). reflexivity.
  - reflexivity.
  - unfold isBlocked. rewrite Hurl.
    rewrite (fetchLawyerProfile_blocked _ _ _ Hblocked). reflexivity.
Qed.

(** *** De-duplication *)

Lemma setHas_false_in seen k x :
  setHas seen k = false -> In x seen -> same_value_zero k x = false.
Proof.
  unfold setHas. intros Hhas Hin.
  destruct (same_value_zero k x) eqn:Hsame; [|reflexivity].
  assert (existsb (same_value_zero k) seen = true)
    by (apply existsb_exists; eauto).
  congruence.
Qed.

Lemma setHas_app seen more k :
  setHas (seen ++ more) k = setHas seen k || setHas more k.
Proof. unfold setHas. apply existsb_app. Qed.

Lemma ForallOrdPairs_app {A : Type} (R : A -> A -> Prop) (l1 l2 : list A) :
  ForallOrdPairs R l1 -> ForallOrdPairs R l2 ->
  (forall a b, In a l1 -> In b l2 -> R a b) ->
  ForallOrdPairs R (l1 ++ l2).
Proof.
  induction l1 as [|a l1 IH]; intros H1 H2 Hcross; [exact H2|].
  inversion H1 as [|a' l1' Ha Hl1]; subst. simpl. constructor.
  - apply Forall_app. split; [exact Ha|].
    apply Forall_forall. intros b Hb. apply Hcross; [now left | exact Hb].
  - apply IH; auto. intros x y Hx Hy. apply Hcross; [now right | exact Hy].
Qed.

Lemma ForallOrdPairs_nth {A : Type} (R : A -> A -> Prop) (l : list A) :
  ForallOrdPairs R l ->
  forall i j a b, (i < j)%nat ->
    nth_error l i = Some a -> nth_error l j = Some b -> R a b.
Proof.
  induction 1 as [|x l Hx Hl IH]; intros i j a b Hlt Hi Hj.
  - destruct i; discriminate.
  - destruct j as [|j]; [lia|]. simpl in Hj.
    destruct i as [|i]; simpl in Hi.
    + injection Hi as <-. rewrite Forall_forall in Hx.
      apply Hx. eapply nth_error_In; eauto.
    + apply (IH i j a b); [lia | exact Hi | exact Hj].
Qed.

(** What one run of the filter does to the set and to the list. *)
Lemma uniqueFilter_effect lawyersToSave :
  forall seen,
  exists added,
    snd (uniqueFilter seen lawyersToSave) = seen ++ added
    /\ (forall k, In k (map profileUrl (fst (uniqueFilter seen lawyersToSave))) ->
                  truthy k = true ->
                  In k added /\ setHas seen k = false)
    /\ ForallOrdPairs distinctKeys
         (map profileUrl (fst (uniqueFilter seen lawyersToSave)))
    /\ (List.length (fst (uniqueFilter seen lawyersToSave))
        <= List.length lawyersToSave)%nat.
Proof.
  induction lawyersToSave as [|lawyer rest IH]; intros seen.
  - exists []. simpl. rewrite app_nil_r.
    repeat split; try tauto; try constructor.
  - cbn [uniqueFilter].
    destruct (truthy (profileUrl lawyer)) eqn:Hkey; cbn [negb].
    + destruct (setHas seen (profileUrl lawyer)) eqn:Hhas.
      * destruct (IH seen) as (added & Hseen & Hkeys & Hpairs & Hlen).
        exists added. repeat split; auto. apply Hkeys; auto. apply Hkeys; auto.
        simpl; lia.
      * destruct (IH (seen ++ [profileUrl lawyer]))
          as (added & Hseen & Hkeys & Hpairs & Hlen).
        destruct (uniqueFilter (seen ++ [profileUrl lawyer]) rest)
          as [kept seen'] eqn:Hrest.
        cbn [fst snd] in *.
        exists (profileUrl lawyer :: added).
        split; [rewrite Hseen, <- app_assoc; reflexivity|].
        split; [|split].
        -- cbn [map]. intros k [<-|Hin] Hk.
           ++ split; [now left | exact Hhas].
           ++ destruct (Hkeys k Hin Hk) as [Hadded Hnot].
              rewrite setHas_app in Hnot.
              apply orb_false_iff in Hnot as [Hnot _]. split; [now right | exact Hnot].
        -- cbn [map]. constructor; [|exact Hpairs].
           apply Forall_forall. intros k Hin _ Hk.
           destruct (Hkeys k Hin Hk) as [_ Hnot].
           eapply setHas_false_in; [exact Hnot|].
           apply in_or_app. right. now left.
        -- cbn [List.length]. lia.
    + destruct (IH seen) as (added & Hseen & Hkeys & Hpairs & Hlen).
      destruct (uniqueFilter seen rest) as [kept seen'] eqn:Hrest.
      cbn [fst snd] in *.
      exists added. split; [exact Hseen|]. split; [|split].
      * cbn [map]. intros k [<-|Hin] Hk; [congruence | auto].
      * cbn [map]. constructor; [|exact Hpairs].
        apply Forall_forall. intros k _ Hlawyer. congruence.
      * cbn [List.length]. lia.
Qed.

(** A record without identity key always passes the filter. *)
Lemma uniqueFilter_keeps_keyless lawyersToSave r :
  forall seen,
    In r lawyersToSave -> truthy (profileUrl r) = false ->
    In r (fst (uniqueFilter seen lawyersToSave)).
Proof.
  induction lawyersToSave as [|lawyer rest IH]; intros seen Hin Hkey; [destruct Hin|].
  cbn [uniqueFilter]. destruct Hin as [->|Hin].
  - rewrite Hkey. cbn [negb].
    destruct (uniqueFilter seen rest). now left.
  - destruct (truthy (profileUrl lawyer)); cbn [negb].
    + destruct (setHas seen (profileUrl lawyer)); [auto|].
      specialize (IH (seen ++ [profileUrl lawyer]) Hin Hkey).
      destruct (uniqueFilter (seen ++ [profileUrl lawyer]) rest). now right.
    + specialize (IH seen Hin Hkey).
      destruct (uniqueFilter seen rest). now right.
Qed.

(** *** The handler, piece by piece *)

Lemma sink_emit e st :
  sink (emit e st)
  = sink st ++ match e with DataPushed records => records | _ => [] end.
Proof.
  unfold sink, emit. cbn [trace]. rewrite flat_map_app. cbn [flat_map].
  now rewrite app_nil_r.
Qed.

Lemma sameRecords_refl st : sameRecords st st.
Proof. repeat split. Qed.

Lemma sameRecords_trans st1 st2 st3 :
  sameRecords st1 st2 -> sameRecords st2 st3 -> sameRecords st1 st3.
Proof.
  unfold sameRecords. intros (H1 & H2 & H3) (H4 & H5 & H6).
  repeat split; congruence.
Qed.

Lemma sameRecords_emit e st :
  (forall records, e <> DataPushed records) -> sameRecords st (emit e st).
Proof.
  intros Hnot. unfold sameRecords. rewrite sink_emit.
  destruct e; try (now rewrite app_nil_r; repeat split).
  exfalso. eapply Hnot. reflexivity.
Qed.

Lemma saveDebugInfo_trace page st :
  trace (saveDebugInfo page st) = trace st ++ snapshotEvents page.
Proof.
  unfold saveDebugInfo, snapshotEvents.
  destruct (page_content page); cbn [emit trace].
  - now rewrite <- app_assoc.
  - now rewrite app_nil_r.
Qed.

Lemma saveDebugInfo_sameRecords page st : sameRecords st (saveDebugInfo page st).
Proof.
  unfold saveDebugInfo. destruct (page_content page); [|apply sameRecords_refl].
  eapply sameRecords_trans; apply sameRecords_emit; discriminate.
Qed.

Lemma saveDebugInfo_method page st :
  extractionMethod (saveDebugInfo page st) = extractionMethod st.
Proof. unfold saveDebugInfo. destruct (page_content page); reflexivity. Qed.

Ltac cascade_cases page :=
  unfold runStrategies, winner, strategyOrder;
  change (extractLawyersViaJsonLD (page_clock page) (page_jsonLdScripts page))
    with (strategyResult page JsonLD);
  change (page_apiLawyers page) with (strategyResult page InternalAPI);
  change (page_htmlLawyers page) with (strategyResult page HtmlParsing);
  cbn [find attempted];
  let HJ := fresh "HJ" in
  let HA := fresh "HA" in
  let HH := fresh "HH" in
  destruct (strategyResult page JsonLD) eqn:HJ; cbn [isEmpty negb find];
  [ destruct (strategyResult page InternalAPI) eqn:HA; cbn [isEmpty negb find];
    [ destruct (strategyResult page HtmlParsing) eqn:HH; cbn [isEmpty negb find]
    | ]
  | ];
  cbn [fst snd]; rewrite ?HJ, ?HA, ?HH.

Lemma runStrategies_lawyers page st :
  fst (runStrategies page st)
  = match winner page strategyOrder with
    | Some s => strategyResult page s
    | None => []
    end.
Proof. cascade_cases page; reflexivity. Qed.

Lemma runStrategies_trace page st :
  trace (snd (runStrategies page st))
  = trace st ++ map StrategyInvoked (attempted page strategyOrder).
Proof.
  cascade_cases page; cbn [emit setExtractionMethod trace map];
    rewrite <- ?app_assoc; reflexivity.
Qed.

Lemma runStrategies_method page st :
  extractionMethod (snd (runStrategies page st))
  = match winner page strategyOrder with
    | Some s => strategyLabel s
    | None => extractionMethod st
    end.
Proof. cascade_cases page; reflexivity. Qed.

Lemma runStrategies_sameRecords page st :
  sameRecords st (snd (runStrategies page st)).
Proof.
  unfold sameRecords, sink. rewrite runStrategies_trace, flat_map_app.
  replace (flat_map _ (map StrategyInvoked (attempted page strategyOrder)))
    with (@nil (@Lawyer number)).
  - rewrite app_nil_r. split; [reflexivity|].
    cascade_cases page; split; reflexivity.
  - induction (attempted page strategyOrder) as [|s l IH]; [reflexivity|]. exact IH.
Qed.

Lemma paginate_effect maxLawyers page st :
  trace (fst (paginate maxLawyers page st))
  = trace st ++ map RequestAdded (snd (paginate maxLawyers page st))
  /\ sameRecords st (fst (paginate maxLawyers page st))
  /\ extractionMethod (fst (paginate maxLawyers page st)) = extractionMethod st
  /\ (snd (paginate maxLawyers page st) <> [] ->
      (totalLawyersScraped st < maxLawyers)%Z
      /\ snd (paginate maxLawyers page st) = [page_nextPageUrl page]).
Proof.
  unfold paginate.
  destruct ((0 <? maxLawyers)%Z && (maxLawyers <=? totalLawyersScraped st)%Z).
  { cbn. rewrite app_nil_r. repeat split; tauto. }
  destruct (page_hasNextPage page); cbn [andb].
  2: { cbn. rewrite app_nil_r. repeat split; tauto. }
  destruct (Z.ltb_spec (totalLawyersScraped st) maxLawyers) as [Hlt|Hge].
  2: { cbn. rewrite app_nil_r. repeat split; tauto. }
  destruct (negb (string_is_empty (page_nextPageUrl page))
            && startsWith "http" (page_nextPageUrl page)).
  - cbn [fst snd map]. split; [reflexivity|]. split; [|split].
    + apply sameRecords_emit. discriminate.
    + reflexivity.
    + intros _. split; [exact Hlt | reflexivity].
  - cbn. rewrite app_nil_r. repeat split; tauto.
Qed.

Lemma slice_from_zero {A : Type} (n : nat) (l : list A) : slice 0 n l = firstn n l.
Proof. unfold slice. now rewrite Nat.sub_0_r. Qed.

(** The records a page contributes: the batch pushed, if any. *)
Lemma saveLawyers_effect includeContactInfo maxLawyers page lawyers st :
  exists batch added,
    trace (saveLawyers includeContactInfo maxLawyers page lawyers st)
    = trace st ++ (if isEmpty batch then [] else [DataPushed batch])
    /\ seenLawyerUrls (saveLawyers includeContactInfo maxLawyers page lawyers st)
       = seenLawyerUrls st ++ added
    /\ totalLawyersScraped (saveLawyers includeContactInfo maxLawyers page lawyers st)
       = (totalLawyersScraped st + Z.of_nat (List.length batch))%Z
    /\ extractionMethod (saveLawyers includeContactInfo maxLawyers page lawyers st)
       = extractionMethod st
    /\ (forall k, In k (map profileUrl batch) -> truthy k = true ->
                  In k added /\ setHas (seenLawyerUrls st) k = false)
    /\ ForallOrdPairs distinctKeys (map profileUrl batch)
    /\ ((0 < maxLawyers)%Z -> (totalLawyersScraped st <= maxLawyers)%Z ->
        (totalLawyersScraped st + Z.of_nat (List.length batch) <= maxLawyers)%Z).
Proof.
  unfold saveLawyers.
  set (lawyersToSave :=
         if (0 <? maxLawyers)%Z
         then slice 0 (Z.to_nat (Z.max 0 (maxLawyers - totalLawyersScraped st))) lawyers
         else lawyers).
  assert (Hslice : (0 < maxLawyers)%Z -> (totalLawyersScraped st <= maxLawyers)%Z ->
                   (Z.of_nat (List.length lawyersToSave)
                    <= maxLawyers - totalLawyersScraped st)%Z).
  { intros Hpos Hle. subst lawyersToSave.
    destruct (Z.ltb_spec 0 maxLawyers) as [_|Hneg]; [|lia].
    rewrite slice_from_zero.
    pose proof (firstn_le_length
                  (Z.to_nat (Z.max 0 (maxLawyers - totalLawyersScraped st))) lawyers).
    lia. }
  destruct (uniqueFilter_effect lawyersToSave (seenLawyerUrls st))
    as (added & Hseen & Hkeys & Hpairs & Hlen).
  destruct (uniqueFilter (seenLawyerUrls st) lawyersToSave)
    as [uniqueLawyers seen] eqn:Hfilter.
  cbn [fst snd] in Hseen, Hkeys, Hpairs, Hlen.
  set (batch :=
         if negb (isEmpty uniqueLawyers) && includeContactInfo
         then fst (enrichLawyersWithProfiles uniqueLawyers
                     (page_cookies page) (page_userAgent page) 10)
         else uniqueLawyers).
  assert (Hbatch : map profileUrl batch = map profileUrl uniqueLawyers).
  { subst batch. destruct (negb (isEmpty uniqueLawyers) && includeContactInfo);
      [|reflexivity].
    apply enrichLawyersWithProfiles_keys. lia. }
  assert (Hsize : List.length batch = List.length uniqueLawyers).
  { rewrite <- (length_map profileUrl batch), Hbatch. apply length_map. }
  exists batch, added. rewrite Hbatch.
  destruct batch as [|first others]; cbn [isEmpty negb].
  - cbn [setSeenLawyerUrls trace seenLawyerUrls totalLawyersScraped
         extractionMethod List.length].
    rewrite app_nil_r.
    repeat split; auto; try lia; apply Hkeys; auto.
  - cbn [addTotalLawyersScraped emit setSeenLawyerUrls trace seenLawyerUrls
         totalLawyersScraped extractionMethod].
    repeat split; auto; try (apply Hkeys; auto).
    intros Hpos Hle. specialize (Hslice Hpos Hle). rewrite Hsize. lia.
Qed.

(** *** One page, then the whole run *)

Lemma contributes_nothing maxLawyers st st' :
  sameRecords st st' -> contributes maxLawyers st st' [] [].
Proof.
  intros (Hsink & Hseen & Htotal). unfold contributes.
  rewrite Hsink, Hseen, Htotal, !app_nil_r. cbn [List.length map].
  split; [reflexivity|]. split; [reflexivity|]. split; [lia|].
  split; [intros k []|]. split; [constructor | lia].
Qed.

Lemma requestHandler_contributes includeContactInfo maxLawyers page url st :
  exists batch added,
    contributes maxLawyers st
      (fst (requestHandler includeContactInfo maxLawyers page url st))
      batch added.
Proof.
  assert (Hincr : sameRecords st (incrPagesProcessed st)) by (repeat split).
  unfold requestHandler.
  destruct (page_goto page) as [message|].
  { exists [], []. apply contributes_nothing. cbn [fst].
    eapply sameRecords_trans; [exact Hincr|]. apply sameRecords_emit. discriminate. }
  destruct (maxRetries <=? challengeLoop maxRetries page 0)%nat.
  { exists [], []. apply contributes_nothing. cbn [fst].
    eapply sameRecords_trans; [exact Hincr|]. apply saveDebugInfo_sameRecords. }
  pose proof (runStrategies_sameRecords page (incrPagesProcessed st)) as Hrun.
  destruct (runStrategies page (incrPagesProcessed st)) as [lawyers st1].
  cbn [snd] in Hrun.
  assert (Hst1 : sameRecords st st1)
    by (eapply sameRecords_trans; [exact Hincr | exact Hrun]).
  destruct (isEmpty lawyers).
  { exists [], []. apply contributes_nothing. cbn [fst].
    eapply sameRecords_trans; [exact Hst1|]. apply saveDebugInfo_sameRecords. }
  destruct (saveLawyers_effect includeContactInfo maxLawyers page lawyers st1)
    as (batch & added & Htrace & Hseen & Htotal & _ & Hkeys & Hpairs & Hbound).
  destruct (paginate_effect maxLawyers page
              (saveLawyers includeContactInfo maxLawyers page lawyers st1))
    as (_ & (Psink & Pseen & Ptotal) & _).
  destruct Hst1 as (Ssink & Sseen & Stotal).
  exists batch, added. unfold contributes.
  rewrite Psink, Pseen, Ptotal, Hseen, Htotal.
  split; [|split; [|split; [|split; [|split]]]].
  - unfold sink at 1. rewrite Htrace, flat_map_app. fold (sink st1). rewrite Ssink.
    f_equal. destruct batch; cbn; [reflexivity | now rewrite app_nil_r].
  - now rewrite Sseen.
  - now rewrite Stotal.
  - intros k Hin Hk. rewrite <- Sseen. apply Hkeys; auto.
  - exact Hpairs.
  - intros Hpos Hle. rewrite <- Stotal in Hle. auto.
Qed.

Lemma runInvariant_step maxLawyers st st' batch added :
  runInvariant maxLawyers st -> contributes maxLawyers st st' batch added ->
  runInvariant maxLawyers st'.
Proof.
  intros (Iseen & Ipairs & Itotal & Ibound)
         (Hsink & Hseen & Htotal & Hkeys & Hpairs & Hbound).
  unfold runInvariant. rewrite Hsink, Hseen, Htotal, map_app, length_app.
  split; [|split; [|split]].
  - intros k Hin Hk. apply in_or_app. apply in_app_or in Hin as [Hin|Hin].
    + left. auto.
    + right. apply Hkeys; auto.
  - apply ForallOrdPairs_app; auto.
    intros a b Ha Hb Htruthy_a Htruthy_b.
    destruct (Hkeys b Hb Htruthy_b) as [_ Hnot].
    eapply setHas_false_in; [exact Hnot | auto].
  - lia.
  - intros Hpos. rewrite <- Htotal. auto.
Qed.

Lemma crawl_invariant includeContactInfo maxLawyers web budget :
  forall known queue st,
    runInvariant maxLawyers st ->
    runInvariant maxLawyers
      (crawl budget includeContactInfo maxLawyers web known queue st)
    /\ exists added,
         seenLawyerUrls
           (crawl budget includeContactInfo maxLawyers web known queue st)
         = seenLawyerUrls st ++ added.
Proof.
  induction budget as [|budget IH]; intros known queue st Hinv.
  - simpl. split; [exact Hinv|]. exists []. now rewrite app_nil_r.
  - destruct queue as [|url rest].
    + simpl. split; [exact Hinv|]. exists []. now rewrite app_nil_r.
    + cbn [crawl].
      destruct (requestHandler_contributes includeContactInfo maxLawyers
                  (web url) url st) as (batch & added & Hstep).
      destruct (requestHandler includeContactInfo maxLawyers (web url) url st)
        as [st' requests].
      cbn [fst] in Hstep.
      destruct (enqueue known rest requests) as [known' queue'].
      pose proof (runInvariant_step _ _ _ _ _ Hinv Hstep) as Hinv'.
      destruct (IH known' queue' st' Hinv') as (Hfinal & more & Hmore).
      split; [exact Hfinal|].
      exists (added ++ more). rewrite Hmore.
      destruct Hstep as (_ & -> & _). now rewrite app_assoc.
Qed.

Lemma crawl_seen_append includeContactInfo maxLawyers web budget :
  forall known queue st,
  exists added,
    seenLawyerUrls (crawl budget includeContactInfo maxLawyers web known queue st)
    = seenLawyerUrls st ++ added.
Proof.
  induction budget as [|budget IH]; intros known queue st.
  - exists []. simpl. now rewrite app_nil_r.
  - destruct queue as [|url rest]; [exists []; simpl; now rewrite app_nil_r|].
    cbn [crawl].
    destruct (requestHandler_contributes includeContactInfo maxLawyers
                (web url) url st) as (batch & added & _ & Hseen & _).
    destruct (requestHandler includeContactInfo maxLawyers (web url) url st)
      as [st' requests].
    cbn [fst] in Hseen.
    destruct (enqueue known rest requests) as [known' queue'].
    destruct (IH known' queue' st') as (more & Hmore).
    exists (added ++ more). now rewrite Hmore, Hseen, app_assoc.
Qed.

Lemma runInvariant_initial maxLawyers :
  (0 <= maxLawyers)%Z -> runInvariant maxLawyers initialState.
Proof.
  intros Hmax. unfold runInvariant, initialState, sink. cbn.
  repeat split; try tauto; try lia. constructor.
Qed.

Lemma main_completed input web final :
  main input web = Completed final ->
  (0 <= resolveMaxLawyers (input_maxLawyers input) <= 10000)%Z
  /\ sameRecords
       (crawl maxRequestsPerCrawl (input_includeContactInfo input)
              (resolveMaxLawyers (input_maxLawyers input)) web
              [buildSearchUrl input] [buildSearchUrl input] initialState)
       final.
Proof.
  unfold main.
  destruct (blank (input_startUrl input)
            && (blank (input_practiceArea input) || blank (input_state input)));
    [discriminate|].
  destruct (Z.ltb_spec (resolveMaxLawyers (input_maxLawyers input)) 0);
    cbn [orb]; [discriminate|].
  destruct (Z.gtb_spec (resolveMaxLawyers (input_maxLawyers input)) 10000);
    [discriminate|].
  intros [= <-]. split; [lia|]. apply sameRecords_emit. discriminate.
Qed.

Lemma main_invariant input web final :
  main input web = Completed final ->
  runInvariant (resolveMaxLawyers (input_maxLawyers input)) final.
Proof.
  intros Hmain. destruct (main_completed _ _ _ Hmain) as (Hrange & Hsink & Hseen & Htotal).
  destruct (crawl_invariant (input_includeContactInfo input)
              (resolveMaxLawyers (input_maxLawyers input)) web maxRequestsPerCrawl
              [buildSearchUrl input] [buildSearchUrl input] initialState)
    as [Hinv _]; [apply runInvariant_initial; lia|].
  unfold runInvariant in *. rewrite Hsink, Hseen, Htotal. exact Hinv.
Qed.

Lemma string_key_distinct (k1 k2 : JsValue number) u :
  distinctKeys k1 k2 \/ distinctKeys k2 k1 ->
  k1 = JsString u -> u <> "" -> k2 <> JsString u.
Proof.
  intros Hdistinct -> Hu ->.
  assert (Htruthy : truthy (@JsString number u) = true)
    by (destruct u; [congruence | reflexivity]).
  assert (Hsame : same_value_zero (@JsString number u) (JsString u) = true)
    by (cbn; apply String.eqb_refl).
  destruct Hdistinct as [H|H]; specialize (H Htruthy Htruthy); congruence.
Qed.

(** C1.  In every completed run no two records handed to the sink share
    a non-empty [profileUrl]; handling a page, and crawling any queue of
    pages, only appends to the set of seen profile URLs; and a record
    whose [profileUrl] is empty passes the de-duplication filter whatever
    the set holds. *)
Theorem emitted_profile_urls_unique :
  (forall input web final i j r1 r2 u,
      main input web = Completed final ->
      i <> j ->
      nth_error (sink final) i = Some r1 ->
      nth_error (sink final) j = Some r2 ->
      profileUrl r1 = JsString u -> u <> "" ->
      profileUrl r2 <> JsString u)
  /\ (forall includeContactInfo maxLawyers page url st,
        exists added,
          seenLawyerUrls
            (fst (requestHandler includeContactInfo maxLawyers page url st))
          = seenLawyerUrls st ++ added)
  /\ (forall budget includeContactInfo maxLawyers web known queue st,
        exists added,
          seenLawyerUrls
            (crawl budget includeContactInfo maxLawyers web known queue st)
          = seenLawyerUrls st ++ added)
  /\ (forall seen lawyersToSave r,
        In r lawyersToSave -> truthy (profileUrl r) = false ->
        In r (fst (uniqueFilter seen lawyersToSave))).
Proof.
  split; [|split; [|split]].
  - intros input web final i j r1 r2 u Hmain Hij Hi Hj Hkey Hu.
    destruct (main_invariant _ _ _ Hmain) as (_ & Hpairs & _).
    assert (Hi' : nth_error (map profileUrl (sink final)) i = Some (profileUrl r1))
      by (rewrite nth_error_map, Hi; reflexivity).
    assert (Hj' : nth_error (map profileUrl (sink final)) j = Some (profileUrl r2))
      by (rewrite nth_error_map, Hj; reflexivity).
    apply (string_key_distinct (profileUrl r1)); auto.
    destruct (Nat.lt_total i j) as [Hlt|[Heq|Hgt]]; [left | contradiction | right].
    + exact (ForallOrdPairs_nth _ _ Hpairs i j _ _ Hlt Hi' Hj').
    + exact (ForallOrdPairs_nth _ _ Hpairs j i _ _ Hgt Hj' Hi').
  - intros includeContactInfo maxLawyers page url st.
    destruct (requestHandler_contributes includeContactInfo maxLawyers page url st)
      as (batch & added & _ & Hseen & _).
    exists added. exact Hseen.
  - intros budget includeContactInfo maxLawyers web known queue st.
    apply crawl_seen_append.
  - intros seen lawyersToSave r. apply uniqueFilter_keeps_keyless.
Qed.

(** *** The challenge gate *)

(** The rounds allotted to the loop are enough: it stops because the
    retries ran out or because the challenge is gone. *)
Lemma challengeLoop_exit page :
  forall fuel retryCount,
    (maxRetries <= fuel + retryCount)%nat ->
    (maxRetries <= challengeLoop fuel page retryCount)%nat
    \/ challengeDetected
         (page_title page (challengeLoop fuel page retryCount))
         (page_bodyText page (challengeLoop fuel page retryCount)) = false.
Proof.
  induction fuel as [|fuel IH]; intros retryCount Hfuel.
  - left. simpl. lia.
  - cbn [challengeLoop].
    destruct (Nat.ltb_spec retryCount maxRetries) as [Hlt|Hge]; [|left; exact Hge].
    destruct (challengeDetected (page_title page retryCount)
                                (page_bodyText page retryCount)) eqn:Hdetected.
    + apply IH. lia.
    + right. exact Hdetected.
Qed.

Lemma challengeLoop_exhausted page :
  (forall round, (round < maxRetries)%nat ->
     challengeDetected (page_title page round) (page_bodyText page round) = true) ->
  challengeLoop maxRetries page 0 = maxRetries.
Proof.
  intros Hdetected. unfold maxRetries in *.
  cbn -[challengeDetected].
  rewrite (Hdetected 0%nat), (Hdetected 1%nat), (Hdetected 2%nat) by lia.
  reflexivity.
Qed.

Lemma strategiesInvoked_app (events more : list (@Event number)) :
  strategiesInvoked (events ++ more)
  = strategiesInvoked events ++ strategiesInvoked more.
Proof. apply flat_map_app. Qed.

Lemma strategiesInvoked_map (order : list Strategy) :
  strategiesInvoked (map (@StrategyInvoked number) order) = order.
Proof. induction order as [|s order IH]; [reflexivity|]. cbn. now f_equal. Qed.

Lemma strategiesInvoked_snapshot page : strategiesInvoked (snapshotEvents page) = [].
Proof. unfold snapshotEvents. destruct (page_content page); reflexivity. Qed.

Lemma strategiesInvoked_requests (urls : list string) :
  strategiesInvoked (map (@RequestAdded number) urls) = [].
Proof. induction urls as [|u urls IH]; [reflexivity | exact IH]. Qed.

(** C7.  When the challenge is detected in each of the three rounds, the
    handler returns normally with no request added; nothing is pushed to
    the sink and no strategy is invoked; if the page content can be
    read, the page leaves exactly one structure analysis in the log and
    one write of the full content under DEBUG_PAGE_HTML; and the crawl
    goes on with the rest of the queue. *)
Theorem unresolved_challenge_abandons_page includeContactInfo maxLawyers page url st :
  page_goto page = None ->
  (forall round, (round < maxRetries)%nat ->
     challengeDetected (page_title page round) (page_bodyText page round) = true) ->
  snd (requestHandler includeContactInfo maxLawyers page url st) = []
  /\ sink (fst (requestHandler includeContactInfo maxLawyers page url st)) = sink st
  /\ totalLawyersScraped (fst (requestHandler includeContactInfo maxLawyers page url st))
     = totalLawyersScraped st
  /\ strategiesInvoked
       (trace (fst (requestHandler includeContactInfo maxLawyers page url st)))
     = strategiesInvoked (trace st)
  /\ (forall html,
        page_content page = Some html ->
        trace (fst (requestHandler includeContactInfo maxLawyers page url st))
        = trace st
          ++ [ StructureLogged
                 (List.length (cheerio_texts html "article"))
                 (List.length (cheerio_texts html
                                 ("[class*=" ++ dq ++ "lawyer" ++ dq ++ "]")))
                 (List.length (cheerio_texts html "[data-testid]"))
                 (cheerio_text html "title")
                 (includes "Just a moment" html || includes "cf-browser" html);
               ValueSet "DEBUG_PAGE_HTML" html ])
  /\ (forall web known rest budget,
        web url = page ->
        crawl (S budget) includeContactInfo maxLawyers web known (url :: rest) st
        = crawl budget includeContactInfo maxLawyers web known rest
            (fst (requestHandler includeContactInfo maxLawyers page url st))).
Proof.
  intros Hgoto Hdetected.
  assert (Hhandler : requestHandler includeContactInfo maxLawyers page url st
                     = (saveDebugInfo page (incrPagesProcessed st), [])).
  { unfold requestHandler. rewrite Hgoto, (challengeLoop_exhausted _ Hdetected).
    reflexivity. }
  rewrite Hhandler. cbn [fst snd].
  destruct (saveDebugInfo_sameRecords page (incrPagesProcessed st))
    as (Hsink & _ & Htotal).
  split; [reflexivity|]. split; [exact Hsink|]. split; [exact Htotal|].
  split; [|split].
  - rewrite saveDebugInfo_trace, strategiesInvoked_app, strategiesInvoked_snapshot.
    cbn [incrPagesProcessed trace]. now rewrite app_nil_r.
  - intros html Hcontent. rewrite saveDebugInfo_trace. unfold snapshotEvents.
    rewrite Hcontent. reflexivity.
  - intros web known rest budget Hweb. cbn [crawl]. rewrite Hweb, Hhandler.
    reflexivity.
Qed.

(** *** The strategy cascade *)

Lemma requestHandler_passed includeContactInfo maxLawyers page url st :
  page_goto page = None -> challengePassed page ->
  exists events,
    trace (fst (requestHandler includeContactInfo maxLawyers page url st))
    = trace st ++ map StrategyInvoked (attempted page strategyOrder) ++ events
    /\ strategiesInvoked events = []
    /\ extractionMethod (fst (requestHandler includeContactInfo maxLawyers page url st))
       = match winner page strategyOrder with
         | Some s => strategyLabel s
         | None => extractionMethod st
         end.
Proof.
  intros Hgoto Hpassed. unfold requestHandler. rewrite Hgoto.
  destruct (Nat.leb_spec maxRetries (challengeLoop maxRetries page 0)) as [Hle|_];
    [unfold challengePassed in Hpassed; lia|].
  pose proof (runStrategies_trace page (incrPagesProcessed st)) as Htrace.
  pose proof (runStrategies_method page (incrPagesProcessed st)) as Hmethod.
  destruct (runStrategies page (incrPagesProcessed st)) as [lawyers st1].
  cbn [snd incrPagesProcessed trace extractionMethod] in Htrace, Hmethod.
  destruct (isEmpty lawyers).
  - exists (snapshotEvents page). cbn [fst].
    rewrite saveDebugInfo_trace, saveDebugInfo_method, Htrace, Hmethod, <- app_assoc.
    split; [reflexivity|]. split; [apply strategiesInvoked_snapshot | reflexivity].
  - destruct (saveLawyers_effect includeContactInfo maxLawyers page lawyers st1)
      as (batch & added & Hsave & _ & _ & Hsame & _).
    destruct (paginate_effect maxLawyers page
                (saveLawyers includeContactInfo maxLawyers page lawyers st1))
      as (Hpage & _ & Hkeep & _).
    exists ((if isEmpty batch then [] else [DataPushed batch])
            ++ map RequestAdded
                 (snd (paginate maxLawyers page
                         (saveLawyers includeContactInfo maxLawyers page lawyers st1)))).
    rewrite Hpage, Hkeep, Hsave, Hsame, Htrace, Hmethod, <- !app_assoc.
    split; [reflexivity|]. split; [|reflexivity].
    rewrite strategiesInvoked_app, strategiesInvoked_requests.
    destruct batch; reflexivity.
Qed.

(** C2.  The cascade tries JSON-LD, then the embedded data, then the
    HTML, each only while every earlier one returned no record; the
    records kept are those of the first strategy that returned any, and
    its label becomes [extractionMethod].  The same holds of the whole
    handler on a page that gets past navigation and challenge. *)
Theorem strategies_short_circuit page st :
  fst (runStrategies page st) = pageLawyers page
  /\ trace (snd (runStrategies page st))
     = trace st ++ map StrategyInvoked (attempted page strategyOrder)
  /\ extractionMethod (snd (runStrategies page st))
     = match winner page strategyOrder with
       | Some s => strategyLabel s
       | None => extractionMethod st
       end
  /\ (strategyResult page JsonLD <> [] ->
      attempted page strategyOrder = [JsonLD]
      /\ winner page strategyOrder = Some JsonLD)
  /\ (strategyResult page JsonLD = [] -> strategyResult page InternalAPI <> [] ->
      attempted page strategyOrder = [JsonLD; InternalAPI]
      /\ winner page strategyOrder = Some InternalAPI)
  /\ (strategyResult page JsonLD = [] -> strategyResult page InternalAPI = [] ->
      attempted page strategyOrder = [JsonLD; InternalAPI; HtmlParsing]
      /\ (strategyResult page HtmlParsing <> [] ->
          winner page strategyOrder = Some HtmlParsing))
  /\ (forall includeContactInfo maxLawyers url,
        page_goto page = None -> challengePassed page ->
        strategiesInvoked
          (trace (fst (requestHandler includeContactInfo maxLawyers page url st)))
        = strategiesInvoked (trace st) ++ attempted page strategyOrder
        /\ extractionMethod
             (fst (requestHandler includeContactInfo maxLawyers page url st))
           = match winner page strategyOrder with
             | Some s => strategyLabel s
             | None => extractionMethod st
             end).
Proof.
  split; [apply runStrategies_lawyers|].
  split; [apply runStrategies_trace|].
  split; [apply runStrategies_method|].
  unfold winner, strategyOrder. cbn [attempted find].
  split; [|split; [|split]].
  - intros HJ. destruct (strategyResult page JsonLD); [congruence|]. split; reflexivity.
  - intros -> HA. cbn [isEmpty negb].
    destruct (strategyResult page InternalAPI); [congruence|]. split; reflexivity.
  - intros -> ->. cbn [isEmpty negb].
    destruct (strategyResult page HtmlParsing); cbn [isEmpty negb];
      (split; [reflexivity | intros HH; congruence]).
  - intros includeContactInfo maxLawyers url Hgoto Hpassed.
    destruct (requestHandler_passed includeContactInfo maxLawyers page url st
                Hgoto Hpassed) as (events & Htrace & Hnone & Hmethod).
    split; [|exact Hmethod].
    rewrite Htrace, !strategiesInvoked_app, strategiesInvoked_map, Hnone.
    now rewrite app_nil_r.
Qed.

(** *** Budget and pagination *)

Lemma saveDebugInfo_pages page st :
  pagesProcessed (saveDebugInfo page st) = pagesProcessed st.
Proof. unfold saveDebugInfo. destruct (page_content page); reflexivity. Qed.

Lemma runStrategies_pages page st :
  pagesProcessed (snd (runStrategies page st)) = pagesProcessed st.
Proof. cascade_cases page; reflexivity. Qed.

Lemma saveLawyers_pages includeContactInfo maxLawyers page lawyers st :
  pagesProcessed (saveLawyers includeContactInfo maxLawyers page lawyers st)
  = pagesProcessed st.
Proof.
  unfold saveLawyers.
  destruct (uniqueFilter _ _) as [uniqueLawyers seen].
  destruct (negb (isEmpty _)); reflexivity.
Qed.

Lemma paginate_pages maxLawyers page st :
  pagesProcessed (fst (paginate maxLawyers page st)) = pagesProcessed st.
Proof.
  unfold paginate.
  repeat match goal with
         | |- context [if ?c then _ else _] => destruct c
         end; reflexivity.
Qed.

Lemma requestHandler_pages includeContactInfo maxLawyers page url st :
  pagesProcessed (fst (requestHandler includeContactInfo maxLawyers page url st))
  = (pagesProcessed st + 1)%Z.
Proof.
  unfold requestHandler.
  destruct (page_goto page); [reflexivity|].
  destruct (maxRetries <=? challengeLoop maxRetries page 0)%nat;
    [cbn [fst]; now rewrite saveDebugInfo_pages|].
  pose proof (runStrategies_pages page (incrPagesProcessed st)) as Hpages.
  destruct (runStrategies page (incrPagesProcessed st)) as [lawyers st1].
  cbn [snd incrPagesProcessed pagesProcessed] in Hpages.
  destruct (isEmpty lawyers); cbn [fst].
  - now rewrite saveDebugInfo_pages.
  - now rewrite paginate_pages, saveLawyers_pages.
Qed.

(** With a budget of zero the handler never asks for another page. *)
Lemma zero_budget_never_paginates includeContactInfo page url st :
  (0 <= totalLawyersScraped st)%Z ->
  snd (requestHandler includeContactInfo 0 page url st) = [].
Proof.
  intros Htotal. unfold requestHandler.
  destruct (page_goto page); [reflexivity|].
  destruct (maxRetries <=? challengeLoop maxRetries page 0)%nat; [reflexivity|].
  destruct (runStrategies_sameRecords page (incrPagesProcessed st)) as (_ & _ & Hsame).
  destruct (runStrategies page (incrPagesProcessed st)) as [lawyers st1].
  cbn [snd incrPagesProcessed totalLawyersScraped] in Hsame.
  destruct (isEmpty lawyers); [reflexivity|].
  destruct (saveLawyers_effect includeContactInfo 0 page lawyers st1)
    as (batch & added & _ & _ & Hcount & _).
  destruct (paginate_effect 0 page (saveLawyers includeContactInfo 0 page lawyers st1))
    as (_ & _ & _ & Hrequests).
  destruct (snd (paginate 0 page (saveLawyers includeContactInfo 0 page lawyers st1)));
    [reflexivity|].
  destruct Hrequests as [Hlt _]; [discriminate|]. lia.
Qed.

Lemma uniqueFilter_fresh lawyersToSave :
  forall urls seen,
    map profileUrl lawyersToSave = map (@JsString number) urls ->
    NoDup urls -> ~ In "" urls ->
    (forall u, In u urls -> setHas seen (JsString u) = false) ->
    uniqueFilter seen lawyersToSave
    = (lawyersToSave, seen ++ map profileUrl lawyersToSave).
Proof.
  induction lawyersToSave as [|lawyer rest IH]; intros urls seen Hkeys Hnodup Hempty Hseen.
  - simpl. now rewrite app_nil_r.
  - destruct urls as [|u urls]; [discriminate|].
    cbn [map] in Hkeys. injection Hkeys as Hkey Hrest.
    inversion Hnodup as [|u' urls' Hnotin Hnodup']; subst.
    cbn [uniqueFilter]. rewrite Hkey.
    assert (Htruthy : truthy (@JsString number u) = true).
    { destruct u; [exfalso; apply Hempty; now left | reflexivity]. }
    rewrite Htruthy, (Hseen u) by (now left). cbn [negb].
    rewrite (IH urls (seen ++ [JsString u])); auto.
    + cbn [map]. rewrite Hkey, <- app_assoc. reflexivity.
    + intros Hin. apply Hempty. now right.
    + intros u' Hin. rewrite setHas_app, (Hseen u') by (now right).
      cbn. destruct (String.eqb_spec u' u) as [->|_]; [contradiction | reflexivity].
Qed.

Lemma crawl_empty_queue budget includeContactInfo maxLawyers web known st :
  crawl budget includeContactInfo maxLawyers web known [] st = st.
Proof. destruct budget; reflexivity. Qed.

Lemma paginate_budget_met maxLawyers page st :
  (0 < maxLawyers)%Z -> (maxLawyers <= totalLawyersScraped st)%Z ->
  paginate maxLawyers page st = (st, []).
Proof.
  intros Hpos Hmet. unfold paginate.
  destruct (Z.ltb_spec 0 maxLawyers); [|lia].
  destruct (Z.leb_spec maxLawyers (totalLawyersScraped st)); [reflexivity | lia].
Qed.

(** Saving eight records with eight distinct non-empty profile URLs into
    a fresh run, with a budget of five. *)
Lemma saveLawyers_first_five includeContactInfo page lawyers urls st :
  totalLawyersScraped st = 0%Z -> seenLawyerUrls st = [] -> sink st = [] ->
  map profileUrl lawyers = map JsString urls ->
  List.length urls = 8%nat -> NoDup urls -> ~ In "" urls ->
  List.length (sink (saveLawyers includeContactInfo 5 page lawyers st)) = 5%nat
  /\ map profileUrl (sink (saveLawyers includeContactInfo 5 page lawyers st))
     = map JsString (firstn 5 urls)
  /\ totalLawyersScraped (saveLawyers includeContactInfo 5 page lawyers st) = 5%Z.
Proof.
  intros Htotal Hseen Hsink Hkeys Hlen Hnodup Hempty.
  unfold saveLawyers. rewrite Htotal, Hseen.
  change (0 <? 5)%Z with true. cbv iota.
  change (Z.to_nat (Z.max 0 (5 - 0))) with 5%nat.
  rewrite slice_from_zero.
  assert (Hfirst : map profileUrl (firstn 5 lawyers) = map JsString (firstn 5 urls)).
  { rewrite <- !firstn_map. now f_equal. }
  rewrite (uniqueFilter_fresh _ (firstn 5 urls) []); auto.
  2: { rewrite <- (firstn_skipn 5 urls) in Hnodup.
       eapply NoDup_app_remove_r; eauto. }
  2: { intros Hin. apply Hempty. rewrite <- (firstn_skipn 5 urls).
       apply in_or_app. now left. }
  set (batch :=
         if negb (isEmpty (firstn 5 lawyers)) && includeContactInfo
         then fst (enrichLawyersWithProfiles (firstn 5 lawyers)
                     (page_cookies page) (page_userAgent page) 10)
         else firstn 5 lawyers).
  assert (Hbatch : map profileUrl batch = map JsString (firstn 5 urls)).
  { subst batch.
    destruct (negb (isEmpty (firstn 5 lawyers)) && includeContactInfo);
      [|exact Hfirst].
    rewrite enrichLawyersWithProfiles_keys by lia. exact Hfirst. }
  assert (Hfive : List.length batch = 5%nat).
  { rewrite <- (length_map profileUrl), Hbatch, length_map, length_firstn. lia. }
  assert (Hpushed : isEmpty batch = false)
    by (destruct batch; [discriminate | reflexivity]).
  rewrite Hpushed, Hfive. cbn [negb].
  match goal with
  | |- context [addTotalLawyersScraped ?n (emit ?e ?s)] =>
      assert (Hsaved : sink (addTotalLawyersScraped n (emit e s)) = batch)
  end.
  { etransitivity; [apply sink_emit|].
    change (sink (setSeenLawyerUrls ([] ++ map profileUrl (firstn 5 lawyers)) st))
      with (sink st).
    now rewrite Hsink. }
  rewrite Hsaved. cbn [addTotalLawyersScraped emit setSeenLawyerUrls totalLawyersScraped].
  rewrite Htotal. repeat split; auto.
Qed.

(** The handler on a first page whose eight records carry eight distinct
    non-empty profile URLs, with a budget of five. *)
Lemma first_page_of_eight includeContactInfo page url urls :
  page_goto page = None -> challengePassed page ->
  map profileUrl (pageLawyers page) = map JsString urls ->
  List.length urls = 8%nat -> NoDup urls -> ~ In "" urls ->
  snd (requestHandler includeContactInfo 5 page url initialState) = []
  /\ List.length
       (sink (fst (requestHandler includeContactInfo 5 page url initialState)))
     = 5%nat
  /\ map profileUrl
       (sink (fst (requestHandler includeContactInfo 5 page url initialState)))
     = map JsString (firstn 5 urls)
  /\ totalLawyersScraped
       (fst (requestHandler includeContactInfo 5 page url initialState)) = 5%Z.
Proof.
  intros Hgoto Hpassed Hkeys Hlen Hnodup Hempty.
  unfold requestHandler. rewrite Hgoto.
  destruct (Nat.leb_spec maxRetries (challengeLoop maxRetries page 0)) as [Hle|_];
    [unfold challengePassed in Hpassed; lia|].
  pose proof (runStrategies_lawyers page (incrPagesProcessed initialState)) as Hlawyers.
  destruct (runStrategies_sameRecords page (incrPagesProcessed initialState))
    as (Hsink & Hseen & Htotal).
  destruct (runStrategies page (incrPagesProcessed initialState)) as [lawyers st1].
  cbn [fst snd] in Hlawyers, Hsink, Hseen, Htotal.
  fold (pageLawyers page) in Hlawyers. subst lawyers.
  assert (Hsize : List.length (pageLawyers page) = 8%nat).
  { rewrite <- (length_map profileUrl), Hkeys, length_map. exact Hlen. }
  destruct (pageLawyers page) as [|first others] eqn:Hpage; [discriminate|].
  cbn [isEmpty]. rewrite <- Hpage in *. clear first others Hpage.
  destruct (saveLawyers_first_five includeContactInfo page (pageLawyers page) urls st1
              Htotal Hseen Hsink Hkeys Hlen Hnodup Hempty)
    as (Hfive & Hurls & Hcount).
  rewrite paginate_budget_met by lia. cbn [fst snd]. auto.
Qed.

(** C8.  A run with [maxLawyers = 5] whose first page yields eight
    records with eight distinct non-empty profile URLs: the handler adds
    no request, and the run completes having pushed exactly five records
    (those with the first five URLs) and handled exactly one page. *)
Theorem budget_of_five_emits_five_and_halts input web page urls :
  targetGiven input = true ->
  input_maxLawyers input = MaxLawyersInt 5 ->
  web (buildSearchUrl input) = page ->
  page_goto page = None -> challengePassed page ->
  map profileUrl (pageLawyers page) = map JsString urls ->
  List.length urls = 8%nat -> NoDup urls -> ~ In "" urls ->
  snd (requestHandler (input_includeContactInfo input) 5 page
         (buildSearchUrl input) initialState) = []
  /\ exists final,
       main input web = Completed final
       /\ List.length (sink final) = 5%nat
       /\ map profileUrl (sink final) = map JsString (firstn 5 urls)
       /\ totalLawyersScraped final = 5%Z
       /\ pagesProcessed final = 1%Z.
Proof.
  intros Hvalid Hmax Hweb Hgoto Hpassed Hkeys Hlen Hnodup Hempty.
  destruct (first_page_of_eight (input_includeContactInfo input) page
              (buildSearchUrl input) urls Hgoto Hpassed Hkeys Hlen Hnodup Hempty)
    as (Hnone & Hfive & Hurls & Htotal).
  pose proof (requestHandler_pages (input_includeContactInfo input) 5 page
                (buildSearchUrl input) initialState) as Hpages.
  split; [exact Hnone|].
  unfold main. unfold targetGiven in Hvalid. apply negb_true_iff in Hvalid.
  rewrite Hvalid, Hmax. cbn [resolveMaxLawyers].
  change ((5 <? 0)%Z || (5 >? 10000)%Z) with false. cbv iota.
  unfold maxRequestsPerCrawl. cbn [crawl]. rewrite Hweb.
  destruct (requestHandler (input_includeContactInfo input) 5 page
              (buildSearchUrl input) initialState) as [st requests].
  cbn [fst snd] in *. subst requests. cbn [enqueue].
  rewrite ?crawl_empty_queue.
  eexists. split; [reflexivity|].
  rewrite sink_emit, app_nil_r. cbn [emit totalLawyersScraped pagesProcessed].
  repeat split; auto.
Qed.

(** C9.  When [input.maxLawyers] is undefined or null the budget is 50:
    the run is the run of the same input with [maxLawyers = 50], and it
    pushes at most 50 records. *)
Theorem omitted_budget_defaults_to_fifty input web :
  input_maxLawyers input = MaxLawyersUndefined
  \/ input_maxLawyers input = MaxLawyersNull ->
  resolveMaxLawyers (input_maxLawyers input) = 50%Z
  /\ main input web = main (withMaxLawyers input (MaxLawyersInt 50)) web
  /\ forall final,
       main input web = Completed final ->
       (List.length (sink final) <= 50)%nat
       /\ (totalLawyersScraped final <= 50)%Z.
Proof.
  intros Homitted.
  assert (Hfifty : resolveMaxLawyers (input_maxLawyers input) = 50%Z)
    by (destruct Homitted as [-> | ->]; reflexivity).
  split; [exact Hfifty|]. split.
  - unfold main. rewrite Hfifty. reflexivity.
  - intros final Hmain.
    destruct (main_invariant _ _ _ Hmain) as (_ & _ & Hcount & Hbound).
    rewrite Hfifty in Hbound. lia.
Qed.

End Properties.

(** ** The properties at concrete inputs *)

Ltac distinct_strings :=
  repeat (constructor; [cbn; intuition discriminate|]); constructor.

(** C1 on a two-page run: the first two records pushed differ in their
    profile URL, and the records without link both reach the sink. *)
Lemma emitted_profile_urls_unique_witness :
  main (demoInput (MaxLawyersInt 10) false) demoWeb
  = Completed (finalState (main (demoInput (MaxLawyersInt 10) false) demoWeb))
  /\ map name (sink (finalState (main (demoInput (MaxLawyersInt 10) false) demoWeb)))
     = map JsString ["Ada Park"; "Bo Reyes"; "No Link One"; "Cy Dunn"; "No Link Two"]
  /\ profileUrl (demoLawyer "Bo Reyes" "https://www.avvo.com/attorneys/2" "")
     <> JsString "https://www.avvo.com/attorneys/1"
  /\ In (demoLawyer "No Link One" "" "")
        (fst (uniqueFilter [JsString ""; JsString "https://www.avvo.com/attorneys/1"]
                [ demoLawyer "Ada Park" "https://www.avvo.com/attorneys/1" "";
                  demoLawyer "No Link One" "" "" ])).
Proof.
  destruct (@emitted_profile_urls_unique Z _ _) as (Hunique & _ & _ & Hkeyless).
  split; [vm_compute; reflexivity|]. split; [vm_compute; reflexivity|]. split.
  - apply (Hunique (demoInput (MaxLawyersInt 10) false) demoWeb
             (finalState (main (demoInput (MaxLawyersInt 10) false) demoWeb))
             0%nat 1%nat
             (demoLawyer "Ada Park" "https://www.avvo.com/attorneys/1" "")).
    + vm_compute; reflexivity.
    + discriminate.
    + vm_compute; reflexivity.
    + vm_compute; reflexivity.
    + reflexivity.
    + discriminate.
  - apply Hkeyless; [right; left; reflexivity | reflexivity].
Defined.

(** C2 on a page that carries JSON-LD: only the first strategy runs. *)
Lemma strategies_short_circuit_witness :
  strategyResult demoStructured JsonLD <> []
  /\ page_goto demoStructured = None
  /\ challengePassed demoStructured
  /\ attempted demoStructured strategyOrder = [JsonLD]
  /\ strategiesInvoked
       (trace (fst (requestHandler false 10 demoStructured "u" initialState)))
     = [JsonLD]
  /\ extractionMethod (fst (requestHandler false 10 demoStructured "u" initialState))
     = "JSON-LD".
Proof.
  destruct (strategies_short_circuit demoStructured initialState)
    as (_ & _ & _ & Hfirst & _ & _ & Hhandler).
  assert (Hfound : strategyResult demoStructured JsonLD <> [])
    by (vm_compute; discriminate).
  assert (Hpassed : challengePassed demoStructured)
    by (unfold challengePassed; vm_compute; repeat constructor).
  destruct (Hfirst Hfound) as [Hattempted Hwinner].
  destruct (Hhandler false 10%Z "u" eq_refl Hpassed) as [Hinvoked Hmethod].
  split; [exact Hfound|]. split; [reflexivity|]. split; [exact Hpassed|].
  split; [exact Hattempted|]. split.
  - rewrite Hinvoked, Hattempted. reflexivity.
  - rewrite Hmethod, Hwinner. reflexivity.
Defined.

(** C3 at [maxLawyers = 0]: a page with eight new records and a valid
    next link.  All eight are pushed, so the budget is treated as
    unbounded by the slice and by the limit check, yet no request is
    added; with [maxLawyers = 10] the same page adds the request. *)
Theorem zero_budget_requests_no_next_page :
  List.length
    (sink (fst (requestHandler false 0 (demoListing demoEight true demoSecondUrl)
                  "https://www.avvo.com/bankruptcy-debt-lawyer/al.html" initialState)))
  = 8%nat
  /\ snd (requestHandler false 0 (demoListing demoEight true demoSecondUrl)
            "https://www.avvo.com/bankruptcy-debt-lawyer/al.html" initialState)
     = []
  /\ snd (requestHandler false 10 (demoListing demoEight true demoSecondUrl)
            "https://www.avvo.com/bankruptcy-debt-lawyer/al.html" initialState)
     = [demoSecondUrl].
Proof. vm_compute. repeat split. Qed.

(** C4 as stated fails: a record with the bio "Existing bio" whose
    detail page answers 200 without challenge comes back with the
    fetched bio. *)
Lemma existing_bio_not_preferred :
  ~ (forall (lawyer : @Lawyer Z) cookieString userAgent blockedCount body,
        truthy (profileUrl lawyer) = true ->
        gotScraping (profileUrl lawyer) cookieString (sentUserAgent userAgent)
        = Responded 200 body ->
        isChallengeTitle (cheerio_text body "title") = false ->
        truthy (bio lawyer) = true ->
        bio (fst (enrichLawyer cookieString userAgent blockedCount lawyer))
        = bio lawyer).
Proof.
  intros Hclaim.
  assert (Hbio : bio (fst (enrichLawyer "" "" 0%Z
                     (demoLawyer "Ada Park" "https://www.avvo.com/attorneys/1"
                                 "Existing bio")))
                 = bio (demoLawyer "Ada Park" "https://www.avvo.com/attorneys/1"
                                   "Existing bio")).
  { apply (Hclaim _ "" "" 0%Z "Trial lawyer with twenty years of practice.");
      vm_compute; reflexivity. }
  vm_compute in Hbio. discriminate Hbio.
Qed.

(** C4 as the code has it, on the same record. *)
Lemma enrichment_prefers_fetched_bio_witness :
  truthy (profileUrl (demoLawyer "Ada Park" "https://www.avvo.com/attorneys/1"
                                 "Existing bio")) = true
  /\ gotScraping (JsString "https://www.avvo.com/attorneys/1") "" (sentUserAgent "")
     = Responded 200 "Trial lawyer with twenty years of practice."
  /\ isChallengeTitle
       (cheerio_text "Trial lawyer with twenty years of practice." "title") = false
  /\ bio (fst (enrichLawyer "" "" 0%Z
                 (demoLawyer "Ada Park" "https://www.avvo.com/attorneys/1"
                             "Existing bio")))
     = JsString "Trial lawyer with twenty years of practice."
  /\ education (fst (enrichLawyer "" "" 0%Z
                       (demoLawyer "Ada Park" "https://www.avvo.com/attorneys/1"
                                   "Existing bio")))
     = Some (JsArray [JsString "Yale Law School"]).
Proof.
  assert (Hfetch : gotScraping (JsString "https://www.avvo.com/attorneys/1") ""
                               (sentUserAgent "")
                   = Responded 200 "Trial lawyer with twenty years of practice.")
    by (vm_compute; reflexivity).
  assert (Htitle : isChallengeTitle
                     (cheerio_text "Trial lawyer with twenty years of practice."
                                   "title") = false)
    by (vm_compute; reflexivity).
  destruct (enrichment_prefers_fetched_bio "" "" 0%Z
              (demoLawyer "Ada Park" "https://www.avvo.com/attorneys/1" "Existing bio")
              "Trial lawyer with twenty years of practice."
              eq_refl Hfetch Htitle) as (Hbio & Heducation & _).
  split; [reflexivity|]. split; [exact Hfetch|]. split; [exact Htitle|].
  split; [exact Hbio | exact Heducation].
Defined.

(** C5 on the Springfield entry and on an entry with a plain address. *)
Lemma parseAttorneySchema_location_rule_witness :
  js_get (JsObject [("address", @JsString Z "12 Main St, Springfield")]) "address"
  = JsString "12 Main St, Springfield"
  /\ location (parseAttorneySchema "2024-01-01T00:00:00.000Z"
                 (JsObject [("address", @JsString Z "12 Main St, Springfield")]))
     = JsString "12 Main St, Springfield"
  /\ AddressPart (@JsString Z "Springfield") (Some "Springfield")
  /\ AddressPart (@JsString Z "") (Some "")
  /\ AddressPart (@JsUndefined Z) None
  /\ location (parseAttorneySchema "2024-01-01T00:00:00.000Z"
                 (demoAttorney "Ada Park" "https://www.avvo.com/attorneys/1"))
     = JsString "Springfield, IL"
  /\ location (parseAttorneySchema "2024-01-01T00:00:00.000Z"
                 (JsObject [("address",
                             JsObject [("addressLocality", @JsString Z "Springfield")])]))
     = JsString "Springfield".
Proof.
  split; [reflexivity|]. split.
  { apply (parseAttorneySchema_location_rule "2024-01-01T00:00:00.000Z"
             (JsObject [("address", @JsString Z "12 Main St, Springfield")])).
    reflexivity. }
  split; [constructor|]. split; [constructor|]. split; [constructor|]. split.
  - destruct (parseAttorneySchema_location_rule "2024-01-01T00:00:00.000Z"
                (demoAttorney "Ada Park" "https://www.avvo.com/attorneys/1"))
      as (_ & Hstructured & _).
    apply (Hstructured _ (Some "Springfield") (Some "IL") (Some "") eq_refl);
      constructor.
  - destruct (parseAttorneySchema_location_rule "2024-01-01T00:00:00.000Z"
                (JsObject [("address",
                            JsObject [("addressLocality", @JsString Z "Springfield")])]))
      as (_ & Hstructured & _).
    apply (Hstructured _ (Some "Springfield") None None eq_refl); constructor.
Defined.

(** C6 on a record whose detail page answers 403, alone and in a pass
    over three records of which two are blocked. *)
Lemma blocked_profile_leaves_record_witness :
  truthy (profileUrl (demoLawyer "Ada Park" "https://www.avvo.com/forbidden/1"
                                 "Existing bio")) = true
  /\ blockedResponse
       (gotScraping (JsString "https://www.avvo.com/forbidden/1")
                    (makeCookieString [("cf_clearance", "abc")]) (sentUserAgent ""))
  /\ enrichLawyer (makeCookieString [("cf_clearance", "abc")]) "" 7%Z
       (demoLawyer "Ada Park" "https://www.avvo.com/forbidden/1" "Existing bio")
     = (demoLawyer "Ada Park" "https://www.avvo.com/forbidden/1" "Existing bio", 8%Z)
  /\ snd (enrichLawyersWithProfiles
            [ demoLawyer "Bo Reyes" "https://www.avvo.com/attorneys/2" "";
              demoLawyer "Ada Park" "https://www.avvo.com/forbidden/1" "Existing bio";
              demoLawyer "Cy Dunn" "https://www.avvo.com/challenge/3" "" ]
            [("cf_clearance", "abc")] "" 10)
     = 2%Z.
Proof.
  assert (Hblocked : blockedResponse
            (gotScraping (JsString "https://www.avvo.com/forbidden/1")
                         (makeCookieString [("cf_clearance", "abc")])
                         (sentUserAgent "")))
    by (left; reflexivity).
  destruct (blocked_profile_leaves_record
              (makeCookieString [("cf_clearance", "abc")]) "" 7%Z
              (demoLawyer "Ada Park" "https://www.avvo.com/forbidden/1" "Existing bio")
              eq_refl Hblocked) as [Hone Hpass].
  destruct (Hpass
              [ demoLawyer "Bo Reyes" "https://www.avvo.com/attorneys/2" "";
                demoLawyer "Ada Park" "https://www.avvo.com/forbidden/1" "Existing bio";
                demoLawyer "Cy Dunn" "https://www.avvo.com/challenge/3" "" ]
              [("cf_clearance", "abc")] 1%nat eq_refl eq_refl)
    as (_ & Hcount & _).
  split; [reflexivity|]. split; [exact Hblocked|]. split; [exact Hone|].
  rewrite Hcount. vm_compute. reflexivity.
Defined.

(** C7 on a page that shows the challenge in every round. *)
Lemma unresolved_challenge_abandons_page_witness :
  page_goto demoChallenged = None
  /\ (forall round, (round < maxRetries)%nat ->
        challengeDetected (page_title demoChallenged round)
                          (page_bodyText demoChallenged round) = true)
  /\ snd (requestHandler true 10 demoChallenged "u" initialState) = []
  /\ sink (fst (requestHandler true 10 demoChallenged "u" initialState)) = []
  /\ trace (fst (requestHandler true 10 demoChallenged "u" initialState))
     = [ StructureLogged 0 0 0 "<html>Just a moment...</html>" true;
         ValueSet "DEBUG_PAGE_HTML" "<html>Just a moment...</html>" ].
Proof.
  assert (Hdetected : forall round, (round < maxRetries)%nat ->
            challengeDetected (page_title demoChallenged round)
                              (page_bodyText demoChallenged round) = true)
    by (intros round _; reflexivity).
  destruct (unresolved_challenge_abandons_page true 10%Z demoChallenged "u"
              initialState eq_refl Hdetected)
    as (Hnone & Hsink & _ & _ & Hsnapshot & _).
  split; [reflexivity|]. split; [exact Hdetected|]. split; [exact Hnone|].
  split; [exact Hsink|].
  exact (Hsnapshot "<html>Just a moment...</html>" eq_refl).
Defined.

(** C8 on a first page of eight cards, with enrichment on. *)
Lemma budget_of_five_emits_five_and_halts_witness :
  targetGiven (demoInput (MaxLawyersInt 5) true) = true
  /\ page_goto (demoListing demoEight true demoSecondUrl) = None
  /\ challengePassed (demoListing demoEight true demoSecondUrl)
  /\ map profileUrl (pageLawyers (demoListing demoEight true demoSecondUrl))
     = map JsString demoUrls
  /\ List.length demoUrls = 8%nat
  /\ NoDup demoUrls
  /\ ~ In "" demoUrls
  /\ exists final,
       main (demoInput (MaxLawyersInt 5) true)
            (fun _ => demoListing demoEight true demoSecondUrl)
       = Completed final
       /\ List.length (sink final) = 5%nat
       /\ pagesProcessed final = 1%Z.
Proof.
  assert (Hpassed : challengePassed (demoListing demoEight true demoSecondUrl))
    by (unfold challengePassed; vm_compute; repeat constructor).
  assert (Hnodup : NoDup demoUrls) by (unfold demoUrls; distinct_strings).
  assert (Hempty : ~ In "" demoUrls) by (cbn; intuition discriminate).
  destruct (budget_of_five_emits_five_and_halts (HOST:=demoHost)
              (demoInput (MaxLawyersInt 5) true)
              (fun _ => demoListing demoEight true demoSecondUrl)
              (demoListing demoEight true demoSecondUrl) demoUrls
              eq_refl eq_refl eq_refl eq_refl Hpassed eq_refl eq_refl Hnodup Hempty)
    as (_ & final & Hmain & Hfive & _ & _ & Hpages).
  split; [reflexivity|]. split; [reflexivity|]. split; [exact Hpassed|].
  split; [reflexivity|]. split; [reflexivity|]. split; [exact Hnodup|].
  split; [exact Hempty|].
  exists final. split; [exact Hmain|]. split; [exact Hfive | exact Hpages].
Defined.

(** C9 on a page of sixty cards: with [maxLawyers] undefined the run
    pushes fifty of them. *)
Lemma omitted_budget_defaults_to_fifty_witness :
  input_maxLawyers (demoInput MaxLawyersUndefined false) = MaxLawyersUndefined
  /\ main (demoInput MaxLawyersUndefined false)
          (fun _ => demoListing demoSixty true demoSecondUrl)
     = main (demoInput (MaxLawyersInt 50) false)
            (fun _ => demoListing demoSixty true demoSecondUrl)
  /\ List.length
       (sink (finalState
                (main (demoInput MaxLawyersUndefined false)
                      (fun _ => demoListing demoSixty true demoSecondUrl))))
     = 50%nat.
Proof.
  destruct (omitted_budget_defaults_to_fifty
              (demoInput MaxLawyersUndefined false)
              (fun _ => demoListing demoSixty true demoSecondUrl)
              (or_introl eq_refl)) as (_ & Hsame & _).
  split; [reflexivity|]. split; [exact Hsame|].
  vm_compute. reflexivity.
Defined.

(** C10 on the first record extracted from the JSON-LD demo page. *)
Lemma jsonld_records_fixed_fields_witness :
  In (parseAttorneySchema "2024-01-01T00:00:00.000Z"
        (demoAttorney "Ada Park" "https://www.avvo.com/attorneys/1"))
     (extractLawyersViaJsonLD (page_clock demoStructured)
        (page_jsonLdScripts demoStructured))
  /\ yearsLicensed
       (parseAttorneySchema "2024-01-01T00:00:00.000Z"
          (demoAttorney "Ada Park" "https://www.avvo.com/attorneys/1")) = JsNull
  /\ website
       (parseAttorneySchema "2024-01-01T00:00:00.000Z"
          (demoAttorney "Ada Park" "https://www.avvo.com/attorneys/1"))
     = profileUrl
         (parseAttorneySchema "2024-01-01T00:00:00.000Z"
            (demoAttorney "Ada Park" "https://www.avvo.com/attorneys/1")).
Proof.
  assert (Hin : In (parseAttorneySchema "2024-01-01T00:00:00.000Z"
                      (demoAttorney "Ada Park" "https://www.avvo.com/attorneys/1"))
                   (extractLawyersViaJsonLD (page_clock demoStructured)
                      (page_jsonLdScripts demoStructured)))
    by (left; reflexivity).
  destruct (jsonld_records_fixed_fields _ _ _ Hin) as (Hyears & _ & _ & Hsite & _).
  split; [exact Hin|]. split; [exact Hyears | exact Hsite].
Defined.

(** ** Further properties of the run *)

Lemma string_is_empty_false (s : string) : string_is_empty s = false <-> s <> "".
Proof. destruct s; cbn; split; congruence. Qed.

Section RunProperties.

Context {number : Type} {NUM : NumberOps number} {HOST : @Host number}.

Implicit Types (lawyer r : @Lawyer number) (st : @RunState number)
  (page : @Page number).

(** *** Validation, budget and summary *)


Lemma crawl_last_page includeContactInfo maxLawyers web budget known url st :
  snd (requestHandler includeContactInfo maxLawyers (web url) url st) = [] ->
  crawl (S budget) includeContactInfo maxLawyers web known [url] st
  = fst (requestHandler includeContactInfo maxLawyers (web url) url st).
Proof.
  intros Hnone. cbn [crawl].
  destruct (requestHandler includeContactInfo maxLawyers (web url) url st)
    as [st' requests].
  cbn [fst snd] in *. subst requests. cbn [enqueue].
  apply crawl_empty_queue.
Qed.

Lemma main_final input web final :
  main input web = Completed final ->
  exists st,
    st = crawl maxRequestsPerCrawl (input_includeContactInfo input)
           (resolveMaxLawyers (input_maxLawyers input)) web
           [buildSearchUrl input] [buildSearchUrl input] initialState
    /\ final = emit (StatisticsSet (totalLawyersScraped st) (pagesProcessed st)
                                   (extractionMethod st)) st.
Proof.
  unfold main.
  destruct (blank (input_startUrl input)
            && (blank (input_practiceArea input) || blank (input_state input)));
    [discriminate|].
  destruct ((resolveMaxLawyers (input_maxLawyers input) <? 0)%Z
            || (resolveMaxLawyers (input_maxLawyers input) >? 10000)%Z);
    [discriminate|].
  intros [= <-]. eexists. split; reflexivity.
Qed.

(** X2.  In a completed run the count of records kept in the run state
    is the number of records pushed to the sink, a positive budget is
    never exceeded, and the last effect of the run is the statistics
    write, carrying that count, the page count and the extraction
    method. *)
Theorem run_summary_matches_sink input web final :
  main input web = Completed final ->
  totalLawyersScraped final = Z.of_nat (List.length (sink final))
  /\ ((0 < resolveMaxLawyers (input_maxLawyers input))%Z ->
      (Z.of_nat (List.length (sink final))
       <= resolveMaxLawyers (input_maxLawyers input))%Z)
  /\ exists events,
       trace final
       = events ++ [StatisticsSet (Z.of_nat (List.length (sink final)))
                                  (pagesProcessed final)
                                  (extractionMethod final)].
Proof.
  intros Hmain.
  destruct (main_invariant _ _ _ Hmain) as (_ & _ & Hcount & Hbound).
  split; [exact Hcount|]. split; [intros Hpos; specialize (Hbound Hpos); lia|].
  destruct (main_final _ _ _ Hmain) as (st & _ & Hfinal).
  exists (trace st). rewrite <- Hcount. subst final. reflexivity.
Qed.

(** X3.  With a budget of zero a completed run handles exactly one page:
    the records of the first page are pushed without limit, and no
    further page is ever requested. *)
Theorem zero_budget_run_is_one_page input web final :
  resolveMaxLawyers (input_maxLawyers input) = 0%Z ->
  main input web = Completed final ->
  pagesProcessed final = 1%Z
  /\ snd (requestHandler (input_includeContactInfo input) 0
            (web (buildSearchUrl input)) (buildSearchUrl input) initialState) = [].
Proof.
  intros Hzero Hmain. destruct (main_final _ _ _ Hmain) as (st & Hst & ->).
  cbn [emit pagesProcessed]. subst st. rewrite Hzero.
  assert (Hnone : snd (requestHandler (input_includeContactInfo input) 0
                         (web (buildSearchUrl input)) (buildSearchUrl input)
                         initialState) = [])
    by (apply zero_budget_never_paginates; cbn; lia).
  split; [|exact Hnone].
  unfold maxRequestsPerCrawl.
  rewrite (crawl_last_page _ _ _ _ _ _ _ Hnone), requestHandler_pages.
  reflexivity.
Qed.

(** *** Pages that end the crawl, and the request for the next page *)

Lemma winner_none_attempted page :
  pageLawyers page = [] ->
  attempted page strategyOrder = strategyOrder.
Proof.
  unfold pageLawyers, winner, strategyOrder. cbn [find attempted].
  destruct (strategyResult page JsonLD) eqn:HJ; cbn [isEmpty negb];
    [|rewrite HJ; discriminate].
  destruct (strategyResult page InternalAPI) eqn:HA; cbn [isEmpty negb];
    [|rewrite HA; discriminate].
  destruct (strategyResult page HtmlParsing) eqn:HH; cbn [isEmpty negb];
    [reflexivity | rewrite HH; discriminate].
Qed.

(** X4.  A page that gets past navigation and challenge but yields no
    record from any strategy ends the crawl on its branch: all three
    strategies are tried, the diagnostic snapshot is taken, nothing is
    pushed and no next page is requested, whatever its next link says. *)
Theorem empty_page_ends_pagination includeContactInfo maxLawyers page url st :
  page_goto page = None -> challengePassed page -> pageLawyers page = [] ->
  snd (requestHandler includeContactInfo maxLawyers page url st) = []
  /\ sink (fst (requestHandler includeContactInfo maxLawyers page url st)) = sink st
  /\ trace (fst (requestHandler includeContactInfo maxLawyers page url st))
     = trace st
       ++ [StrategyInvoked JsonLD; StrategyInvoked InternalAPI;
           StrategyInvoked HtmlParsing]
       ++ snapshotEvents page.
Proof.
  intros Hgoto Hpassed Hempty. unfold requestHandler. rewrite Hgoto.
  destruct (Nat.leb_spec maxRetries (challengeLoop maxRetries page 0)) as [Hle|_];
    [unfold challengePassed in Hpassed; lia|].
  pose proof (runStrategies_lawyers page (incrPagesProcessed st)) as Hlawyers.
  pose proof (runStrategies_trace page (incrPagesProcessed st)) as Htrace.
  destruct (runStrategies_sameRecords page (incrPagesProcessed st)) as (Hsink & _).
  destruct (runStrategies page (incrPagesProcessed st)) as [lawyers st1].
  cbn [fst snd] in Hlawyers, Htrace, Hsink.
  fold (pageLawyers page) in Hlawyers. rewrite Hempty in Hlawyers. subst lawyers.
  cbn [isEmpty fst snd].
  destruct (saveDebugInfo_sameRecords page st1) as (Hsaved & _).
  split; [reflexivity|]. split; [now rewrite Hsaved, Hsink|].
  rewrite saveDebugInfo_trace, Htrace, (winner_none_attempted _ Hempty).
  cbn [incrPagesProcessed trace strategyOrder map]. now rewrite <- app_assoc.
Qed.

Lemma paginate_request maxLawyers page st next :
  In next (snd (paginate maxLawyers page st)) ->
  snd (paginate maxLawyers page st) = [next]
  /\ next = page_nextPageUrl page
  /\ page_hasNextPage page = true
  /\ startsWith "http" next = true
  /\ (totalLawyersScraped st < maxLawyers)%Z.
Proof.
  unfold paginate.
  destruct ((0 <? maxLawyers)%Z && (maxLawyers <=? totalLawyersScraped st)%Z);
    [intros []|].
  destruct (page_hasNextPage page); cbn [andb]; [|intros []].
  destruct (Z.ltb_spec (totalLawyersScraped st) maxLawyers) as [Hlt|_];
    [|intros []].
  destruct (negb (string_is_empty (page_nextPageUrl page))) ; cbn [andb];
    [|intros []].
  destruct (startsWith "http" (page_nextPageUrl page)) eqn:Hhttp; [|intros []].
  cbn [snd]. intros [<-|[]]. repeat split; auto.
Qed.

(** X5.  Whatever the handler passes to [crawler.addRequests] is a
    single request for the page's next link: the page was loaded, it
    yielded at least one record, its next control is present and not
    disabled, the link starts with http, and the record count is still
    below the budget. *)
Theorem next_page_request_shape includeContactInfo maxLawyers page url st next :
  In next (snd (requestHandler includeContactInfo maxLawyers page url st)) ->
  snd (requestHandler includeContactInfo maxLawyers page url st) = [next]
  /\ next = page_nextPageUrl page
  /\ page_goto page = None
  /\ challengePassed page
  /\ pageLawyers page <> []
  /\ page_hasNextPage page = true
  /\ startsWith "http" next = true
  /\ (totalLawyersScraped
        (fst (requestHandler includeContactInfo maxLawyers page url st))
      < maxLawyers)%Z.
Proof.
  unfold requestHandler, challengePassed.
  destruct (page_goto page); [intros []|].
  destruct (Nat.leb_spec maxRetries (challengeLoop maxRetries page 0)) as [_|Hlt];
    [intros []|].
  pose proof (runStrategies_lawyers page (incrPagesProcessed st)) as Hlawyers.
  destruct (runStrategies page (incrPagesProcessed st)) as [lawyers st1].
  cbn [fst] in Hlawyers. fold (pageLawyers page) in Hlawyers. rewrite <- Hlawyers.
  destruct lawyers as [|first others]; cbn [isEmpty]; [intros []|].
  intros Hin.
  destruct (paginate_request _ _ _ _ Hin) as (Hone & Hnext & Hhas & Hhttp & Hbelow).
  destruct (paginate_effect maxLawyers page
              (saveLawyers includeContactInfo maxLawyers page (first :: others) st1))
    as (_ & (_ & _ & Htotal) & _).
  rewrite Htotal. repeat split; auto. discriminate.
Qed.

(** *** The challenge gate *)

(** X6.  A page gets past the challenge gate exactly when the challenge
    is absent in one of the rounds 0, 1, 2; what the page shows from
    round 3 on is never read. *)
Theorem challenge_gate_rounds page :
  challengePassed page
  <-> exists round, (round < maxRetries)%nat /\ detectedIn page round = false.
Proof.
  unfold challengePassed, detectedIn, maxRetries.
  cbn -[challengeDetected Nat.lt]. unfold maxRetries. cbv iota.
  destruct (challengeDetected (page_title page 0) (page_bodyText page 0)) eqn:H0.
  2: { split; [intros _; exists 0%nat; split; [lia | exact H0] | intros _; lia]. }
  destruct (challengeDetected (page_title page 1) (page_bodyText page 1)) eqn:H1.
  2: { split; [intros _; exists 1%nat; split; [lia | exact H1] | intros _; lia]. }
  destruct (challengeDetected (page_title page 2) (page_bodyText page 2)) eqn:H2.
  2: { split; [intros _; exists 2%nat; split; [lia | exact H2] | intros _; lia]. }
  split; [lia|].
  intros (round & Hround & Hclear).
  destruct round as [|[|[|round]]]; [congruence | congruence | congruence | lia].
Qed.

End RunProperties.

(** ** Further properties of the stages *)

Section StageProperties.

Context {number : Type} {NUM : NumberOps number} {HOST : @Host number}.

Implicit Types (lawyer r : @Lawyer number) (v k : JsValue number).

(** *** Enrichment *)

(** X8.  The result of an enrichment pass, and its count of blocked
    records, do not depend on the batch size; the pass returns one
    record per input record. *)
Theorem enrichment_ignores_batch_size lawyers cookies userAgent size1 size2 :
  (0 < size1)%nat -> (0 < size2)%nat ->
  enrichLawyersWithProfiles lawyers cookies userAgent size1
  = enrichLawyersWithProfiles lawyers cookies userAgent size2
  /\ List.length (fst (enrichLawyersWithProfiles lawyers cookies userAgent size1))
     = List.length lawyers.
Proof.
  intros H1 H2. rewrite !enrichLawyersWithProfiles_map by assumption.
  split; [reflexivity|]. cbn [fst]. apply length_map.
Qed.

Lemma enrichLawyer_sameListingFields cookieString userAgent blockedCount lawyer :
  sameListingFields lawyer
    (fst (enrichLawyer cookieString userAgent blockedCount lawyer)).
Proof.
  unfold enrichLawyer, sameListingFields.
  destruct (truthy (profileUrl lawyer)); cbn [negb fst]; [|repeat split].
  destruct (fetchLawyerProfile _ _ _); cbn [fst withProfile]; repeat split.
Qed.

(** X9.  Enrichment never touches what the listing page supplied: the
    enriched record has the same name, rating, review count, practice
    areas, location, phone, email, website, years licensed, bar
    admissions, languages, profile URL and timestamp, for one record and
    for every position of a pass; a record without profile URL comes
    back as it is and its counter is left alone. *)
Theorem enrichment_keeps_listing_fields cookieString userAgent blockedCount lawyer :
  sameListingFields lawyer
    (fst (enrichLawyer cookieString userAgent blockedCount lawyer))
  /\ (truthy (profileUrl lawyer) = false ->
      enrichLawyer cookieString userAgent blockedCount lawyer
      = (lawyer, blockedCount))
  /\ forall lawyers cookies,
       Forall2 sameListingFields lawyers
         (fst (enrichLawyersWithProfiles lawyers cookies userAgent 10)).
Proof.
  split; [apply enrichLawyer_sameListingFields|]. split.
  - intros Hkey. unfold enrichLawyer. now rewrite Hkey.
  - intros lawyers cookies. rewrite enrichLawyersWithProfiles_map by lia.
    cbn [fst]. induction lawyers as [|first others IH]; constructor; [|exact IH].
    apply enrichLawyer_sameListingFields.
Qed.

(** X10.  A detail page that answers with a status other than 200, 403
    and 503, or whose fetch is rejected with a message that is missing
    or mentions neither 403 nor 503, leaves the record exactly as it was
    and does not count as blocked. *)
Theorem failed_fetch_leaves_record cookieString userAgent blockedCount lawyer :
  truthy (profileUrl lawyer) = true ->
  softFailure
    (gotScraping (profileUrl lawyer) cookieString (sentUserAgent userAgent)) ->
  enrichLawyer cookieString userAgent blockedCount lawyer = (lawyer, blockedCount).
Proof.
  intros Hkey Hsoft. unfold enrichLawyer, fetchLawyerProfile. rewrite Hkey.
  cbn [negb]. unfold softFailure, sentUserAgent in Hsoft.
  destruct (gotScraping _ _ _) as [statusCode body|[message|]]; [| |reflexivity].
  - destruct Hsoft as (H200 & H403 & H503).
    destruct (Z.eqb_spec statusCode 403); [contradiction|].
    destruct (Z.eqb_spec statusCode 503); [contradiction|].
    destruct (Z.eqb_spec statusCode 200); [contradiction|]. reflexivity.
  - destruct Hsoft as [-> ->]. now rewrite andb_false_r.
Qed.

(** X11.  A fetch that is rejected with a message mentioning 403 or 503
    is treated like a blocked response: the record is unchanged and the
    blocked counter goes up by one. *)
Theorem blocked_rejection_counts cookieString userAgent blockedCount lawyer :
  truthy (profileUrl lawyer) = true ->
  blockedRejection
    (gotScraping (profileUrl lawyer) cookieString (sentUserAgent userAgent)) ->
  enrichLawyer cookieString userAgent blockedCount lawyer
  = (lawyer, (blockedCount + 1)%Z).
Proof.
  intros Hkey Hblocked. unfold enrichLawyer, fetchLawyerProfile. rewrite Hkey.
  cbn [negb]. unfold blockedRejection, sentUserAgent in Hblocked.
  destruct (gotScraping _ _ _) as [statusCode body|[message|]]; try contradiction.
  assert (Hmessage : string_is_empty message = false).
  { destruct message; [|reflexivity]. destruct Hblocked; discriminate. }
  rewrite Hmessage. cbn [negb andb].
  destruct Hblocked as [-> | ->]; [reflexivity | now rewrite orb_true_r].
Qed.

(** *** De-duplication *)

Lemma setHas_grows seen lawyersToSave k :
  setHas seen k = true ->
  setHas (snd (uniqueFilter seen lawyersToSave)) k = true.
Proof.
  intros Hhas.
  destruct (uniqueFilter_effect lawyersToSave seen) as (added & -> & _).
  rewrite setHas_app, Hhas. reflexivity.
Qed.

Lemma uniqueFilter_records_keys lawyersToSave :
  forall seen r u,
    In r lawyersToSave -> profileUrl r = JsString u -> u <> "" ->
    setHas (snd (uniqueFilter seen lawyersToSave)) (JsString u) = true.
Proof.
  induction lawyersToSave as [|lawyer rest IH]; intros seen r u Hin Hkey Hu;
    [destruct Hin|].
  assert (Htruthy : truthy (@JsString number u) = true)
    by (destruct u; [congruence | reflexivity]).
  cbn [uniqueFilter]. destruct Hin as [->|Hin].
  - rewrite Hkey, Htruthy. cbn [negb].
    destruct (setHas seen (JsString u)) eqn:Hhas.
    + now apply setHas_grows.
    + pose proof (setHas_grows (seen ++ [JsString u]) rest (JsString u)) as Hgrow.
      destruct (uniqueFilter (seen ++ [JsString u]) rest) as [kept seen'].
      cbn [snd] in *. apply Hgrow. rewrite setHas_app. cbn.
      rewrite String.eqb_refl. now rewrite orb_true_r.
  - destruct (truthy (profileUrl lawyer)); cbn [negb].
    + destruct (setHas seen (profileUrl lawyer)); [eauto|].
      specialize (IH (seen ++ [profileUrl lawyer]) r u Hin Hkey Hu).
      destruct (uniqueFilter (seen ++ [profileUrl lawyer]) rest). exact IH.
    + specialize (IH seen r u Hin Hkey Hu).
      destruct (uniqueFilter seen rest). exact IH.
Qed.

Lemma uniqueFilter_all_seen lawyersToSave seen :
  (forall r, In r lawyersToSave -> truthy (profileUrl r) = true ->
             setHas seen (profileUrl r) = true) ->
  uniqueFilter seen lawyersToSave = (filter keyless lawyersToSave, seen).
Proof.
  induction lawyersToSave as [|lawyer rest IH]; intros Hseen; [reflexivity|].
  cbn [uniqueFilter filter]. unfold keyless at 1.
  rewrite IH by (intros r Hin; apply Hseen; now right).
  destruct (truthy (profileUrl lawyer)) eqn:Hkey; cbn [negb]; [|reflexivity].
  rewrite (Hseen lawyer) by (now left || exact Hkey). reflexivity.
Qed.

(** X12.  Running the filter a second time over the same records, whose
    profile URLs are strings, admits none of those that have a profile
    URL: only the records without one come through again, and the set
    is left as it was. *)
Theorem uniqueFilter_second_pass seen lawyersToSave :
  Forall stringKeyed lawyersToSave ->
  uniqueFilter (snd (uniqueFilter seen lawyersToSave)) lawyersToSave
  = (filter keyless lawyersToSave, snd (uniqueFilter seen lawyersToSave)).
Proof.
  intros Hstrings. apply uniqueFilter_all_seen.
  intros r Hin Htruthy. rewrite Forall_forall in Hstrings.
  destruct (Hstrings r Hin) as [u Hkey]. rewrite Hkey.
  apply (uniqueFilter_records_keys lawyersToSave seen r u Hin Hkey).
  intros ->. rewrite Hkey in Htruthy. discriminate.
Qed.

(** *** Structured metadata *)

(** X13.  A JSON-LD block that cannot be parsed, or that parses to null
    or to a primitive, yields nothing and leaves the records of the
    blocks before and after it as they are. *)
Theorem barren_block_is_skipped now before after parsed :
  barrenBlock parsed ->
  extractLawyersViaJsonLD now (Some (before ++ parsed :: after))
  = extractLawyersViaJsonLD now (Some before)
    ++ extractLawyersViaJsonLD now (Some after).
Proof.
  intros Hbarren. unfold extractLawyersViaJsonLD.
  rewrite flat_map_app. f_equal. cbn [flat_map].
  destruct parsed as [[| |b|n|s|elements|properties]|]; cbn in Hbarren;
    try contradiction; reflexivity.
Qed.

Lemma collectAttorneys_null now before after :
  collectAttorneys now (before ++ JsNull :: after) = collectAttorneys now before.
Proof.
  induction before as [|item rest IH]; [reflexivity|].
  cbn [app collectAttorneys]. destruct (is_nullish item); [reflexivity|].
  now rewrite IH.
Qed.

(** X14.  Inside one block, a null entry ends the reading of the list:
    the entries after it are lost, in a top-level array as in an
    [@graph] array, while the records before it are kept. *)
Theorem null_entry_cuts_block now before after :
  extractFromJsonLD now (JsArray (before ++ JsNull :: after))
  = extractFromJsonLD now (JsArray before)
  /\ forall properties,
       hasAttorneyType (JsObject properties) = false ->
       lookup_property "@graph" properties = JsArray (before ++ JsNull :: after) ->
       extractFromJsonLD now (JsObject properties) = collectAttorneys now before.
Proof.
  split; [apply collectAttorneys_null|].
  intros properties Htype Hgraph. unfold extractFromJsonLD.
  rewrite Htype. cbn [js_get]. rewrite Hgraph. cbn [truthy iterate].
  apply collectAttorneys_null.
Qed.

Lemma collectListItems_entries now listItems entries :
  Forall2 listItemFor listItems entries ->
  collectListItems now listItems = map (parseAttorneySchema now) entries.
Proof.
  induction 1 as [|listItem entry listItems entries (Hnull & Hitem & Htype) _ IH];
    [reflexivity|].
  cbn [collectListItems map]. rewrite Hnull, Hitem, Htype, IH. reflexivity.
Qed.

(** X15.  An [ItemList] block without [@graph] whose list items each
    wrap an entry of a recognised type, or are such an entry, yields
    exactly one record per entry, in order; and the practice areas of
    a record are the entry's [knowsAbout] when that is an array. *)
Theorem item_list_yields_every_entry now data listItems entries :
  js_get data "@type" = JsString "ItemList" ->
  truthy (js_get data "@graph") = false ->
  js_get data "itemListElement" = JsArray listItems ->
  Forall2 listItemFor listItems entries ->
  extractFromJsonLD now data = map (parseAttorneySchema now) entries
  /\ List.length (extractFromJsonLD now data) = List.length listItems
  /\ forall entry topics,
       js_get entry "knowsAbout" = JsArray topics ->
       practiceAreas (parseAttorneySchema now entry) = JsArray topics.
Proof.
  intros Htype Hgraph Hitems Hentries.
  assert (Hall : extractFromJsonLD now data = map (parseAttorneySchema now) entries).
  { destruct data as [| |b|n|s|elements|properties]; try discriminate Htype.
    unfold extractFromJsonLD, hasAttorneyType.
    rewrite Htype, Hgraph, Hitems. cbn.
    now apply collectListItems_entries. }
  split; [exact Hall|]. split.
  - rewrite Hall, length_map. symmetry. eapply Forall2_length; eauto.
  - intros entry topics Htopics. unfold parseAttorneySchema. cbn [practiceAreas].
    now rewrite Htopics.
Qed.

(** *** The search URL *)

(** X16.  Once the target validation has passed, the search URL is
    either the trimmed start URL or the Avvo listing path built from the
    practice area and state the user gave: the fallbacks
    "bankruptcy-debt" and "al" of [buildSearchUrl] are never used.
    (Trimming the empty string gives the empty string.) *)
Theorem search_url_after_validation input :
  trim "" = "" ->
  targetGiven input = true ->
  (exists startUrl,
      input_startUrl input = Some startUrl
      /\ trim startUrl <> ""
      /\ buildSearchUrl input = trim startUrl)
  \/ (exists practiceArea state,
        input_practiceArea input = Some practiceArea
        /\ practiceArea <> ""
        /\ input_state input = Some state
        /\ state <> ""
        /\ buildSearchUrl input
           = ("https://www.avvo.com/" ++ practiceArea ++ "-lawyer/"
              ++ cityPart input ++ state ++ ".html")%string).
Proof.
  intros Htrim Hvalid. unfold targetGiven in Hvalid. apply negb_true_iff in Hvalid.
  assert (Hblank : forall field,
             blank field = false ->
             exists s, field = Some s /\ s <> "" /\ trim s <> "").
  { intros [s|] Hfield; [|discriminate]. exists s. cbn in Hfield.
    split; [reflexivity|]. split.
    - intros ->. rewrite Htrim in Hfield. discriminate.
    - intros Hempty. rewrite Hempty in Hfield. discriminate. }
  unfold buildSearchUrl.
  destruct (blank (input_startUrl input)) eqn:Hstart.
  - right. cbn [andb] in Hvalid. apply orb_false_iff in Hvalid as [Harea Hstate].
    destruct (Hblank _ Harea) as (practiceArea & Hp & Hp' & _).
    destruct (Hblank _ Hstate) as (state & Hs & Hs' & _).
    exists practiceArea, state.
    assert (Hgiven : startUrlGiven (input_startUrl input) = false).
    { destruct (input_startUrl input) as [s|]; [|reflexivity]. cbn in *.
      rewrite Hstart. now rewrite andb_false_r. }
    rewrite Hgiven, Hp, Hs. unfold cityPart. cbn [orDefault].
    destruct practiceArea; [congruence|]. destruct state; [congruence|].
    repeat split; auto.
  - left. destruct (Hblank _ Hstart) as (startUrl & Hs & Hnonempty & Htrimmed).
    exists startUrl. rewrite Hs. cbn [startUrlGiven orDefault].
    destruct startUrl; [congruence|]. cbn [string_is_empty negb andb].
    destruct (string_is_empty (trim (String a startUrl))) eqn:Hempty.
    + exfalso. apply Htrimmed. destruct (trim (String a startUrl)); [reflexivity|discriminate].
    + repeat split; auto.
Qed.

(** *** A page of records already seen *)

Lemma filter_keyless_none (lawyers : list (@Lawyer number)) :
  (forall r, In r lawyers -> truthy (profileUrl r) = true) ->
  filter keyless lawyers = [].
Proof.
  induction lawyers as [|lawyer rest IH]; intros Hkeys; [reflexivity|].
  cbn [filter]. unfold keyless at 1. rewrite (Hkeys lawyer) by (now left).
  cbn [negb]. apply IH. intros r Hin. apply Hkeys. now right.
Qed.

Lemma saveLawyers_all_seen includeContactInfo maxLawyers page lawyers
    (st : @RunState number) :
  (forall r, In r lawyers ->
             truthy (profileUrl r) = true
             /\ setHas (seenLawyerUrls st) (profileUrl r) = true) ->
  saveLawyers includeContactInfo maxLawyers page lawyers st
  = setSeenLawyerUrls (seenLawyerUrls st) st.
Proof.
  intros Hseen. unfold saveLawyers.
  set (lawyersToSave :=
         if (0 <? maxLawyers)%Z
         then slice 0 (Z.to_nat (Z.max 0 (maxLawyers - totalLawyersScraped st))) lawyers
         else lawyers).
  assert (Hsub : forall r, In r lawyersToSave -> In r lawyers).
  { subst lawyersToSave. destruct (0 <? maxLawyers)%Z; [|auto].
    rewrite slice_from_zero. intros r Hin.
    rewrite <- (firstn_skipn
                  (Z.to_nat (Z.max 0 (maxLawyers - totalLawyersScraped st))) lawyers).
    apply in_or_app. now left. }
  rewrite (uniqueFilter_all_seen lawyersToSave (seenLawyerUrls st))
    by (intros r Hin _; apply Hseen, Hsub, Hin).
  rewrite filter_keyless_none by (intros r Hin; apply Hseen, Hsub, Hin).
  reflexivity.
Qed.

(** X7.  A page whose records all carry profile URLs already in the set
    pushes nothing and changes neither the set nor the record count;
    it does not end the crawl: its next link is requested under the
    usual conditions. *)
Theorem duplicate_page_pushes_nothing includeContactInfo maxLawyers
    (page : @Page number) url (st : @RunState number) :
  page_goto page = None -> challengePassed page -> pageLawyers page <> [] ->
  (forall r, In r (pageLawyers page) ->
             truthy (profileUrl r) = true
             /\ setHas (seenLawyerUrls st) (profileUrl r) = true) ->
  sink (fst (requestHandler includeContactInfo maxLawyers page url st)) = sink st
  /\ seenLawyerUrls (fst (requestHandler includeContactInfo maxLawyers page url st))
     = seenLawyerUrls st
  /\ totalLawyersScraped (fst (requestHandler includeContactInfo maxLawyers page url st))
     = totalLawyersScraped st
  /\ (page_hasNextPage page = true ->
      page_nextPageUrl page <> "" ->
      startsWith "http" (page_nextPageUrl page) = true ->
      (totalLawyersScraped st < maxLawyers)%Z ->
      snd (requestHandler includeContactInfo maxLawyers page url st)
      = [page_nextPageUrl page]).
Proof.
  intros Hgoto Hpassed Hsome Hseen. unfold requestHandler. rewrite Hgoto.
  destruct (Nat.leb_spec maxRetries (challengeLoop maxRetries page 0)) as [Hle|_];
    [unfold challengePassed in Hpassed; lia|].
  pose proof (runStrategies_lawyers page (incrPagesProcessed st)) as Hlawyers.
  destruct (runStrategies_sameRecords page (incrPagesProcessed st))
    as (Ssink & Sseen & Stotal).
  destruct (runStrategies page (incrPagesProcessed st)) as [lawyers st1].
  cbn [fst snd incrPagesProcessed seenLawyerUrls totalLawyersScraped] in *.
  change (sink (incrPagesProcessed st)) with (sink st) in Ssink.
  fold (pageLawyers page) in Hlawyers. subst lawyers.
  destruct (pageLawyers page) as [|first others] eqn:Hpage; [congruence|].
  cbn [isEmpty]. rewrite <- Hpage in *. clear first others Hpage Hsome.
  rewrite saveLawyers_all_seen by (rewrite Sseen; exact Hseen).
  destruct (paginate_effect maxLawyers page
              (setSeenLawyerUrls (seenLawyerUrls st1) st1))
    as (_ & (Psink & Pseen & Ptotal) & _).
  split; [rewrite Psink; exact Ssink|]. split; [rewrite Pseen; exact Sseen|].
  split; [rewrite Ptotal; exact Stotal|].
  intros Hnext Hlink Hhttp Hbelow. unfold paginate.
  cbn [setSeenLawyerUrls totalLawyersScraped]. rewrite Stotal, Hnext, Hhttp.
  apply string_is_empty_false in Hlink. rewrite Hlink.
  destruct (Z.leb_spec maxLawyers (totalLawyersScraped st)); [lia|].
  rewrite andb_false_r.
  destruct (Z.ltb_spec (totalLawyersScraped st) maxLawyers); [reflexivity | lia].
Qed.

End StageProperties.

(** ** Properties of the embedded-data and HTML strategies *)

Section StrategyProperties.

Context {number : Type} {NUM : NumberOps number} {TEXT : Text number}
        {HOST : @Host number} {DOM : Dom}.

Implicit Types (r : @Lawyer number) (el : node).

(** *** Embedded data *)

Lemma collectApiLawyers_all now entries :
  Forall (fun entry => is_nullish entry = false) entries ->
  collectApiLawyers now entries = map (apiLawyer now) entries.
Proof.
  induction 1 as [|entry entries Hentry _ IH]; [reflexivity|].
  cbn [collectApiLawyers map]. now rewrite Hentry, IH.
Qed.

Lemma js_or_truthy (a b : JsValue number) : truthy a = true -> js_or a b = a.
Proof. unfold js_or. now intros ->. Qed.

Lemma listingArray_lawyers (data : JsValue number) :
  truthy (js_get data "lawyers") = true ->
  listingArray data = js_get data "lawyers".
Proof.
  intros Htruthy. unfold listingArray.
  rewrite !(js_or_truthy (js_get data "lawyers")) by exact Htruthy. reflexivity.
Qed.

(** X17.  When the parsed data has a non-empty [lawyers] array without
    null entries, the block yields exactly one record per entry, in
    order, whatever [attorneys], [profiles] or [data] hold. *)
Theorem embedded_lawyers_one_per_entry now (data : JsValue number) entries :
  js_get data "lawyers" = JsArray entries ->
  entries <> [] ->
  Forall (fun entry => is_nullish entry = false) entries ->
  extractFromEmbedded now data = map (apiLawyer now) entries.
Proof.
  intros Hlawyers Hsome Hentries.
  destruct data as [| |b|n|s|elements|properties]; try discriminate Hlawyers.
  unfold extractFromEmbedded. cbn [is_nullish].
  rewrite listingArray_lawyers by (rewrite Hlawyers; reflexivity).
  rewrite Hlawyers.
  destruct entries as [|first others]; [congruence|].
  now apply collectApiLawyers_all.
Qed.

(** X18.  A [lawyers] value that is truthy but not a non-empty array
    (an empty array, an object, a text, a number) hides the other
    keys: the block yields no record even when [attorneys] or
    [profiles] hold entries. *)
Theorem truthy_lawyers_value_hides_other_keys now (data : JsValue number) :
  truthy (js_get data "lawyers") = true ->
  match js_get data "lawyers" with
  | JsArray (_ :: _) => False
  | _ => True
  end ->
  extractFromEmbedded now data = [].
Proof.
  intros Htruthy Hshape. unfold extractFromEmbedded.
  destruct (is_nullish data); [reflexivity|].
  rewrite (listingArray_lawyers _ Htruthy).
  destruct (js_get data "lawyers") as [| |b|n|s|[|first others]|properties];
    try reflexivity. contradiction.
Qed.

(** *** Cards *)

Lemma firstMatch_some {A : Type} (attempt : string -> option A) selectors found :
  firstMatch attempt selectors = Some found ->
  exists before selector after,
    selectors = before ++ selector :: after
    /\ attempt selector = Some found
    /\ forall s, In s before -> attempt s = None.
Proof.
  induction selectors as [|selector rest IH]; [discriminate|].
  cbn [firstMatch]. destruct (attempt selector) eqn:Hattempt.
  - intros [= ->]. exists [], selector, rest. repeat split; auto. intros s [].
  - intros Hrest. destruct (IH Hrest) as (before & s & after & -> & Hs & Hnone).
    exists (selector :: before), s, after. repeat split; auto.
    intros x [<-|Hx]; auto.
Qed.

Lemma firstMatch_none {A : Type} (attempt : string -> option A) selectors :
  firstMatch attempt selectors = None
  <-> forall s, In s selectors -> attempt s = None.
Proof.
  induction selectors as [|selector rest IH]; cbn [firstMatch].
  - split; [intros _ s [] | reflexivity].
  - destruct (attempt selector) eqn:Hattempt.
    + split; [discriminate|]. intros Hall.
      rewrite (Hall selector) in Hattempt by (now left). discriminate.
    + rewrite IH. split.
      * intros Hall s [<-|Hs]; auto.
      * intros Hall s Hs. apply Hall. now right.
Qed.

Lemma extractName_some el cardName cardUrl :
  extractName el = Some (cardName, cardUrl) ->
  cardName <> ""
  /\ exists selector nameEl,
       In selector nameSelectors
       /\ findFirst el selector = Some nameEl
       /\ cardName = trim (dom_text nameEl)
       /\ cardUrl = resolveProfileUrl (hrefOrEmpty nameEl).
Proof.
  unfold extractName. intros Hfound.
  apply firstMatch_some in Hfound as (before & selector & after & Hsplit & Hhit & _).
  destruct (findFirst el selector) as [nameEl|] eqn:Hfirst; [|discriminate].
  destruct (string_is_empty (trim (dom_text nameEl))) eqn:Hblank; [discriminate|].
  injection Hhit as <- <-. split; [now apply string_is_empty_false|].
  exists selector, nameEl. rewrite Hsplit. repeat split; auto.
  apply in_or_app. right. now left.
Qed.

(** What a card's record is made of. *)
Lemma extractLawyerFromElement_some now el r :
  extractLawyerFromElement now el = Some r ->
  exists cardName cardUrl,
    extractName el = Some (cardName, cardUrl)
    /\ cardName <> ""
    /\ name r = JsString cardName
    /\ profileUrl r = JsString cardUrl
    /\ email r = JsString ""
    /\ education r = None
    /\ awards r = None
    /\ bio r = JsString (extractText el bioSelectors
                           (fun found => trim (dom_text found))
                           (fun text => (50 <? jsLength text)%nat))
    /\ barAdmissions r = JsArray (map JsString (extractItems el barSelectors "li, span" 1))
    /\ languages r = JsArray (map JsString (extractItems el langSelectors "li, span" 1))
    /\ reviewCount r
       = JsNumber (number_of_Z match extractInteger el reviewSelectors with
                               | Some n => n
                               | None => 0%Z
                               end)
    /\ yearsLicensed r
       = optionalNumber (option_map number_of_Z
                           (extractInteger el yearsLicensedSelectors)).
Proof.
  unfold extractLawyerFromElement.
  destruct (extractName el) as [[cardName cardUrl]|] eqn:Hname.
  - destruct (extractName_some _ _ _ Hname) as [Hnonempty _].
    assert (Hgiven : nonEmpty cardName = true)
      by (unfold nonEmpty; apply string_is_empty_false in Hnonempty;
          now rewrite Hnonempty).
    rewrite Hgiven. cbn [orb]. intros [= <-].
    exists cardName, cardUrl. cbn. repeat split; auto.
  - cbn. discriminate.
Qed.

(** X19.  A card becomes a record exactly when one of the name
    selectors finds a first element with non-blank text; the record's
    name is that trimmed text, so a card with links but no readable
    name is discarded and the placeholder name is never used. *)
Theorem card_needs_a_name now el :
  ((exists r, extractLawyerFromElement now el = Some r)
   <-> exists selector nameEl,
         In selector nameSelectors
         /\ findFirst el selector = Some nameEl
         /\ trim (dom_text nameEl) <> "")
  /\ forall r,
       extractLawyerFromElement now el = Some r ->
       exists selector nameEl,
         In selector nameSelectors
         /\ findFirst el selector = Some nameEl
         /\ trim (dom_text nameEl) <> ""
         /\ name r = JsString (trim (dom_text nameEl)).
Proof.
  assert (Hname : forall r,
             extractLawyerFromElement now el = Some r ->
             exists selector nameEl,
               In selector nameSelectors
               /\ findFirst el selector = Some nameEl
               /\ trim (dom_text nameEl) <> ""
               /\ name r = JsString (trim (dom_text nameEl))).
  { intros r Hr.
    destruct (extractLawyerFromElement_some _ _ _ Hr)
      as (cardName & cardUrl & Hfound & Hnonempty & Hrecord & _).
    destruct (extractName_some _ _ _ Hfound)
      as (_ & selector & nameEl & Hin & Hfirst & -> & _).
    exists selector, nameEl. repeat split; auto. }
  split; [|exact Hname]. split.
  - intros [r Hr]. destruct (Hname r Hr) as (selector & nameEl & H1 & H2 & H3 & _).
    eauto.
  - intros (selector & nameEl & Hin & Hfirst & Htext).
    destruct (extractName el) as [[cardName cardUrl]|] eqn:Hfound.
    + destruct (extractName_some _ _ _ Hfound) as [Hnonempty _].
      unfold extractLawyerFromElement. rewrite Hfound.
      apply string_is_empty_false in Hnonempty. unfold nonEmpty at 1.
      rewrite Hnonempty. cbn [negb orb]. eexists. reflexivity.
    + exfalso. unfold extractName in Hfound.
      rewrite firstMatch_none in Hfound. specialize (Hfound selector Hin).
      cbn beta in Hfound. rewrite Hfirst in Hfound.
      apply string_is_empty_false in Htext. rewrite Htext in Hfound. discriminate.
Qed.

Lemma resolveProfileUrl_absolute href :
  resolveProfileUrl href = "" \/ startsWith "http" (resolveProfileUrl href) = true.
Proof.
  unfold resolveProfileUrl.
  destruct href as [|c rest]; [now left|]. cbn [string_is_empty negb andb].
  destruct (startsWith "http" (String c rest)) eqn:Hhttp; cbn [negb]; right;
    [exact Hhttp | reflexivity].
Qed.

(** X20.  The profile URL of a card's record is empty or starts with
    http: a relative link is always resolved against
    https://www.avvo.com. *)
Theorem card_profile_url_is_absolute now el r :
  extractLawyerFromElement now el = Some r ->
  exists url,
    profileUrl r = JsString url
    /\ (url = "" \/ startsWith "http" url = true)
    /\ exists nameEl,
         url = resolveProfileUrl (hrefOrEmpty nameEl)
         /\ (hrefOrEmpty nameEl <> "" ->
             startsWith "http" (hrefOrEmpty nameEl) = false ->
             url = ("https://www.avvo.com" ++ hrefOrEmpty nameEl)%string).
Proof.
  intros Hr.
  destruct (extractLawyerFromElement_some _ _ _ Hr)
    as (cardName & cardUrl & Hfound & _ & _ & Hurl & _).
  destruct (extractName_some _ _ _ Hfound)
    as (_ & selector & nameEl & _ & _ & _ & ->).
  exists (resolveProfileUrl (hrefOrEmpty nameEl)).
  split; [exact Hurl|]. split; [apply resolveProfileUrl_absolute|].
  exists nameEl. split; [reflexivity|].
  intros Hnonempty Hrelative. unfold resolveProfileUrl.
  apply string_is_empty_false in Hnonempty. now rewrite Hnonempty, Hrelative.
Qed.

Lemma extractText_accepted el selectors read accept :
  extractText el selectors read accept = ""
  \/ accept (extractText el selectors read accept) = true.
Proof.
  unfold extractText.
  destruct (firstMatch _ selectors) as [text|] eqn:Hfound; [|now left].
  right. apply firstMatch_some in Hfound as (_ & selector & _ & _ & Hhit & _).
  destruct (findFirst el selector) as [found|]; [|discriminate].
  destruct (accept (read found)) eqn:Haccept; [|discriminate].
  injection Hhit as <-. exact Haccept.
Qed.

Lemma extractItems_long el selectors itemSelector minLength :
  Forall (fun item => item <> "" /\ (minLength < jsLength item)%nat)
         (extractItems el selectors itemSelector minLength).
Proof.
  unfold extractItems.
  destruct (firstMatch _ selectors) as [items|] eqn:Hfound; [|constructor].
  apply firstMatch_some in Hfound as (_ & selector & _ & _ & Hhit & _).
  destruct (dom_find [el] selector) as [|first others]; [discriminate|].
  match type of Hhit with
  | match ?filtered with _ => _ end = _ =>
      assert (Hall : Forall (fun item => item <> "" /\ (minLength < jsLength item)%nat)
                            filtered);
      [|destruct filtered; [discriminate | injection Hhit as <-; exact Hall]]
  end.
  apply Forall_forall. intros item Hin. apply filter_In in Hin as [_ Hkeep].
  apply andb_true_iff in Hkeep as [Hnonempty Hlong].
  apply negb_true_iff, string_is_empty_false in Hnonempty.
  apply Nat.ltb_lt in Hlong. now split.
Qed.

(** X21.  In a card's record the email is always empty and education
    and awards are absent; the bio is empty or longer than 50; every
    bar admission and every language is a non-empty text longer than 1. *)
Theorem card_field_shapes now el r :
  extractLawyerFromElement now el = Some r ->
  email r = JsString ""
  /\ education r = None
  /\ awards r = None
  /\ (exists text,
        bio r = JsString text /\ (text = "" \/ (50 < jsLength text)%nat))
  /\ (exists bars,
        barAdmissions r = JsArray (map JsString bars)
        /\ Forall (fun item => item <> "" /\ (1 < jsLength item)%nat) bars)
  /\ (exists spoken,
        languages r = JsArray (map JsString spoken)
        /\ Forall (fun item => item <> "" /\ (1 < jsLength item)%nat) spoken).
Proof.
  intros Hr.
  destruct (extractLawyerFromElement_some _ _ _ Hr)
    as (cardName & cardUrl & _ & _ & _ & _ & Hemail & Hedu & Hawards & Hbio
        & Hbars & Hlangs & _).
  split; [exact Hemail|]. split; [exact Hedu|]. split; [exact Hawards|].
  split; [|split].
  - eexists. split; [exact Hbio|].
    destruct (extractText_accepted el bioSelectors
                (fun found => trim (dom_text found))
                (fun text => (50 <? jsLength text)%nat)) as [Hempty|Hlong].
    + left. exact Hempty.
    + right. now apply Nat.ltb_lt in Hlong.
  - eexists. split; [exact Hbars | apply extractItems_long].
  - eexists. split; [exact Hlangs | apply extractItems_long].
Qed.

Lemma digitsValue_nonneg digits :
  forall acc, (0 <= acc)%Z -> (0 <= digitsValue acc digits)%Z.
Proof.
  induction digits as [|c rest IH]; intros acc Hacc; [exact Hacc|].
  cbn [digitsValue]. apply IH. lia.
Qed.

Lemma firstInteger_none (s : string) :
  firstInteger s = None <-> digitFree s = true.
Proof.
  induction s as [|c rest IH]; cbn [firstInteger digitFree]; [tauto|].
  destruct (isDigit c); cbn [negb andb]; [split; discriminate | exact IH].
Qed.

Lemma extractInteger_nonneg el selectors n :
  extractInteger el selectors = Some n -> (0 <= n)%Z.
Proof.
  unfold extractInteger. intros Hfound.
  apply firstMatch_some in Hfound as (_ & selector & _ & _ & Hhit & _).
  destruct (findFirst el selector) as [found|]; [|discriminate].
  destruct (firstInteger (trim (dom_text found))) as [digits|]; [|discriminate].
  injection Hhit as <-. apply digitsValue_nonneg. lia.
Qed.

(** X22.  The review count of a card's record is a non-negative
    integer, and it is 0 when no review element shows a digit; the
    years licensed are null or a non-negative integer. *)
Theorem card_counts_are_natural now el r :
  extractLawyerFromElement now el = Some r ->
  (exists n, reviewCount r = JsNumber (number_of_Z n) /\ (0 <= n)%Z)
  /\ (yearsLicensed r = JsNull
      \/ exists n, yearsLicensed r = JsNumber (number_of_Z n) /\ (0 <= n)%Z)
  /\ ((forall selector found,
          In selector reviewSelectors ->
          findFirst el selector = Some found ->
          digitFree (trim (dom_text found)) = true) ->
      reviewCount r = JsNumber (number_of_Z 0)).
Proof.
  intros Hr.
  destruct (extractLawyerFromElement_some _ _ _ Hr)
    as (cardName & cardUrl & _ & _ & _ & _ & _ & _ & _ & _ & _ & _
        & Hreviews & Hyears).
  split; [|split].
  - eexists. split; [exact Hreviews|].
    destruct (extractInteger el reviewSelectors) eqn:Hfound; [|lia].
    eapply extractInteger_nonneg; eauto.
  - rewrite Hyears.
    destruct (extractInteger el yearsLicensedSelectors) as [n|] eqn:Hfound;
      cbn [option_map optionalNumber]; [right | now left].
    exists n. split; [reflexivity|]. eapply extractInteger_nonneg; eauto.
  - intros Hnodigit. rewrite Hreviews.
    replace (extractInteger el reviewSelectors) with (@None Z); [reflexivity|].
    symmetry. unfold extractInteger. apply firstMatch_none.
    intros selector Hin. destruct (findFirst el selector) as [found|] eqn:Hfirst;
      [|reflexivity].
    specialize (Hnodigit selector found Hin Hfirst).
    apply firstInteger_none in Hnodigit. now rewrite Hnodigit.
Qed.

(** X23.  The HTML strategy reads the cards of one selector only: the
    first card selector, in order, that matches anything.  It returns
    no record when no selector matches or the page content cannot be
    read, and never more records than that selector has cards. *)
Theorem cards_come_from_first_matching_selector now html :
  ((forall selector, In selector cardSelectors -> dom_select html selector = []) ->
   extractLawyerDataViaHTML now (Some html) = [])
  /\ (lawyerElements html <> [] ->
      exists before selector after,
        cardSelectors = before ++ selector :: after
        /\ lawyerElements html = dom_select html selector
        /\ forall s, In s before -> dom_select html s = [])
  /\ (List.length (extractLawyerDataViaHTML now (Some html))
      <= List.length (lawyerElements html))%nat
  /\ extractLawyerDataViaHTML now None = []
  /\ forall r,
       In r (extractLawyerDataViaHTML now (Some html)) ->
       exists el, In el (lawyerElements html)
                  /\ extractLawyerFromElement now el = Some r.
Proof.
  split; [|split; [|split; [|split]]].
  - intros Hnone. unfold extractLawyerDataViaHTML, lawyerElements.
    replace (firstMatch _ cardSelectors) with (@None (list node)); [reflexivity|].
    symmetry. apply firstMatch_none. intros selector Hin.
    now rewrite (Hnone selector Hin).
  - unfold lawyerElements.
    destruct (firstMatch _ cardSelectors) as [elements|] eqn:Hfound; [|congruence].
    intros _.
    apply firstMatch_some in Hfound as (before & selector & after & Hsplit & Hhit & Hearlier).
    exists before, selector, after. split; [exact Hsplit|]. split.
    + destruct (dom_select html selector); [discriminate | now injection Hhit].
    + intros s Hs. specialize (Hearlier s Hs).
      destruct (dom_select html s); [reflexivity | discriminate].
  - unfold extractLawyerDataViaHTML.
    induction (lawyerElements html) as [|el rest IH]; [reflexivity|].
    cbn [flat_map]. rewrite length_app. cbn [List.length].
    destruct (extractLawyerFromElement now el); cbn [List.length]; lia.
  - reflexivity.
  - intros r Hin. unfold extractLawyerDataViaHTML in Hin.
    apply in_flat_map in Hin as (el & Hel & Hr). exists el. split; [exact Hel|].
    destruct (extractLawyerFromElement now el); [|destruct Hr].
    destruct Hr as [->|[]]. reflexivity.
Qed.

End StrategyProperties.

(** ** The further properties at concrete inputs *)


(** X2 on the two-page run. *)
Lemma run_summary_matches_sink_witness :
  main (demoInput (MaxLawyersInt 10) false) demoWeb
  = Completed (finalState (main (demoInput (MaxLawyersInt 10) false) demoWeb))
  /\ totalLawyersScraped
       (finalState (main (demoInput (MaxLawyersInt 10) false) demoWeb))
     = Z.of_nat (List.length
                   (sink (finalState (main (demoInput (MaxLawyersInt 10) false)
                                           demoWeb))))
  /\ List.length (sink (finalState (main (demoInput (MaxLawyersInt 10) false) demoWeb)))
     = 5%nat.
Proof.
  assert (Hmain : main (demoInput (MaxLawyersInt 10) false) demoWeb
                  = Completed (finalState (main (demoInput (MaxLawyersInt 10) false)
                                                demoWeb)))
    by (vm_compute; reflexivity).
  destruct (run_summary_matches_sink _ _ _ Hmain) as (Hcount & _).
  split; [exact Hmain|]. split; [exact Hcount|]. vm_compute. reflexivity.
Defined.

(** X3 on a first page of eight cards with a next link. *)
Lemma zero_budget_run_is_one_page_witness :
  resolveMaxLawyers (input_maxLawyers (demoInput (MaxLawyersInt 0) false)) = 0%Z
  /\ main (demoInput (MaxLawyersInt 0) false)
          (fun _ => demoListing demoEight true demoSecondUrl)
     = Completed (finalState
                    (main (demoInput (MaxLawyersInt 0) false)
                          (fun _ => demoListing demoEight true demoSecondUrl)))
  /\ pagesProcessed
       (finalState (main (demoInput (MaxLawyersInt 0) false)
                         (fun _ => demoListing demoEight true demoSecondUrl)))
     = 1%Z.
Proof.
  assert (Hmain : main (demoInput (MaxLawyersInt 0) false)
                       (fun _ => demoListing demoEight true demoSecondUrl)
                  = Completed (finalState
                                 (main (demoInput (MaxLawyersInt 0) false)
                                       (fun _ => demoListing demoEight true
                                                   demoSecondUrl))))
    by (vm_compute; reflexivity).
  split; [reflexivity|]. split; [exact Hmain|].
  exact (proj1 (zero_budget_run_is_one_page
                  (demoInput (MaxLawyersInt 0) false)
                  (fun _ => demoListing demoEight true demoSecondUrl) _
                  eq_refl Hmain)).
Defined.

(** X4 on a listing page without cards that still has a next link. *)
Lemma empty_page_ends_pagination_witness :
  page_goto (demoListing [] true demoSecondUrl) = None
  /\ challengePassed (demoListing [] true demoSecondUrl)
  /\ pageLawyers (demoListing [] true demoSecondUrl) = []
  /\ snd (requestHandler false 10 (demoListing [] true demoSecondUrl) "u" initialState)
     = []
  /\ sink (fst (requestHandler false 10 (demoListing [] true demoSecondUrl) "u"
                  initialState)) = [].
Proof.
  assert (Hpassed : challengePassed (demoListing [] true demoSecondUrl))
    by (unfold challengePassed; vm_compute; repeat constructor).
  destruct (empty_page_ends_pagination false 10%Z
              (demoListing [] true demoSecondUrl) "u" initialState
              eq_refl Hpassed eq_refl) as (Hnone & Hsink & _).
  split; [reflexivity|]. split; [exact Hpassed|]. split; [reflexivity|].
  split; [exact Hnone | exact Hsink].
Defined.

(** X5 on a page of eight cards with a next link and a budget of 10. *)
Lemma next_page_request_shape_witness :
  In demoSecondUrl
     (snd (requestHandler false 10 (demoListing demoEight true demoSecondUrl) "u"
             initialState))
  /\ snd (requestHandler false 10 (demoListing demoEight true demoSecondUrl) "u"
            initialState) = [demoSecondUrl]
  /\ startsWith "http" demoSecondUrl = true
  /\ (totalLawyersScraped
        (fst (requestHandler false 10 (demoListing demoEight true demoSecondUrl) "u"
                initialState)) < 10)%Z.
Proof.
  assert (Hin : In demoSecondUrl
                   (snd (requestHandler false 10
                           (demoListing demoEight true demoSecondUrl) "u"
                           initialState)))
    by (vm_compute; left; reflexivity).
  destruct (next_page_request_shape _ _ _ _ _ _ Hin)
    as (Hone & _ & _ & _ & _ & _ & Hhttp & Hbelow).
  split; [exact Hin|]. split; [exact Hone|]. split; [exact Hhttp | exact Hbelow].
Defined.

(** X6 on a page without challenge and on the page that always shows it. *)
Lemma challenge_gate_rounds_witness :
  (0 < maxRetries)%nat
  /\ detectedIn (demoListing demoEight true demoSecondUrl) 0 = false
  /\ challengePassed (demoListing demoEight true demoSecondUrl)
  /\ ~ challengePassed demoChallenged.
Proof.
  assert (Hround : (0 < maxRetries)%nat) by (unfold maxRetries; lia).
  split; [exact Hround|]. split; [reflexivity|]. split.
  - apply (proj2 (challenge_gate_rounds (demoListing demoEight true demoSecondUrl))).
    exists 0%nat. split; [exact Hround | reflexivity].
  - intros Hpassed.
    destruct (proj1 (challenge_gate_rounds demoChallenged) Hpassed)
      as (round & _ & Hclear).
    discriminate Hclear.
Defined.

(** X8 with batches of 3 and of 10 over eight records. *)
Lemma enrichment_ignores_batch_size_witness :
  (0 < 3)%nat /\ (0 < 10)%nat
  /\ enrichLawyersWithProfiles demoEight [("cf_clearance", "abc")] "" 3
     = enrichLawyersWithProfiles demoEight [("cf_clearance", "abc")] "" 10
  /\ List.length
       (fst (enrichLawyersWithProfiles demoEight [("cf_clearance", "abc")] "" 3))
     = 8%nat.
Proof.
  assert (H3 : (0 < 3)%nat) by lia. assert (H10 : (0 < 10)%nat) by lia.
  destruct (enrichment_ignores_batch_size (HOST:=demoHost) demoEight
              [("cf_clearance", "abc")] "" 3 10 H3 H10) as [Hsame Hlength].
  split; [exact H3|]. split; [exact H10|]. split; [exact Hsame | exact Hlength].
Defined.

(** X9 on a record without profile URL. *)
Lemma enrichment_keeps_listing_fields_witness :
  truthy (profileUrl (demoLawyer "No Link" "" "Existing bio")) = false
  /\ enrichLawyer "" "" 0%Z (demoLawyer "No Link" "" "Existing bio")
     = (demoLawyer "No Link" "" "Existing bio", 0%Z)
  /\ name (fst (enrichLawyer "" "" 0%Z
                  (demoLawyer "Ada Park" "https://www.avvo.com/attorneys/1" "")))
     = JsString "Ada Park".
Proof.
  destruct (enrichment_keeps_listing_fields (HOST:=demoHost) "" "" 0%Z
              (demoLawyer "No Link" "" "Existing bio")) as (_ & Hkeyless & _).
  destruct (enrichment_keeps_listing_fields (HOST:=demoHost) "" "" 0%Z
              (demoLawyer "Ada Park" "https://www.avvo.com/attorneys/1" ""))
    as ((Hname & _) & _).
  split; [reflexivity|]. split; [exact (Hkeyless eq_refl) | exact Hname].
Defined.

(** X10 on a detail page that answers 404. *)
Lemma failed_fetch_leaves_record_witness :
  truthy (profileUrl (demoLawyer "Ada Park" "https://www.avvo.com/gone/1" "Old"))
  = true
  /\ softFailure (gotScraping (JsString "https://www.avvo.com/gone/1") ""
                              (sentUserAgent ""))
  /\ enrichLawyer "" "" 4%Z (demoLawyer "Ada Park" "https://www.avvo.com/gone/1" "Old")
     = (demoLawyer "Ada Park" "https://www.avvo.com/gone/1" "Old", 4%Z).
Proof.
  assert (Hsoft : softFailure (gotScraping (JsString "https://www.avvo.com/gone/1") ""
                                           (sentUserAgent "")))
    by (vm_compute; repeat split; discriminate).
  split; [reflexivity|]. split; [exact Hsoft|].
  exact (failed_fetch_leaves_record (HOST:=demoHost) "" "" 4%Z
           (demoLawyer "Ada Park" "https://www.avvo.com/gone/1" "Old")
           eq_refl Hsoft).
Defined.

(** X11 on a host that rejects every fetch with a 403 error. *)
Lemma blocked_rejection_counts_witness :
  truthy (profileUrl (demoLawyer "Ada Park" "https://www.avvo.com/attorneys/1" "Old"))
  = true
  /\ blockedRejection
       (@gotScraping Z demoRejectingHost
          (JsString "https://www.avvo.com/attorneys/1") "" (sentUserAgent ""))
  /\ enrichLawyer (HOST:=demoRejectingHost) "" "" 4%Z
       (demoLawyer "Ada Park" "https://www.avvo.com/attorneys/1" "Old")
     = (demoLawyer "Ada Park" "https://www.avvo.com/attorneys/1" "Old", 5%Z).
Proof.
  assert (Hblocked : blockedRejection
            (@gotScraping Z demoRejectingHost
               (JsString "https://www.avvo.com/attorneys/1") "" (sentUserAgent "")))
    by (left; vm_compute; reflexivity).
  split; [reflexivity|]. split; [exact Hblocked|].
  exact (blocked_rejection_counts (HOST:=demoRejectingHost) "" "" 4%Z
           (demoLawyer "Ada Park" "https://www.avvo.com/attorneys/1" "Old")
           eq_refl Hblocked).
Defined.

(** X12 on three records, two of them with the same profile URL. *)
Lemma uniqueFilter_second_pass_witness :
  Forall stringKeyed demoRepeated
  /\ fst (uniqueFilter [] demoRepeated)
     = [ demoLawyer "Ada Park" "https://www.avvo.com/attorneys/1" "";
         demoLawyer "No Link" "" "" ]
  /\ fst (uniqueFilter (snd (uniqueFilter [] demoRepeated)) demoRepeated)
     = [ demoLawyer "No Link" "" "" ].
Proof.
  assert (Hstrings : Forall stringKeyed demoRepeated)
    by (repeat constructor; eexists; reflexivity).
  split; [exact Hstrings|]. split; [reflexivity|].
  rewrite (uniqueFilter_second_pass [] demoRepeated Hstrings). reflexivity.
Defined.

(** X13 on the JSON-LD page: dropping the unparseable block changes
    nothing. *)
Lemma barren_block_is_skipped_witness :
  barrenBlock (@None (JsValue Z))
  /\ extractLawyersViaJsonLD "t"
       (Some ([Some (JsArray [demoAttorney "Ada Park" "https://www.avvo.com/attorneys/1"])]
              ++ None :: [Some demoItemList]))
     = extractLawyersViaJsonLD "t"
         (Some [Some (JsArray [demoAttorney "Ada Park"
                                 "https://www.avvo.com/attorneys/1"])])
       ++ extractLawyersViaJsonLD "t" (Some [Some demoItemList]).
Proof.
  split; [exact I|].
  exact (barren_block_is_skipped "t"
           [Some (JsArray [demoAttorney "Ada Park" "https://www.avvo.com/attorneys/1"])]
           [Some demoItemList] None I).
Defined.

(** X14 on a block with a null between two entries. *)
Lemma null_entry_cuts_block_witness :
  hasAttorneyType
    (JsObject [("@graph",
                JsArray ([demoAttorney "Ada Park" "https://www.avvo.com/attorneys/1"]
                         ++ JsNull
                         :: [demoAttorney "Bo Reyes" "https://www.avvo.com/attorneys/2"]))])
  = false
  /\ List.length
       (extractFromJsonLD "t"
          (JsObject [("@graph",
                      JsArray ([demoAttorney "Ada Park" "https://www.avvo.com/attorneys/1"]
                               ++ JsNull
                               :: [demoAttorney "Bo Reyes"
                                     "https://www.avvo.com/attorneys/2"]))]))
     = 1%nat.
Proof.
  destruct (null_entry_cuts_block "t"
              [demoAttorney "Ada Park" "https://www.avvo.com/attorneys/1"]
              [demoAttorney "Bo Reyes" "https://www.avvo.com/attorneys/2"])
    as [_ Hgraph].
  split; [reflexivity|].
  rewrite (Hgraph
             [("@graph",
               JsArray ([demoAttorney "Ada Park" "https://www.avvo.com/attorneys/1"]
                        ++ JsNull
                        :: [demoAttorney "Bo Reyes"
                              "https://www.avvo.com/attorneys/2"]))]
             eq_refl eq_refl).
  reflexivity.
Defined.

(** X15 on an ItemList with one wrapped and one direct entry. *)
Lemma item_list_yields_every_entry_witness :
  js_get demoItemList "@type" = JsString "ItemList"
  /\ truthy (js_get demoItemList "@graph") = false
  /\ Forall2 listItemFor
       [ JsObject [("item", demoAttorney "Bo Reyes" "https://www.avvo.com/attorneys/2")];
         demoAttorney "Cy Dunn" "https://www.avvo.com/attorneys/3" ]
       [ demoAttorney "Bo Reyes" "https://www.avvo.com/attorneys/2";
         demoAttorney "Cy Dunn" "https://www.avvo.com/attorneys/3" ]
  /\ List.length (extractFromJsonLD "t" demoItemList) = 2%nat.
Proof.
  assert (Hitems : Forall2 listItemFor
            [ JsObject [("item", demoAttorney "Bo Reyes"
                                   "https://www.avvo.com/attorneys/2")];
              demoAttorney "Cy Dunn" "https://www.avvo.com/attorneys/3" ]
            [ demoAttorney "Bo Reyes" "https://www.avvo.com/attorneys/2";
              demoAttorney "Cy Dunn" "https://www.avvo.com/attorneys/3" ])
    by (repeat constructor).
  destruct (item_list_yields_every_entry "t" demoItemList _ _
              eq_refl eq_refl eq_refl Hitems) as (_ & Hlength & _).
  split; [reflexivity|]. split; [reflexivity|]. split; [exact Hitems | exact Hlength].
Defined.

(** X16 on an input that names practice area, state and city. *)
Lemma search_url_after_validation_witness :
  trim "" = ""
  /\ targetGiven demoByArea = true
  /\ buildSearchUrl demoByArea = "https://www.avvo.com/tax-lawyer/albany-ny.html".
Proof.
  split; [reflexivity|]. split; [reflexivity|].
  destruct (search_url_after_validation (HOST:=demoHost) demoByArea eq_refl eq_refl)
    as [(startUrl & Hstart & _) | (practiceArea & state & Harea & _ & Hstate & _ & Hurl)].
  - discriminate Hstart.
  - injection Harea as <-. injection Hstate as <-. exact Hurl.
Defined.

(** X17 on embedded data with two lawyers and a separate attorneys list. *)
Lemma embedded_lawyers_one_per_entry_witness :
  js_get demoEmbedded "lawyers"
  = JsArray [ JsObject [ ("fullName", JsString "Ada Park");
                         ("url", JsString "https://www.avvo.com/attorneys/1") ];
              JsObject [ ("name", JsString "Bo Reyes");
                         ("profileUrl", JsString "https://www.avvo.com/attorneys/2") ] ]
  /\ map name (extractFromEmbedded "t" demoEmbedded)
     = [JsString "Ada Park"; JsString "Bo Reyes"]
  /\ map profileUrl (extractFromEmbedded "t" demoEmbedded)
     = [ JsString "https://www.avvo.com/attorneys/1";
         JsString "https://www.avvo.com/attorneys/2" ].
Proof.
  assert (Hall : extractFromEmbedded (TEXT:=demoText) "t" demoEmbedded
                 = map (apiLawyer "t")
                       [ JsObject [ ("fullName", JsString "Ada Park");
                                    ("url", JsString "https://www.avvo.com/attorneys/1") ];
                         JsObject [ ("name", JsString "Bo Reyes");
                                    ("profileUrl",
                                     JsString "https://www.avvo.com/attorneys/2") ] ]).
  { apply embedded_lawyers_one_per_entry;
      [reflexivity | discriminate | repeat constructor]. }
  split; [reflexivity|]. rewrite Hall. split; reflexivity.
Defined.

(** X18 on embedded data whose lawyers list is empty. *)
Lemma truthy_lawyers_value_hides_other_keys_witness :
  truthy (js_get demoMasked "lawyers") = true
  /\ js_get demoMasked "attorneys"
     = JsArray [ JsObject [ ("name", JsString "Cy Dunn") ] ]
  /\ extractFromEmbedded "t" demoMasked = [].
Proof.
  split; [reflexivity|]. split; [reflexivity|].
  exact (truthy_lawyers_value_hides_other_keys (TEXT:=demoText) "t" demoMasked
           eq_refl I).
Defined.

(** X19 on the first demo card. *)
Lemma card_needs_a_name_witness :
  In "h2 a" (@nameSelectors)
  /\ findFirst (DOM:=demoDom) demoFirstCard "h2 a"
     = Some (DemoElement "h2 a" "Ada Park" (Some "/attorneys/1") [])
  /\ exists r,
       extractLawyerFromElement (DOM:=demoDom) "2024-01-01T00:00:00.000Z"
         demoFirstCard = Some r.
Proof.
  assert (Hin : In "h2 a" (@nameSelectors)) by (right; left; reflexivity).
  split; [exact Hin|]. split; [reflexivity|].
  apply (proj1 (card_needs_a_name (HOST:=demoHost) (DOM:=demoDom)
                  "2024-01-01T00:00:00.000Z" demoFirstCard)).
  exists "h2 a", (DemoElement "h2 a" "Ada Park" (Some "/attorneys/1") []).
  split; [exact Hin|]. split; [reflexivity | discriminate].
Defined.

(** X20 on the first demo card, whose link is relative. *)
Lemma card_profile_url_is_absolute_witness :
  extractLawyerFromElement (DOM:=demoDom) "2024-01-01T00:00:00.000Z" demoFirstCard
  = Some demoCardRecord
  /\ profileUrl demoCardRecord = JsString "https://www.avvo.com/attorneys/1"
  /\ exists url,
       profileUrl demoCardRecord = JsString url
       /\ (url = "" \/ startsWith "http" url = true).
Proof.
  assert (Hrecord : extractLawyerFromElement (DOM:=demoDom)
                      "2024-01-01T00:00:00.000Z" demoFirstCard
                    = Some demoCardRecord) by (vm_compute; reflexivity).
  split; [exact Hrecord|]. split; [vm_compute; reflexivity|].
  destruct (card_profile_url_is_absolute (HOST:=demoHost) (DOM:=demoDom) _ _ _ Hrecord)
    as (url & Hurl & Habsolute & _).
  exists url. split; [exact Hurl | exact Habsolute].
Defined.

(** X21 on the first demo card. *)
Lemma card_field_shapes_witness :
  extractLawyerFromElement (DOM:=demoDom) "2024-01-01T00:00:00.000Z" demoFirstCard
  = Some demoCardRecord
  /\ email demoCardRecord = JsString ""
  /\ education demoCardRecord = None.
Proof.
  assert (Hrecord : extractLawyerFromElement (DOM:=demoDom)
                      "2024-01-01T00:00:00.000Z" demoFirstCard
                    = Some demoCardRecord) by (vm_compute; reflexivity).
  destruct (card_field_shapes (HOST:=demoHost) (DOM:=demoDom) _ _ _ Hrecord)
    as (Hemail & Heducation & _).
  split; [exact Hrecord|]. split; [exact Hemail | exact Heducation].
Defined.

(** X22 on the first demo card, which shows 123 reviews. *)
Lemma card_counts_are_natural_witness :
  extractLawyerFromElement (DOM:=demoDom) "2024-01-01T00:00:00.000Z" demoFirstCard
  = Some demoCardRecord
  /\ reviewCount demoCardRecord = JsNumber 123%Z
  /\ exists n, reviewCount demoCardRecord = JsNumber (number_of_Z n) /\ (0 <= n)%Z.
Proof.
  assert (Hrecord : extractLawyerFromElement (DOM:=demoDom)
                      "2024-01-01T00:00:00.000Z" demoFirstCard
                    = Some demoCardRecord) by (vm_compute; reflexivity).
  destruct (card_counts_are_natural (HOST:=demoHost) (DOM:=demoDom) _ _ _ Hrecord)
    as (Hreviews & _).
  split; [exact Hrecord|]. split; [vm_compute; reflexivity | exact Hreviews].
Defined.

(** X23 on the demo document: two cards, one record. *)
Lemma cards_come_from_first_matching_selector_witness :
  lawyerElements (DOM:=demoDom) "<html></html>" <> []
  /\ List.length (lawyerElements (DOM:=demoDom) "<html></html>") = 2%nat
  /\ (List.length (extractLawyerDataViaHTML (DOM:=demoDom)
                     "2024-01-01T00:00:00.000Z" (Some "<html></html>"))
      <= List.length (lawyerElements (DOM:=demoDom) "<html></html>"))%nat
  /\ exists before selector after,
       @cardSelectors = before ++ selector :: after
       /\ lawyerElements (DOM:=demoDom) "<html></html>"
          = dom_select "<html></html>" selector.
Proof.
  assert (Hcards : lawyerElements (DOM:=demoDom) "<html></html>" <> [])
    by (vm_compute; discriminate).
  destruct (cards_come_from_first_matching_selector (HOST:=demoHost) (DOM:=demoDom)
              "2024-01-01T00:00:00.000Z" "<html></html>")
    as (_ & Hfirst & Hcount & _).
  destruct (Hfirst Hcards) as (before & selector & after & Hsplit & Hsame & _).
  split; [exact Hcards|]. split; [vm_compute; reflexivity|]. split; [exact Hcount|].
  exists before, selector, after. split; [exact Hsplit | exact Hsame].
Defined.

(** X7 on the second page of the two-page run, once its records are in
    the set. *)
Lemma duplicate_page_pushes_nothing_witness :
  page_goto (demoListing [ demoLawyer "Ada Park" "https://www.avvo.com/attorneys/1" "" ]
                         true demoSecondUrl) = None
  /\ challengePassed
       (demoListing [ demoLawyer "Ada Park" "https://www.avvo.com/attorneys/1" "" ]
                    true demoSecondUrl)
  /\ (sink (fst (requestHandler false 10
                   (demoListing [ demoLawyer "Ada Park"
                                    "https://www.avvo.com/attorneys/1" "" ]
                                true demoSecondUrl)
                   "u"
                   (setSeenLawyerUrls [JsString "https://www.avvo.com/attorneys/1"]
                                      initialState)))
      = [])
  /\ snd (requestHandler false 10
            (demoListing [ demoLawyer "Ada Park" "https://www.avvo.com/attorneys/1" "" ]
                         true demoSecondUrl)
            "u"
            (setSeenLawyerUrls [JsString "https://www.avvo.com/attorneys/1"]
                               initialState))
     = [demoSecondUrl].
Proof.
  assert (Hpassed : forall cards,
             challengePassed (demoListing cards true demoSecondUrl))
    by (intros cards; unfold challengePassed; vm_compute; repeat constructor).
  assert (Hsome : pageLawyers
                    (demoListing [ demoLawyer "Ada Park"
                                     "https://www.avvo.com/attorneys/1" "" ]
                                 true demoSecondUrl) <> [])
    by (vm_compute; discriminate).
  assert (Hseen : forall r,
             In r (pageLawyers
                     (demoListing [ demoLawyer "Ada Park"
                                      "https://www.avvo.com/attorneys/1" "" ]
                                  true demoSecondUrl)) ->
             truthy (profileUrl r) = true
             /\ setHas (seenLawyerUrls
                          (setSeenLawyerUrls
                             [JsString "https://www.avvo.com/attorneys/1"]
                             initialState))
                       (profileUrl r) = true).
  { intros r [<-|[]]. split; reflexivity. }
  destruct (duplicate_page_pushes_nothing (HOST:=demoHost) false 10%Z
              (demoListing [ demoLawyer "Ada Park"
                               "https://www.avvo.com/attorneys/1" "" ]
                           true demoSecondUrl)
              "u"
              (setSeenLawyerUrls [JsString "https://www.avvo.com/attorneys/1"]
                                 initialState)
              eq_refl (Hpassed _) Hsome Hseen) as (Hsink & _ & _ & Hnext).
  split; [reflexivity|]. split; [apply Hpassed|]. split; [exact Hsink|].
  apply Hnext; [reflexivity | discriminate | reflexivity | reflexivity].
Defined.
